(** * autocan-guard: a shallow embedding of the intrusion detection and
  prevention core, with the properties of its specification.

  Conventions of the embedding.
  - Python [float] values are read as exact rationals ([Q]); literals such
    as [0.8] are the rationals they denote.  Orderings are decided with
    [Qle_bool]; equalities of results are stated with [==] ([Qeq]).
    Where a statement depends on the rounding of the operations (the round
    trip of the frame codec), they are written out in binary64 ([Float64],
    [Codec64]).
  - [time.time()] is an explicit argument of every operation that reads
    the clock.
  - Console output ([print]) and the storage, analytics and V2V sinks are
    left out: no modelled value depends on them.
  - Python [str] is [string]; a [dict] used as a map is a [gmap]. *)

From Stdlib Require Import ZArith QArith String Ascii Lia Lqa.
From Stdlib Require Import DecimalString DecimalPos DecimalZ.
From Stdlib Require Import Qpower Qabs.
From stdpp Require Import gmap strings list.

Open Scope Q_scope.

(** ** Python arithmetic helpers shared by all components *)

Module Py.

(** [a < b], [a <= b], [a > b], [a == b] on floats. *)
Definition ltb (a b : Q) : bool := negb (Qle_bool b a).
Definition leb (a b : Q) : bool := Qle_bool a b.
Definition gtb (a b : Q) : bool := ltb b a.
Definition geb (a b : Q) : bool := leb b a.
Definition eqb (a b : Q) : bool := Qeq_bool a b.

(** [max(a, b)] returns [b] only when [b > a]; [min(a, b)] returns [b]
    only when [b < a]. *)
Definition max (a b : Q) : Q := if gtb b a then b else a.
Definition min (a b : Q) : Q := if ltb b a then b else a.

(** [abs(x)]. *)
Definition abs (x : Q) : Q := if ltb x 0 then - x else x.

End Py.

(** ** trust_engine.py *)

Module Trust.

(** The attributes of [TrustEngine] that its methods read or write.
    [ips_active] is [None] until [set_ips_active] creates the attribute. *)
Record TrustEngine := mkTrustEngine {
  alpha : Q;
  beta : Q;
  gamma : Q;
  vehicle_id : string;
  trust_score : Q;
  last_update : Q;
  min_trust : Q;
  max_trust : Q;
  recovery_rate : Q;
  ml_enabled : bool;
  ips_active : option bool
}.

(** [TrustEngine.__init__], called at clock [now]. *)
Definition init (alpha beta gamma : Q) (vehicle_id : string) (now : Q)
  : TrustEngine :=
  {| alpha := alpha; beta := beta; gamma := gamma;
     vehicle_id := vehicle_id;
     trust_score := 1.0;
     last_update := now;
     min_trust := 0.0;
     max_trust := 1.0;
     recovery_rate := 0.01;
     ml_enabled := true;
     ips_active := None |}.

(** The constructor's default arguments. *)
Definition init_default (now : Q) : TrustEngine :=
  init 0.1 0.2 0.05 "vehicleA" now.

(** [TrustEngine.update_trust]: the engine after the call and the
    returned score. *)
Definition update_trust (now : Q) (anomaly_score auth_result temporal_score : Q)
    (e : TrustEngine) : TrustEngine * Q :=
  let effective_anomaly_score :=
    if ml_enabled e then anomaly_score else 0.0 in
  let trust_delta :=
    - alpha e * effective_anomaly_score
    - beta e * (1 - auth_result)
    - gamma e * (1 - temporal_score) in
  let trust_delta :=
    if Py.ltb effective_anomaly_score 0.1
    then trust_delta + recovery_rate e else trust_delta in
  let score := trust_score e + trust_delta in
  let score := Py.max (min_trust e) (Py.min (max_trust e) score) in
  ({| alpha := alpha e; beta := beta e; gamma := gamma e;
      vehicle_id := vehicle_id e;
      trust_score := score;
      last_update := now;
      min_trust := min_trust e;
      max_trust := max_trust e;
      recovery_rate := recovery_rate e;
      ml_enabled := ml_enabled e;
      ips_active := ips_active e |}, score).

(** [TrustEngine.reset_trust]. *)
Definition reset_trust (now : Q) (e : TrustEngine) : TrustEngine :=
  {| alpha := alpha e; beta := beta e; gamma := gamma e;
     vehicle_id := vehicle_id e;
     trust_score := max_trust e;
     last_update := now;
     min_trust := min_trust e;
     max_trust := max_trust e;
     recovery_rate := recovery_rate e;
     ml_enabled := ml_enabled e;
     ips_active := ips_active e |}.

(** [TrustEngine.set_ml_enabled]. *)
Definition set_ml_enabled (enabled : bool) (e : TrustEngine) : TrustEngine :=
  {| alpha := alpha e; beta := beta e; gamma := gamma e;
     vehicle_id := vehicle_id e;
     trust_score := trust_score e;
     last_update := last_update e;
     min_trust := min_trust e;
     max_trust := max_trust e;
     recovery_rate := recovery_rate e;
     ml_enabled := enabled;
     ips_active := ips_active e |}.

(** [TrustEngine.set_ips_active]. *)
Definition set_ips_active (active : bool) (e : TrustEngine) : TrustEngine :=
  {| alpha := alpha e; beta := beta e; gamma := gamma e;
     vehicle_id := vehicle_id e;
     trust_score := trust_score e;
     last_update := last_update e;
     min_trust := min_trust e;
     max_trust := max_trust e;
     recovery_rate := recovery_rate e;
     ml_enabled := ml_enabled e;
     ips_active := Some active |}.

(** [TrustEngine.get_trust_level]. *)
Definition get_trust_level (e : TrustEngine) : string :=
  if Py.gtb (trust_score e) 0.8 then "HIGH"
  else if Py.gtb (trust_score e) 0.6 then "MEDIUM"
  else if Py.gtb (trust_score e) 0.4 then "LOW"
  else "CRITICAL".

(** [TrustEngine.get_security_mode]. *)
Definition get_security_mode (e : TrustEngine) : string :=
  if ml_enabled e then "CRYPTO_PLUS_ML" else "CRYPTO_ONLY".

(** The calls a client can make on an engine, and a run of them. *)
Inductive call :=
| CUpdate (now anomaly_score auth_result temporal_score : Q)
| CReset (now : Q)
| CSetMl (enabled : bool)
| CSetIps (active : bool).

Definition step (e : TrustEngine) (c : call) : TrustEngine :=
  match c with
  | CUpdate now a au t => fst (update_trust now a au t e)
  | CReset now => reset_trust now e
  | CSetMl b => set_ml_enabled b e
  | CSetIps b => set_ips_active b e
  end.

Definition run (e : TrustEngine) (cs : list call) : TrustEngine :=
  fold_left step cs e.

(** The update law in the words of the specification. *)
Definition clamp (x lo hi : Q) : Q :=
  if Py.ltb x lo then lo else if Py.ltb hi x then hi else x.

Definition spec_update (alpha beta gamma rho : Q) (ml : bool)
    (trust anomaly auth temporal : Q) : Q :=
  let eff_anom := if ml then anomaly else 0 in
  let delta :=
    - (alpha * eff_anom) - beta * (1 - auth) - gamma * (1 - temporal) in
  let delta := if Py.ltb eff_anom 0.1 then delta + rho else delta in
  clamp (trust + delta) 0 1.

(** The parameters set by the constructor are never written again. *)
Definition params_of (e : TrustEngine) : Q * Q * Q * Q * Q * Q :=
  (alpha e, beta e, gamma e, recovery_rate e, min_trust e, max_trust e).

End Trust.

(** ** ips_engine.py *)

Module IPS.

(** [IPSState.mode] is one of four strings. *)
Inductive Mode := OFF | SOFT_LIMIT | SAFE_MODE | CRITICAL.

Definition Mode_eqb (a b : Mode) : bool :=
  match a, b with
  | OFF, OFF | SOFT_LIMIT, SOFT_LIMIT | SAFE_MODE, SAFE_MODE
  | CRITICAL, CRITICAL => true
  | _, _ => false
  end.

Record IPSState := mkIPSState {
  enabled : bool;
  mode : Mode;
  last_safe_speed : Q;
  last_safe_steering : Q;
  recovery_timer : Q;
  sustained_anomaly_start : option Q
}.

(** The dataclass defaults, as [IPSPolicyEngine.__init__] builds the state. *)
Definition init : IPSState :=
  {| enabled := true; mode := OFF;
     last_safe_speed := 30.0; last_safe_steering := 0.0;
     recovery_timer := 0.0; sustained_anomaly_start := None |}.

(** Constants of [IPSPolicyEngine.__init__]. *)
Definition SUSTAINED_ANOMALY_THRESHOLD : Q := 3.0.
Definition MAX_SAFE_SPEED : Q := 40.0.
Definition MAX_ACCEL : Q := 5.0.
Definition RECOVERY_TIME : Q := 10.0.

(** The policy dictionary.  A key that is absent or holds [None] is [None]. *)
Record Policy := mkPolicy {
  p_mode : Mode;
  action : string;
  speed_limit : option Q;
  steering_limit : option Q;
  max_accel : option Q
}.

(** [IPSPolicyEngine.set_enabled]. *)
Definition set_enabled (b : bool) (st : IPSState) : IPSState :=
  if b then
    {| enabled := b; mode := mode st;
       last_safe_speed := last_safe_speed st;
       last_safe_steering := last_safe_steering st;
       recovery_timer := recovery_timer st;
       sustained_anomaly_start := sustained_anomaly_start st |}
  else
    {| enabled := b; mode := OFF;
       last_safe_speed := last_safe_speed st;
       last_safe_steering := last_safe_steering st;
       recovery_timer := 0.0;
       sustained_anomaly_start := None |}.

(** [IPSPolicyEngine._get_policy_limits]. *)
Definition _get_policy_limits (st : IPSState) : Policy :=
  match mode st with
  | OFF =>
      {| p_mode := OFF; action := "ALLOW"; speed_limit := None;
         steering_limit := None; max_accel := None |}
  | SOFT_LIMIT =>
      {| p_mode := SOFT_LIMIT; action := "CLAMP"; speed_limit := Some 40.0;
         steering_limit := Some 15.0; max_accel := Some MAX_ACCEL |}
  | SAFE_MODE =>
      {| p_mode := SAFE_MODE; action := "RESTRICT"; speed_limit := Some 35.0;
         steering_limit := Some 10.0; max_accel := Some 2.0 |}
  | CRITICAL =>
      {| p_mode := CRITICAL; action := "MINIMAL"; speed_limit := Some 25.0;
         steering_limit := Some 5.0; max_accel := Some 1.0 |}
  end.

Definition with_mode_timer (m : Mode) (t : Q) (st : IPSState) : IPSState :=
  {| enabled := enabled st; mode := m;
     last_safe_speed := last_safe_speed st;
     last_safe_steering := last_safe_steering st;
     recovery_timer := t;
     sustained_anomaly_start := sustained_anomaly_start st |}.

(** [IPSPolicyEngine.update_policy], with [current_time = time.time()]. *)
Definition update_policy (current_time : Q) (trust_score anomaly_score : Q)
    (attack_active : bool) (st : IPSState) : IPSState * Policy :=
  if negb (enabled st) then
    (st, {| p_mode := OFF; action := "ALLOW"; speed_limit := None;
            steering_limit := None; max_accel := None |})
  else
    let st' :=
      if Py.ltb trust_score 0.8 then
        let m :=
          if Py.geb trust_score 0.7 then SOFT_LIMIT
          else if Py.geb trust_score 0.5 then SAFE_MODE
          else CRITICAL in
        with_mode_timer m 0.0 st
      else
        if negb (Mode_eqb (mode st) OFF) then
          if Py.eqb (recovery_timer st) 0 then
            with_mode_timer (mode st) current_time st
          else if Py.gtb (current_time - recovery_timer st) 5.0 then
            with_mode_timer OFF 0.0 st
          else st
        else st in
    (st', _get_policy_limits st').

(** [IPSPolicyEngine.sanitize_speed]: the state after the call and the
    returned speed.  Every policy of a mode other than OFF carries a speed
    limit, so the [None] branch is never taken. *)
Definition sanitize_speed (requested_speed current_speed : Q) (st : IPSState)
  : IPSState * Q :=
  let policy := _get_policy_limits st in
  match p_mode policy with
  | OFF =>
      ({| enabled := enabled st; mode := mode st;
          last_safe_speed := requested_speed;
          last_safe_steering := last_safe_steering st;
          recovery_timer := recovery_timer st;
          sustained_anomaly_start := sustained_anomaly_start st |},
       requested_speed)
  | SOFT_LIMIT | SAFE_MODE | CRITICAL =>
      match speed_limit policy with
      | Some limit =>
          let safe_speed := Py.min limit (current_speed + 2.0) in
          let safe_speed := Py.max safe_speed 10.0 in
          (st, safe_speed)
      | None => (st, requested_speed)
      end
  end.

(** [IPSPolicyEngine.sanitize_steering]. *)
Definition sanitize_steering (requested_steering : Q) (st : IPSState)
  : IPSState * Q :=
  let policy := _get_policy_limits st in
  match p_mode policy with
  | OFF =>
      ({| enabled := enabled st; mode := mode st;
          last_safe_speed := last_safe_speed st;
          last_safe_steering := requested_steering;
          recovery_timer := recovery_timer st;
          sustained_anomaly_start := sustained_anomaly_start st |},
       requested_steering)
  | SOFT_LIMIT | SAFE_MODE | CRITICAL =>
      match steering_limit policy with
      | Some limit =>
          let safe_steering := last_safe_steering st * 0.9 in
          let safe_steering :=
            Py.max (- limit) (Py.min limit safe_steering) in
          (st, safe_steering)
      | None => (st, requested_steering)
      end
  end.

(** The calls made on an engine, and the state after a run of them from
    the constructor's state. *)
Inductive call :=
| CUpdate (current_time trust_score anomaly_score : Q) (attack_active : bool)
| CSetEnabled (b : bool)
| CSanitizeSpeed (requested_speed current_speed : Q)
| CSanitizeSteering (requested_steering : Q).

Definition step (st : IPSState) (c : call) : IPSState :=
  match c with
  | CUpdate now t a k => fst (update_policy now t a k st)
  | CSetEnabled b => set_enabled b st
  | CSanitizeSpeed r c => fst (sanitize_speed r c st)
  | CSanitizeSteering r => fst (sanitize_steering r st)
  end.

Definition run (cs : list call) : IPSState := fold_left step cs init.

(** The values returned by [n] consecutive [sanitize_steering] calls. *)
Fixpoint steering_outputs (n : nat) (requested : Q) (st : IPSState) : list Q :=
  match n with
  | O => []
  | S k =>
      let r := sanitize_steering requested st in
      snd r :: steering_outputs k requested (fst r)
  end.

(** An update that observes trust at or above the recovery threshold; any
    other call observes nothing. *)
Definition high_trust (c : call) : Prop :=
  match c with
  | CUpdate _ t _ _ => 0.8 <= t
  | _ => True
  end.

(** What the recovery timer records about the calls made so far:
    - while the engine is switched off the timer is zero;
    - a running timer holds the clock of an earlier update that saw trust at
      or above 0.8, and every update since then saw the same. *)
Definition timer_inv (cs : list call) (st : IPSState) : Prop :=
  (enabled st = false -> recovery_timer st == 0)
  /\ (~ recovery_timer st == 0 ->
      exists pre t0 trust0 a0 k0 mid,
        cs = pre ++ CUpdate t0 trust0 a0 k0 :: mid
        /\ recovery_timer st = t0
        /\ 0.8 <= trust0
        /\ Forall high_trust mid).

End IPS.

(** ** security/keys.py, security/signer.py, security/verifier.py *)

Module Security.

(** The values an envelope ([dict]) can hold under a key, as far as the
    verifier tells them apart: [None] (also what [dict.get] returns for an
    absent key), an [int], or a [str]. *)
Inductive pyval :=
| PNone
| PInt (n : Z)
| PStr (s : string).

(** Truth value of a Python object, as [all([...])] tests it. *)
Definition truthy (v : pyval) : bool :=
  match v with
  | PNone => false
  | PInt n => negb (n =? 0)%Z
  | PStr s => negb (String.eqb s "")
  end.

(** [str(n)] for an [int]. *)
Definition str_Z (n : Z) : string := NilZero.string_of_int (Z.to_int n).

(** How an f-string renders a value. *)
Definition py_str (v : pyval) : string :=
  match v with
  | PNone => "None"
  | PInt n => str_Z n
  | PStr s => s
  end.

(** [bytes.hex()]. *)
Definition hex_digit (n : N) : ascii :=
  match String.get (N.to_nat n) "0123456789abcdef" with
  | Some c => c
  | None => "0"%char
  end.

Definition hex_of_byte (b : Byte.byte) : string :=
  let n := Byte.to_N b in
  String (hex_digit (n / 16)) (String (hex_digit (n mod 16)) EmptyString).

Fixpoint hex (bs : list Byte.byte) : string :=
  match bs with
  | [] => EmptyString
  | b :: bs' => hex_of_byte b ++ hex bs'
  end.

(** [hmac.compare_digest] on two [str] raises [TypeError] unless both are
    ASCII. *)
Fixpoint is_ascii (s : string) : bool :=
  match s with
  | EmptyString => true
  | String c s' => (N_of_ascii c <? 128)%N && is_ascii s'
  end.

(** keys.py *)
Definition DEVICE_KEYS_items : list (string * string) :=
  [ ("vehicleA-steering-ecu", "steering_key_v1_secret_2024");
    ("vehicleA-speed-ecu", "speed_key_v1_secret_2024");
    ("vehicleA-brake-ecu", "brake_key_v1_secret_2024");
    ("vehicleA-ui-controller", "ui_key_v1_secret_2024");
    ("vehicleA-v2v", "v2v_key_v1_secret_2024");
    ("vehicleB-v2v", "v2v_key_v1_secret_2024");
    ("attacker-unknown", "fake_key_attempt_2024") ].

Definition DEVICE_KEYS : gmap string string := list_to_map DEVICE_KEYS_items.

Definition CURRENT_KEY_VERSION : Z := 1.
Definition PREVIOUS_KEY_VERSION : Z := 0.
Definition TIMESTAMP_WINDOW_MS : Z := 5000.
Definition SEQUENCE_RESET_THRESHOLD : Z := 1000000.

Definition get_device_key (device_id : string) : option string :=
  DEVICE_KEYS !! device_id.

Definition is_valid_device (device_id : string) : bool :=
  bool_decide (is_Some (DEVICE_KEYS !! device_id)).

(** The signed envelope: what [secure_msg.get(k)] returns for each key. *)
Record envelope := mkEnvelope {
  e_device_id : pyval;
  e_timestamp : pyval;
  e_sequence : pyval;
  e_key_version : pyval;
  e_can_id : pyval;
  e_payload : pyval;
  e_signature : pyval
}.

(** The second component of the verifier's result.  [VerificationError] is
    the catch-all of the [except] clause. *)
Inductive reason :=
| MissingFields
| UnknownDevice (device_id : pyval)
| TooOld (age : Z)
| SequenceReplay (sequence last_seq : Z)
| InvalidHMAC
| ValidMessage
| VerificationError.

(** The text of each reason; the exception's own text is left out. *)
Definition reason_text (r : reason) : string :=
  match r with
  | MissingFields => "Missing required fields"
  | UnknownDevice d => "Unknown device: " ++ py_str d
  | TooOld age => "Message too old: " ++ str_Z age ++ "ms"
  | SequenceReplay s l => "Sequence replay: " ++ str_Z s ++ " <= " ++ str_Z l
  | InvalidHMAC => "Invalid HMAC signature"
  | ValidMessage => "Valid message"
  | VerificationError => "Verification error: "
  end.

(** [MessageVerifier]: two [defaultdict]s keyed by device id. *)
Record MessageVerifier := mkVerifier {
  last_sequences : gmap string Z;
  message_history : gmap string (list Z)
}.

Definition verifier_init : MessageVerifier :=
  {| last_sequences := ∅; message_history := ∅ |}.

(** [MessageSigner]; [saved_sequence] is the content of the sequence file. *)
Record MessageSigner := mkSigner {
  s_device_id : string;
  s_key : string;
  s_sequence : Z;
  saved_sequence : option Z
}.

(** [MessageSigner.__init__]: [stored] is the integer read from the
    sequence file, if the file exists and parses.  [None] stands for the
    [ValueError] raised for a device without a key. *)
Definition signer_init (device_id : string) (stored : option Z)
  : option MessageSigner :=
  match get_device_key device_id with
  | Some key =>
      if String.eqb key "" then None
      else Some {| s_device_id := device_id; s_key := key;
                   s_sequence := default 1%Z stored;
                   saved_sequence := stored |}
  | None => None
  end.

(** The message over which the signature is computed. *)
Definition message_data (device_id timestamp sequence can_id payload : string)
  : string :=
  device_id ++ ":" ++ timestamp ++ ":" ++ sequence ++ ":" ++ can_id ++ ":" ++ payload.

Section WithHmac.

(** [hmac.new(key, msg, hashlib.sha256).digest()], a library function. *)
Variable hmac_sha256 : string -> string -> list Byte.byte.

(** [hmac.new(key, msg, hashlib.sha256).hexdigest()]. *)
Definition hexdigest (key msg : string) : string := hex (hmac_sha256 key msg).

(** [MessageSigner.sign_message], with [timestamp = int(time.time() * 1000)]
    and a [bytes] payload. *)
Definition sign_message (timestamp : Z) (can_id : Z) (payload : list Byte.byte)
    (s : MessageSigner) : MessageSigner * envelope :=
  let sequence := (s_sequence s + 1)%Z in
  let payload_hex := hex payload in
  let data :=
    message_data (s_device_id s) (str_Z timestamp) (str_Z sequence)
      (str_Z can_id) payload_hex in
  let signature := hexdigest (s_key s) data in
  ({| s_device_id := s_device_id s; s_key := s_key s;
      s_sequence := sequence; saved_sequence := Some sequence |},
   {| e_device_id := PStr (s_device_id s);
      e_timestamp := PInt timestamp;
      e_sequence := PInt sequence;
      e_key_version := PInt CURRENT_KEY_VERSION;
      e_can_id := PInt can_id;
      e_payload := PStr payload_hex;
      e_signature := PStr signature |}).

(** The signature expected for an envelope of device [d] with integer
    timestamp [ts] and sequence [seq]. *)
Definition expected_signature (key d : string) (ts seq : Z)
    (secure_msg : envelope) : string :=
  hexdigest key
    (message_data d (str_Z ts) (str_Z seq) (py_str (e_can_id secure_msg))
       (py_str (e_payload secure_msg))).

(** Steps 4 and 5 of [verify_message]: the signature check and, when it
    passes, the update of the tracking maps.  A [TypeError] of
    [compare_digest] (a signature that is no [str], or not ASCII) ends in
    the [except] clause. *)
Definition check_signature (current_time : Z) (key d : string) (ts seq : Z)
    (secure_msg : envelope) (v : MessageVerifier)
  : MessageVerifier * (bool * reason) :=
  let expected := expected_signature key d ts seq secure_msg in
  match e_signature secure_msg with
  | PStr sig =>
    if negb (is_ascii sig && is_ascii expected)
    then (v, (false, VerificationError))
    else if negb (String.eqb sig expected)
    then (v, (false, InvalidHMAC))
    else
      let history := default [] (message_history v !! d) ++ [ts] in
      let cutoff := (current_time - TIMESTAMP_WINDOW_MS)%Z in
      ({| last_sequences := <[d := seq]> (last_sequences v);
          message_history :=
            <[d := List.filter (fun t => (t >? cutoff)%Z) history]>
              (message_history v) |},
       (true, ValidMessage))
  | _ => (v, (false, VerificationError))
  end.

(** The verifier after [self.last_sequences[device_id]] was read (the
    [defaultdict] creates the entry) and after it was assigned. *)
Definition read_last_sequence (d : string) (v : MessageVerifier)
  : MessageVerifier * Z :=
  let last_seq := default 0%Z (last_sequences v !! d) in
  ({| last_sequences := <[d := last_seq]> (last_sequences v);
      message_history := message_history v |}, last_seq).

Definition set_last_sequence (d : string) (seq : Z) (v : MessageVerifier)
  : MessageVerifier :=
  {| last_sequences := <[d := seq]> (last_sequences v);
     message_history := message_history v |}.

(** [MessageVerifier.verify_message], with
    [current_time = int(time.time() * 1000)].  What was written before a
    rejection stays written.  A [TypeError] (arithmetic or comparison of a
    [str] with an [int]) ends in the [except] clause. *)
Definition verify_message (current_time : Z) (secure_msg : envelope)
    (v : MessageVerifier) : MessageVerifier * (bool * reason) :=
  let device_id := e_device_id secure_msg in
  let timestamp := e_timestamp secure_msg in
  let sequence := e_sequence secure_msg in
  let can_id := e_can_id secure_msg in
  let payload := e_payload secure_msg in
  let signature := e_signature secure_msg in
  if negb (forallb truthy
             [device_id; timestamp; sequence; can_id; payload; signature])
  then (v, (false, MissingFields))
  else
  match device_id with
  | PStr d =>
    match get_device_key d with
    | None => (v, (false, UnknownDevice device_id))
    | Some key =>
      if String.eqb key "" then (v, (false, UnknownDevice device_id)) else
      match timestamp with
      | PInt ts =>
        if (Z.abs (current_time - ts) >? TIMESTAMP_WINDOW_MS)%Z
        then (v, (false, TooOld (current_time - ts)))
        else
        let '(v1, last_seq) := read_last_sequence d v in
        match sequence with
        | PInt seq =>
          if (seq <=? last_seq)%Z then
            if (seq <? last_seq - 100)%Z then
              check_signature current_time key d ts seq secure_msg
                (set_last_sequence d seq v1)
            else (v1, (false, SequenceReplay seq last_seq))
          else check_signature current_time key d ts seq secure_msg v1
        | _ => (v1, (false, VerificationError))
        end
      | _ => (v, (false, VerificationError))
      end
    end
  | _ => (v, (false, UnknownDevice device_id))
  end.

End WithHmac.

(** A stand-in for the digest, used to run the model on concrete inputs:
    the last 32 bytes of the key followed by the message, last byte first,
    filled up with zeros. *)
Definition toy_digest (key msg : string) : list Byte.byte :=
  take 32 (rev (list_byte_of_string (key ++ msg)) ++ repeat Byte.x00 32).

(** The checks of [verify_message] that come before the sequence check, for
    an envelope of device [d] with key [key] and integer timestamp [ts]:
    every required field is truthy, the device has a key, and the timestamp
    is within the window of the clock [current_time]. *)
Definition early_checks_pass (current_time : Z) (secure_msg : envelope)
    (d key : string) (ts : Z) : Prop :=
  forallb truthy
    [e_device_id secure_msg; e_timestamp secure_msg; e_sequence secure_msg;
     e_can_id secure_msg; e_payload secure_msg; e_signature secure_msg] = true
  /\ e_device_id secure_msg = PStr d
  /\ get_device_key d = Some key
  /\ key <> ""
  /\ e_timestamp secure_msg = PInt ts
  /\ (Z.abs (current_time - ts) <= TIMESTAMP_WINDOW_MS)%Z.

(** The sequence last stored for a device ([0] for a device never seen). *)
Definition last_sequence (d : string) (v : MessageVerifier) : Z :=
  default 0%Z (last_sequences v !! d).

(** No character of the text is a colon. *)
Fixpoint no_colon (s : string) : bool :=
  match s with
  | EmptyString => true
  | String c s' => negb (Ascii.eqb c ":") && no_colon s'
  end.

(** Values for concrete runs. *)

(** The speed ECU's signer with sequence 449, and the 8-byte frame of
    30.0 km/h. *)
Definition speed_signer : MessageSigner :=
  {| s_device_id := "vehicleA-speed-ecu"; s_key := "speed_key_v1_secret_2024";
     s_sequence := 449; saved_sequence := Some 449%Z |}.

Definition frame_30 : list Byte.byte :=
  [Byte.x01; Byte.x2c; Byte.x00; Byte.x00; Byte.x00; Byte.x00; Byte.x00; Byte.x00].

(** The envelope with sequence 450 signed at clock 1000000 ms. *)
Definition genuine_450 : envelope :=
  snd (sign_message toy_digest 1000000 0x130 frame_30 speed_signer).

(** A verifier that accepted sequence 500 of the speed ECU. *)
Definition verifier_500 : MessageVerifier :=
  {| last_sequences := {[ "vehicleA-speed-ecu" := 500%Z ]};
     message_history := {[ "vehicleA-speed-ecu" := [999000%Z] ]} |}.

(** An envelope with sequence 10 and a signature that is not the digest. *)
Definition forged_10 : envelope :=
  {| e_device_id := PStr "vehicleA-speed-ecu";
     e_timestamp := PInt 1000100;
     e_sequence := PInt 10;
     e_key_version := PInt 1;
     e_can_id := PInt 0x130;
     e_payload := PStr "ffff000000000000";
     e_signature := PStr "00" |}.

End Security.

(** ** physics_validator.py *)

Module Physics.

(** One entry of a [violations] list.  The source formats each as text
    ([accel:4.2m/s²]); the model keeps the tag and the number. *)
Inductive violation :=
| VAccel (acceleration : Q)
| VDecel (acceleration : Q)
| VDelta (speed_delta : Q)
| VRate (steering_rate : Q)
| VSpeedUpWhileBraking
| VHighSpeedNoSteering
| VExtremeSteeringHighSpeed.

(** The reason string: a fixed word, or a prefix and the joined violations
    (an empty list stands for the [..._valid] word of that validator). *)
Inductive preason :=
| RInitial
| RNoTimeDelta
| RSpeed (violations : list violation)
| RSteering (violations : list violation)
| RCorrelation (violations : list violation).

Record PhysicsValidator := mkPhysicsValidator {
  MAX_ACCELERATION : Q;
  MAX_DECELERATION : Q;
  MAX_SPEED_DELTA_PER_CYCLE : Q;
  MAX_STEERING_RATE : Q;
  speed_history : list Q;
  steering_history : list Q;
  timestamp_history : list Q;
  last_speed : Q;
  last_steering : Q;
  last_timestamp : Q
}.

(** [PhysicsValidator.__init__] at clock [now]. *)
Definition init (now : Q) : PhysicsValidator :=
  {| MAX_ACCELERATION := 4.0;
     MAX_DECELERATION := 9.0;
     MAX_SPEED_DELTA_PER_CYCLE := 5.0;
     MAX_STEERING_RATE := 30.0;
     speed_history := [];
     steering_history := [];
     timestamp_history := [];
     last_speed := 0.0;
     last_steering := 0.0;
     last_timestamp := now |}.

(** [deque(maxlen=10).append]. *)
Definition deque_append (l : list Q) (x : Q) : list Q :=
  let l' := l ++ [x] in
  drop (length l' - 10) l'.

(** [PhysicsValidator._update_history]. *)
Definition _update_history (speed steering timestamp : Q)
    (pv : PhysicsValidator) : PhysicsValidator :=
  {| MAX_ACCELERATION := MAX_ACCELERATION pv;
     MAX_DECELERATION := MAX_DECELERATION pv;
     MAX_SPEED_DELTA_PER_CYCLE := MAX_SPEED_DELTA_PER_CYCLE pv;
     MAX_STEERING_RATE := MAX_STEERING_RATE pv;
     speed_history := deque_append (speed_history pv) speed;
     steering_history := deque_append (steering_history pv) steering;
     timestamp_history := deque_append (timestamp_history pv) timestamp;
     last_speed := speed;
     last_steering := steering;
     last_timestamp := timestamp |}.

Definition is_empty (l : list Q) : bool :=
  match l with [] => true | _ => false end.

(** [PhysicsValidator.validate_speed_physics]. *)
Definition validate_speed_physics (speed timestamp : Q) (pv : PhysicsValidator)
  : PhysicsValidator * (bool * preason * Q) :=
  if is_empty (speed_history pv) then
    (_update_history speed 0.0 timestamp pv, (true, RInitial, 1.0))
  else
    let dt := timestamp - last_timestamp pv in
    if Py.leb dt 0 then (pv, (true, RNoTimeDelta, 1.0))
    else
      let speed_delta := speed - last_speed pv in
      let acceleration := (speed_delta / 3.6) / dt in
      let violation_score := 0.0 in
      let violations := [] in
      let '(violation_score, violations) :=
        if Py.gtb acceleration (MAX_ACCELERATION pv) then
          (Py.min 1.0 (acceleration / MAX_ACCELERATION pv - 1.0),
           violations ++ [VAccel acceleration])
        else (violation_score, violations) in
      let '(violation_score, violations) :=
        if Py.ltb acceleration (- MAX_DECELERATION pv) then
          (Py.min 1.0 (Py.abs acceleration / MAX_DECELERATION pv - 1.0),
           violations ++ [VDecel acceleration])
        else (violation_score, violations) in
      let '(violation_score, violations) :=
        if Py.gtb (Py.abs speed_delta) (MAX_SPEED_DELTA_PER_CYCLE pv)
           && Py.ltb dt 0.2 then
          (Py.max violation_score 0.8, violations ++ [VDelta speed_delta])
        else (violation_score, violations) in
      let pv' := _update_history speed 0.0 timestamp pv in
      let is_valid := Py.ltb violation_score 0.5 in
      (pv', (is_valid, RSpeed violations, 1.0 - violation_score)).

(** [PhysicsValidator.validate_steering_physics]. *)
Definition validate_steering_physics (steering timestamp : Q)
    (pv : PhysicsValidator) : PhysicsValidator * (bool * preason * Q) :=
  if is_empty (steering_history pv) then
    (_update_history 0.0 steering timestamp pv, (true, RInitial, 1.0))
  else
    let dt := timestamp - last_timestamp pv in
    if Py.leb dt 0 then (pv, (true, RNoTimeDelta, 1.0))
    else
      let steering_delta := Py.abs (steering - last_steering pv) in
      let steering_rate := steering_delta / dt in
      let violation_score := 0.0 in
      let violations := [] in
      let '(violation_score, violations) :=
        if Py.gtb steering_rate (MAX_STEERING_RATE pv) then
          (Py.min 1.0 (steering_rate / MAX_STEERING_RATE pv - 1.0),
           violations ++ [VRate steering_rate])
        else (violation_score, violations) in
      let is_valid := Py.ltb violation_score 0.5 in
      (pv, (is_valid, RSteering violations, 1.0 - violation_score)).

(** [PhysicsValidator.validate_correlation]; it changes no state. *)
Definition validate_correlation (speed steering brake : Q)
    (pv : PhysicsValidator) : bool * preason * Q :=
  let violations := [] in
  let violation_score := 0.0 in
  let '(violation_score, violations) :=
    if (2 <=? length (speed_history pv))%nat then
      let speed_increasing := Py.gtb speed (last_speed pv + 1.0) in
      if speed_increasing && Py.gtb brake 10.0 then
        (Py.max violation_score 0.7, violations ++ [VSpeedUpWhileBraking])
      else (violation_score, violations)
    else (violation_score, violations) in
  let '(violation_score, violations) :=
    if Py.gtb speed 80.0 && Py.ltb (Py.abs steering) 1.0 then
      if (8 <? length (List.filter (fun s => Py.ltb (Py.abs s) 1.0)
                         (steering_history pv)))%nat then
        (Py.max violation_score 0.3, violations ++ [VHighSpeedNoSteering])
      else (violation_score, violations)
    else (violation_score, violations) in
  let '(violation_score, violations) :=
    if Py.gtb speed 60.0 && Py.gtb (Py.abs steering) 25.0 then
      (Py.max violation_score 0.6, violations ++ [VExtremeSteeringHighSpeed])
    else (violation_score, violations) in
  let is_valid := Py.ltb violation_score 0.5 in
  (is_valid, RCorrelation violations, 1.0 - violation_score).

(** The dictionary returned by [get_physics_score]. *)
Record physics_result := mkPhysicsResult {
  physics_score : Q;
  speed_valid : bool;
  steering_valid : bool;
  correlation_valid : bool;
  violations_speed : option preason;
  violations_steering : option preason;
  violations_correlation : option preason;
  overall_valid : bool
}.

(** [PhysicsValidator.get_physics_score]. *)
Definition get_physics_score (speed steering brake timestamp : Q)
    (pv : PhysicsValidator) : PhysicsValidator * physics_result :=
  let '(pv1, (speed_valid, speed_reason, speed_score)) :=
    validate_speed_physics speed timestamp pv in
  let '(pv2, (steering_valid, steering_reason, steering_score)) :=
    validate_steering_physics steering timestamp pv1 in
  let '(corr_valid, corr_reason, corr_score) :=
    validate_correlation speed steering brake pv2 in
  let combined_score :=
    0.5 * speed_score + 0.3 * steering_score + 0.2 * corr_score in
  (pv2,
   {| physics_score := combined_score;
      speed_valid := speed_valid;
      steering_valid := steering_valid;
      correlation_valid := corr_valid;
      violations_speed := if negb speed_valid then Some speed_reason else None;
      violations_steering :=
        if negb steering_valid then Some steering_reason else None;
      violations_correlation :=
        if negb corr_valid then Some corr_reason else None;
      overall_valid := speed_valid && steering_valid && corr_valid |}).

End Physics.

(** ** The frame payloads: can_generator.py (producer) and
    can_listener.py (consumer)

    The arithmetic is exact here, for the statements on overflow, lengths
    and limits; [Codec64] has the same functions with the binary64
    operations written out. *)

Module Codec.

(** [int(x)] on a float: truncation toward zero. *)
Definition py_int (x : Q) : Z := Z.quot (Qnum x) (Z.pos (Qden x)).

(** [val.to_bytes(2, 'big')]; [None] stands for [OverflowError]. *)
Definition to_bytes_2_big (val : Z) : option (list Byte.byte) :=
  if ((0 <=? val) && (val <? 65536))%Z then
    match Byte.of_N (Z.to_N (val / 256)), Byte.of_N (Z.to_N (val mod 256)) with
    | Some hi, Some lo => Some [hi; lo]
    | _, _ => None
    end
  else None.

(** [int.from_bytes(bs, 'big')]. *)
Definition int_from_bytes_big (bs : list Byte.byte) : Z :=
  fold_left (fun acc b => (acc * 256 + Z.of_N (Byte.to_N b))%Z) bs 0%Z.

(** [val.to_bytes(2, 'big') + b'\x00' * 6]. *)
Definition frame_data (val : Z) : option (list Byte.byte) :=
  match to_bytes_2_big val with
  | Some bs => Some (bs ++ repeat Byte.x00 6)
  | None => None
  end.

(** The payload built by [CANMessageGenerator._send_steering]. *)
Definition steering_data (target_steering : Q) : option (list Byte.byte) :=
  frame_data (py_int ((target_steering + 45) * 10)).

(** The payload built by [CANMessageGenerator._send_speed]. *)
Definition speed_data (target_speed : Q) : option (list Byte.byte) :=
  frame_data (py_int (target_speed * 10)).

(** The payload built by [CANMessageGenerator._send_brake]. *)
Definition brake_data (target_brake : Q) : option (list Byte.byte) :=
  frame_data (py_int (target_brake * 10)).

Inductive signal := Steering | Speed | Brake.

(** CAN identifiers of the three frames. *)
Definition can_id_of (s : signal) : Z :=
  match s with
  | Steering => 0x120
  | Speed => 0x130
  | Brake => 0x140
  end.

(** The producer's payload for each signal. *)
Definition encode (s : signal) (x : Q) : option (list Byte.byte) :=
  match s with
  | Steering => steering_data x
  | Speed => speed_data x
  | Brake => brake_data x
  end.

(** "Extract signal values" in [CANListener._process_message]: the signal
    and its value, or [None] for an identifier the listener ignores. *)
Definition extract_signal (can_id : Z) (data : list Byte.byte)
  : option (signal * Q) :=
  if (can_id =? 0x120)%Z then
    Some (Steering, inject_Z (int_from_bytes_big (take 2 data)) / 10.0 - 45.0)
  else if (can_id =? 0x130)%Z then
    Some (Speed, inject_Z (int_from_bytes_big (take 2 data)) / 10.0)
  else if (can_id =? 0x140)%Z then
    Some (Brake, inject_Z (int_from_bytes_big (take 2 data)) / 10.0)
  else None.

(** The range of each signal in the specification's codec table. *)
Definition in_range (s : signal) (x : Q) : Prop :=
  match s with
  | Steering => -45 <= x <= 45
  | Speed => 0 <= x <= 6553.5
  | Brake => 0 <= x <= 100
  end.

End Codec.

(** ** can_listener.py: the detection phase of [_process_message] *)

Module Listener.

Import Physics.

(** [needle in hay] on strings. *)
Fixpoint contains (needle hay : string) : bool :=
  String.prefix needle hay
  || match hay with
     | EmptyString => false
     | String _ hay' => contains needle hay'
     end.

(** What the other layers hand to the scoring of one frame.
    - [training_mode]: the flag after the training-phase block;
    - [ml_detect]: the value of [anomaly_detector.detect_anomaly] when the
      features of the frame's signal exist, [None] when they do not;
    - [behavioral_features]: the dictionary of the behavioural analyser
      (empty when it returned nothing);
    - [context_score]: the contextual validator's score;
    - [temporal_anomaly_score]: the temporal extractor's score. *)
Record layers := mkLayers {
  device_id : string;
  training_mode : bool;
  ml_detect : option Q;
  behavioral_features : gmap string Q;
  context_score : Q;
  temporal_anomaly_score : Q
}.

Definition is_ui_controller (device_id : string) : bool :=
  negb (String.eqb device_id "") && contains "ui-controller" device_id.

(** "Layer 2: Control Energy Anomalies". *)
Definition control_anomaly_score (bf : gmap string Q) : Q :=
  if bool_decide (bf = ∅) then 0.0
  else
    let steering_energy := default 0.0 (bf !! "steering_energy") in
    let steering_jerk := default 0.0 (bf !! "steering_jerk") in
    let oscillation_rate := default 0.0 (bf !! "oscillation_rate") in
    let control_aggression := default 0.0 (bf !! "control_aggression") in
    let score := 0.0 in
    let score := if Py.gtb steering_energy 5.0 then score + 0.4 else score in
    let score := if Py.gtb steering_jerk 3.0 then score + 0.3 else score in
    let score := if Py.gtb oscillation_rate 1.0 then score + 0.5 else score in
    let score := if Py.gtb control_aggression 5.0 then score + 0.3 else score in
    Py.min 1.0 score.

(** "Detection phase - MULTI-LAYER SCORING": the value of
    [total_anomaly_score] handed to the trust engine. *)
Definition total_anomaly_score (l : layers) (physics_result : physics_result) : Q :=
  if is_ui_controller (device_id l) then 0.0
  else if negb (training_mode l) then
    let ml_anomaly_score := default 0.0 (ml_detect l) in
    let control_anomaly_score := control_anomaly_score (behavioral_features l) in
    let physics_anomaly_score := context_score l in
    let ml_score :=
      0.4 * ml_anomaly_score + 0.4 * control_anomaly_score
      + 0.2 * physics_anomaly_score in
    let physics_score := physics_score physics_result in
    let temporal_score := 1.0 - temporal_anomaly_score l in
    let total :=
      1.0 - (0.6 * (1.0 - ml_score) + 0.25 * physics_score
             + 0.15 * temporal_score) in
    if negb (overall_valid physics_result) then Py.max total 0.8 else total
  else 0.0.

(** Layer 4 followed by the scoring, for a frame seen with the listener's
    current speed, steering and brake at clock [timestamp]. *)
Definition score_frame (current_speed current_steering current_brake timestamp : Q)
    (l : layers) (pv : PhysicsValidator)
  : PhysicsValidator * (physics_result * Q) :=
  let '(pv', physics_result) :=
    get_physics_score current_speed current_steering current_brake timestamp pv in
  (pv', (physics_result, total_anomaly_score l physics_result)).

(** Values for concrete runs. *)

(** The validator after a first frame at 30 km/h, seen at clock 100. *)
Definition after_first_frame : PhysicsValidator :=
  fst (get_physics_score 30 0 0 100 (Physics.init 99)).

(** What the layers report for a frame of device [d]: a high ML score and
    nothing else. *)
Definition quiet_layers (d : string) (training : bool) : layers :=
  {| device_id := d; training_mode := training; ml_detect := Some 0.9;
     behavioral_features := ∅; context_score := 0; temporal_anomaly_score := 0 |}.

End Listener.

(** ** ips_engine.py: the limits and trust bands of the modes *)

Module IPSBands.
Import IPS.

(** The speed and steering caps of a mode other than OFF. *)
Definition speed_cap (m : Mode) : Q :=
  match m with SOFT_LIMIT => 40 | SAFE_MODE => 35 | _ => 25 end.

Definition steering_cap (m : Mode) : Q :=
  match m with SOFT_LIMIT => 15 | SAFE_MODE => 10 | _ => 5 end.

(** The mode selected by a trust score below 0.8. *)
Definition band (trust : Q) : Mode :=
  if Qle_bool 0.7 trust then SOFT_LIMIT
  else if Qle_bool 0.5 trust then SAFE_MODE
  else CRITICAL.

End IPSBands.

(** ** policy_engine.py *)

Module Policy.

Record PolicyEngine := mkPolicyEngine {
  warning_threshold : Q;
  clamp_threshold : Q;
  ignore_threshold : Q;
  max_steering_angle : Q;
  max_speed : Q
}.

(** [PolicyEngine.__init__]. *)
Definition init : PolicyEngine :=
  {| warning_threshold := 0.8; clamp_threshold := 0.6; ignore_threshold := 0.4;
     max_steering_angle := 15.0; max_speed := 50.0 |}.

(** [PolicyEngine.get_containment_action]. *)
Definition get_containment_action (pe : PolicyEngine) (trust_score : Q) : string :=
  if Py.gtb trust_score (warning_threshold pe) then "NONE"
  else if Py.gtb trust_score (clamp_threshold pe) then "WARNING"
  else if Py.gtb trust_score (ignore_threshold pe) then "CLAMP"
  else "IGNORE".

(** [PolicyEngine.apply_steering_policy]. *)
Definition apply_steering_policy (pe : PolicyEngine) (steering_angle trust_score : Q)
  : Q :=
  let action := get_containment_action pe trust_score in
  if String.eqb action "IGNORE" then 0.0
  else if String.eqb action "CLAMP" then
    Py.max (- max_steering_angle pe) (Py.min (max_steering_angle pe) steering_angle)
  else steering_angle.

(** [PolicyEngine.apply_speed_policy]. *)
Definition apply_speed_policy (pe : PolicyEngine) (speed trust_score : Q) : Q :=
  let action := get_containment_action pe trust_score in
  if String.eqb action "IGNORE" then Py.min speed 10.0
  else if String.eqb action "CLAMP" then Py.min speed (max_speed pe)
  else speed.

(** [PolicyEngine.should_ignore_message]. *)
Definition should_ignore_message (pe : PolicyEngine) (trust_score : Q) : bool :=
  Py.ltb trust_score (ignore_threshold pe).

(** The dictionary of [get_policy_decision] and [get_policy_status]. *)
Record decision := mkDecision {
  d_action : string;
  d_trust_score : Q;
  d_steering_limit : option Q;
  d_speed_limit : option Q;
  d_message_filtering : bool
}.

(** [PolicyEngine.get_policy_decision]. *)
Definition get_policy_decision (pe : PolicyEngine) (trust_score : Q) : decision :=
  let action := get_containment_action pe trust_score in
  let limited := String.eqb action "CLAMP" || String.eqb action "IGNORE" in
  {| d_action := action;
     d_trust_score := trust_score;
     d_steering_limit := if limited then Some (max_steering_angle pe) else None;
     d_speed_limit := if limited then Some (max_speed pe) else None;
     d_message_filtering := String.eqb action "IGNORE" |}.

(** [PolicyEngine.get_policy_status]: the same dictionary. *)
Definition get_policy_status (pe : PolicyEngine) (trust_score : Q) : decision :=
  let action := get_containment_action pe trust_score in
  let limited := String.eqb action "CLAMP" || String.eqb action "IGNORE" in
  {| d_action := action;
     d_trust_score := trust_score;
     d_steering_limit := if limited then Some (max_steering_angle pe) else None;
     d_speed_limit := if limited then Some (max_speed pe) else None;
     d_message_filtering := String.eqb action "IGNORE" |}.

(** The trust level that goes with each containment action. *)
Definition level_of_action (action : string) : string :=
  if String.eqb action "NONE" then "HIGH"
  else if String.eqb action "WARNING" then "MEDIUM"
  else if String.eqb action "CLAMP" then "LOW"
  else "CRITICAL".

End Policy.

(** ** can_listener.py: from the score to the trust and IPS engines *)

Module Pipeline.

(** "Update trust based on combined anomaly", "Update IPS policy" and
    "Inform trust engine about IPS status" of [_process_message]: the trust
    engine, the IPS state and the IPS policy after a frame whose score is
    [total_anomaly_score]; [now] is the clock read by [update_trust] and
    [now'] the one read by [update_policy]. *)
Definition after_scoring (now now' : Q) (total_anomaly_score : Q)
    (te : Trust.TrustEngine) (ips : IPS.IPSState)
  : Trust.TrustEngine * IPS.IPSState * IPS.Policy :=
  let '(te1, _) := Trust.update_trust now total_anomaly_score 1.0 1.0 te in
  let trust_score := Trust.trust_score te1 in
  let '(ips1, ips_policy) :=
    IPS.update_policy now' trust_score total_anomaly_score false ips in
  let te2 :=
    Trust.set_ips_active
      (negb (IPS.Mode_eqb (IPS.p_mode ips_policy) IPS.OFF)) te1 in
  (te2, ips1, ips_policy).

(** The two engines after a run of frames, each given by its two clocks
    and its score. *)
Fixpoint after_frames (frames : list (Q * Q * Q))
    (te : Trust.TrustEngine) (ips : IPS.IPSState)
  : Trust.TrustEngine * IPS.IPSState :=
  match frames with
  | [] => (te, ips)
  | (now, now', score) :: rest =>
      let '(te', ips', _) := after_scoring now now' score te ips in
      after_frames rest te' ips'
  end.

(** The weights and bounds of an engine built with the defaults. *)
Definition default_engine (te : Trust.TrustEngine) : Prop :=
  Trust.params_of te = (0.1, 0.2, 0.05, 0.01, 0.0, 1.0)
  /\ 0 <= Trust.trust_score te <= 1.

End Pipeline.

(** ** physics_validator.py: runs of [get_physics_score] *)

Module PhysicsRun.
Import Physics.

(** One frame as the listener hands it to the validator: speed, steering,
    brake and clock. *)
Definition frame : Type := Q * Q * Q * Q.

Definition step (pv : PhysicsValidator) (f : frame) : PhysicsValidator :=
  let '(speed, steering, brake, timestamp) := f in
  fst (get_physics_score speed steering brake timestamp pv).

(** The validator built at clock [now] after a run of frames. *)
Definition run (now : Q) (frames : list frame) : PhysicsValidator :=
  fold_left step frames (init now).

(** The limits set by the constructor. *)
Definition limits_of (pv : PhysicsValidator) : Q * Q * Q * Q :=
  (MAX_ACCELERATION pv, MAX_DECELERATION pv,
   MAX_SPEED_DELTA_PER_CYCLE pv, MAX_STEERING_RATE pv).

Definition default_limits (pv : PhysicsValidator) : Prop :=
  limits_of pv = (4.0, 9.0, 5.0, 30.0).

(** What every run keeps. *)
Definition history_inv (pv : PhysicsValidator) : Prop :=
  default_limits pv
  /\ length (speed_history pv) = length (steering_history pv)
  /\ length (timestamp_history pv) = length (speed_history pv)
  /\ (length (speed_history pv) <= 10)%nat
  /\ Forall (fun s => s = 0.0) (steering_history pv)
  /\ last_steering pv = 0.0.

End PhysicsRun.

(** ** The frame payloads: offsets and well-formed frames *)

Module CodecMore.
Import Codec.

(** What the producer adds to a value before scaling it by 10. *)
Definition offset (s : signal) : Q :=
  match s with Steering => 45 | _ => 0 end.

End CodecMore.

(** ** security: streams of envelopes and verifier statistics *)

Module SecurityRun.
Import Security.

(** [MessageVerifier.get_device_stats]. *)
Record device_stats := mkDeviceStats {
  tracked_devices : nat;
  stats_last_sequences : gmap string Z;
  message_counts : gmap string nat
}.

Definition get_device_stats (v : MessageVerifier) : device_stats :=
  {| tracked_devices := size (last_sequences v);
     stats_last_sequences := last_sequences v;
     message_counts := length <$> message_history v |}.

(** [MessageSigner.get_sequence]. *)
Definition get_sequence (s : MessageSigner) : Z := s_sequence s.


Section WithHmac.

Variable hmac_sha256 : string -> string -> list Byte.byte.


End WithHmac.



(** The envelope [genuine_450] with the device replaced. *)
Definition relabelled_450 : envelope :=
  {| e_device_id := PStr "vehicleA-brake-ecu";
     e_timestamp := e_timestamp genuine_450;
     e_sequence := e_sequence genuine_450;
     e_key_version := e_key_version genuine_450;
     e_can_id := e_can_id genuine_450;
     e_payload := e_payload genuine_450;
     e_signature := e_signature genuine_450 |}.

End SecurityRun.

(** ** anomaly_detector.py *)

Module Anomaly.

(** The features of one signal, as [FeatureExtractor.extract_features]
    returns them. *)
Record signal_features := mkSignalFeatures {
  frequency : Q;
  delta : Q;
  jitter : Q
}.

(** A value of a features dictionary: a number, or the nested dictionary
    of one signal. *)
Inductive fvalue :=
| FNum (q : Q)
| FFeat (f : signal_features).

(** The result of [prepare_features]: [None], the 1 x 9 array, or the
    [TypeError] of indexing a number with ['frequency']. *)
Inductive prepared :=
| NoFeatures
| Vector (v : list Q)
| Raises.

(** [AnomalyDetector.prepare_features]. *)
Definition prepare_features (features_dict : gmap string fvalue) : prepared :=
  if bool_decide (features_dict = ∅) then NoFeatures
  else
    let extend (acc : option (list Q)) (signal_name : string) :=
      match acc with
      | None => None
      | Some feature_vector =>
          match features_dict !! signal_name with
          | Some (FFeat f) =>
              Some (feature_vector ++ [frequency f; delta f; jitter f])
          | Some (FNum _) => None
          | None => Some (feature_vector ++ [0.0; 0.0; 0.0])
          end
      end in
    match fold_left extend ["steering"; "speed"; "brake"] (Some []) with
    | Some feature_vector => Vector feature_vector
    | None => Raises
    end.

(** The conversion of the model's decision value in [detect_anomaly]. *)
Definition normalize (raw_score : Q) : Q :=
  let normalized_score :=
    if Py.ltb raw_score (-0.1) then 0.8 + (Py.abs raw_score - 0.1) * 2.0
    else if Py.ltb raw_score (-0.02) then 0.5 + (Py.abs raw_score - 0.02) * 3.0
    else if Py.ltb raw_score 0.02 then 0.2 + Py.abs raw_score * 10.0
    else 0.0 in
  Py.min 1.0 normalized_score.

Section WithModel.

(** [self.model.decision_function(feature_vector)[0]] of the fitted
    isolation forest, a library function. *)
Variable decision_function : list Q -> Q.

(** [AnomalyDetector.detect_anomaly]; [None] stands for the [TypeError]
    raised by [prepare_features]. *)
Definition detect_anomaly (is_trained : bool) (features_dict : gmap string fvalue)
  : option Q :=
  if negb is_trained then Some 0.0
  else
    match prepare_features features_dict with
    | NoFeatures => Some 0.0
    | Raises => None
    | Vector feature_vector => Some (normalize (decision_function feature_vector))
    end.

End WithModel.

(** The number of training rows that [train] keeps: the dictionaries that
    [prepare_features] turns into nine numbers. *)
Definition training_rows (training_features_list : list (gmap string fvalue))
  : option (list (list Q)) :=
  fold_left
    (fun acc features_dict =>
       match acc with
       | None => None
       | Some rows =>
           match prepare_features features_dict with
           | NoFeatures => Some rows
           | Raises => None
           | Vector v =>
               if (length v =? 9)%nat then Some (rows ++ [v]) else Some rows
           end
       end)
    training_features_list (Some []).

(** Whether [AnomalyDetector.train] fits the model and returns [True];
    [None] stands for the [TypeError] of [prepare_features]. *)
Definition train_succeeds (training_features_list : list (gmap string fvalue))
  : option bool :=
  match training_features_list with
  | [] => Some false
  | _ =>
      match training_rows training_features_list with
      | None => None
      | Some rows => Some (negb (length rows <? 10)%nat)
      end
  end.

(** The dictionary that the listener's detection phase hands to
    [detect_anomaly] for a frame whose signal has the features [f]. *)
Definition detection_features (f : signal_features) : gmap string fvalue :=
  <["delta_pattern" := FNum (delta f)]>
    (<["timing_jitter" := FNum (jitter f)]>
       (<["jitter" := FNum (jitter f)]>
          (<["delta" := FNum (delta f)]>
             (<["frequency" := FNum (frequency f)]> ∅)))).

End Anomaly.

(** ** can_generator.py: the ECU's targets and the frames of one cycle *)

Module Generator.
Import Codec.

(** [ECUCommand] as [send_ecu_command] builds it; [cmd_target_speed] is
    the attribute added after construction, [None] by default. *)
Record ECUCommand := mkECUCommand {
  speed_delta : Q;
  steering_delta : Q;
  brake_pressure : Q;
  reset : bool;
  cmd_target_speed : option Q
}.

(** The attributes of [CANMessageGenerator] that the simulation loop reads
    or writes.  The two [_last_sent_] attributes are [None] until the first
    frame of their kind creates them. *)
Record CANMessageGenerator := mkGenerator {
  target_speed : Q;
  target_steering : Q;
  target_brake : Q;
  speed_control_active : bool;
  _last_sent_steering : option Q;
  _last_sent_brake : option Q
}.

(** [CANMessageGenerator.__init__]. *)
Definition init : CANMessageGenerator :=
  mkGenerator 30.0 0.0 0.0 true None None.

(** [CANMessageGenerator._apply_commands]; [None] is a cycle without a
    command file. *)
Definition _apply_commands (self : CANMessageGenerator) (file : option ECUCommand)
  : CANMessageGenerator :=
  match file with
  | None => self
  | Some cmd =>
      let '(speed, steering, brake, active) :=
        if reset cmd then (30.0, 0.0, 0.0, true)
        else
          let '(speed, active) :=
            match cmd_target_speed cmd with
            | Some t => (t, true)
            | None => (target_speed self + speed_delta cmd, speed_control_active self)
            end in
          let steering := target_steering self + steering_delta cmd in
          if Py.gtb (brake_pressure cmd) 0 then
            (speed, steering, brake_pressure cmd, active)
          else if Py.eqb (brake_pressure cmd) 0 && Py.gtb (target_brake self) 0 then
            match cmd_target_speed cmd with
            | Some t => (t, steering, 0.0, active)
            | None => (speed, steering, 0.0, active)
            end
          else (speed, steering, target_brake self, active) in
      mkGenerator
        (Py.max 0 (Py.min speed 120))
        (Py.max (-30) (Py.min steering 30))
        (Py.max 0 (Py.min brake 100))
        active (_last_sent_steering self) (_last_sent_brake self)
  end.

(** What a [_send_] method puts on the bus: nothing, one frame, or the
    [OverflowError] of [to_bytes], which ends the simulation loop. *)
Inductive outcome :=
| Silent
| Frame (can_id : Z) (data : list Byte.byte)
| Overflow.

Definition frame_or_overflow (s : signal) (x : Q) : outcome :=
  match encode s x with
  | Some data => Frame (can_id_of s) data
  | None => Overflow
  end.

(** [CANMessageGenerator._send_speed]. *)
Definition _send_speed (self : CANMessageGenerator) : outcome :=
  if Py.gtb (target_brake self) 0 then Silent
  else if negb (speed_control_active self) then Silent
  else frame_or_overflow Speed (target_speed self).

(** [x != y] on an attribute that may not exist yet. *)
Definition changed (last : option Q) (x : Q) : bool :=
  match last with
  | None => true
  | Some y => negb (Py.eqb y x)
  end.

(** [CANMessageGenerator._send_steering]. *)
Definition _send_steering (self : CANMessageGenerator)
  : outcome * CANMessageGenerator :=
  if changed (_last_sent_steering self) (target_steering self) then
    (frame_or_overflow Steering (target_steering self),
     mkGenerator (target_speed self) (target_steering self) (target_brake self)
       (speed_control_active self) (Some (target_steering self))
       (_last_sent_brake self))
  else (Silent, self).

(** [CANMessageGenerator._send_brake]. *)
Definition _send_brake (self : CANMessageGenerator)
  : outcome * CANMessageGenerator :=
  if changed (_last_sent_brake self) (target_brake self) then
    (frame_or_overflow Brake (target_brake self),
     mkGenerator (target_speed self) (target_steering self) (target_brake self)
       (speed_control_active self) (_last_sent_steering self)
       (Some (target_brake self)))
  else (Silent, self).

(** The frames sent so far, extended by an outcome; [None] once a method
    has raised. *)
Definition emit (sent : list (Z * list Byte.byte)) (o : outcome)
  : option (list (Z * list Byte.byte)) :=
  match o with
  | Silent => Some sent
  | Frame can_id data => Some (sent ++ [(can_id, data)])
  | Overflow => None
  end.

(** One pass through the body of the loop in [start_simulation]: the state
    after it and the frames it sent, in order. *)
Definition cycle (self : CANMessageGenerator) (file : option ECUCommand)
  : option (CANMessageGenerator * list (Z * list Byte.byte)) :=
  let self := _apply_commands self file in
  match emit [] (if speed_control_active self then _send_speed self else Silent) with
  | None => None
  | Some sent =>
      let '(o, self) := _send_steering self in
      match emit sent o with
      | None => None
      | Some sent =>
          let '(o, self) := _send_brake self in
          match emit sent o with
          | None => None
          | Some sent => Some (self, sent)
          end
      end
  end.


(** The limits that [_apply_commands] clamps each target to. *)
Definition clamp_limits (s : signal) : Q * Q :=
  match s with
  | Steering => (-30, 30)
  | Speed => (0, 120)
  | Brake => (0, 100)
  end.

Definition within (s : signal) (x : Q) : Prop :=
  fst (clamp_limits s) <= x <= snd (clamp_limits s).

Definition targets_clamped (self : CANMessageGenerator) : Prop :=
  within Speed (target_speed self)
  /\ within Steering (target_steering self)
  /\ within Brake (target_brake self).

(** A frame that has eight bytes and that the listener decodes to a value
    within the limits of its signal. *)
Definition frame_clamped (f : Z * list Byte.byte) : Prop :=
  length (snd f) = 8%nat
  /\ exists s y, extract_signal (fst f) (snd f) = Some (s, y) /\ within s y.

End Generator.

(** ** feature_extractor.py *)

Module Features.
Import Anomaly.

(** The attributes of [FeatureExtractor] that its methods use: the window
    and, per signal, the deque of [(timestamp, value)] pairs. *)
Record FeatureExtractor := mkFeatureExtractor {
  window_size : Q;
  message_history : gmap string (list (Q * Q))
}.

(** [FeatureExtractor.__init__]. *)
Definition init (window_size : Q) : FeatureExtractor :=
  mkFeatureExtractor window_size ∅.

(** The [while] loop of [add_message]: [popleft] as long as the deque is
    not empty and its first timestamp is before the cutoff. *)
Fixpoint popleft_while (cutoff_time : Q) (messages : list (Q * Q))
  : list (Q * Q) :=
  match messages with
  | [] => []
  | m :: rest =>
      if Py.ltb (fst m) cutoff_time then popleft_while cutoff_time rest
      else messages
  end.

(** [FeatureExtractor.add_message]. *)
Definition add_message (self : FeatureExtractor) (signal_name : string)
    (timestamp value : Q) : FeatureExtractor :=
  let appended :=
    default [] (message_history self !! signal_name) ++ [(timestamp, value)] in
  let cutoff_time := timestamp - window_size self in
  mkFeatureExtractor (window_size self)
    (<[signal_name := popleft_while cutoff_time appended]>
       (message_history self)).

(** [np.diff]. *)
Definition np_diff (xs : list Q) : list Q :=
  zip_with (fun a b => b - a) xs (tail xs).

(** The result of [extract_features]: [None], the dictionary, or the
    [ZeroDivisionError] of a window of size 0. *)
Inductive extracted :=
| Absent
| Present (f : signal_features)
| DivisionByZero.

Section WithStd.

(** [np.std], a library function. *)
Variable np_std : list Q -> Q.

(** The body of [extract_features] from [messages] on. *)
Definition features_of (window_size : Q) (messages : list (Q * Q)) : extracted :=
  if (length messages <? 2)%nat then Absent
  else
    let timestamps := map fst messages in
    let values := map snd messages in
    let n := inject_Z (Z.of_nat (length messages)) in
    if Py.eqb window_size 0 then DivisionByZero
    else
      let frequency := n / window_size in
      let delta :=
        if (1 <? length values)%nat
        then Py.abs (List.last values 0 - hd 0 values) else 0 in
      let jitter :=
        if (2 <? length timestamps)%nat then
          let intervals := np_diff timestamps in
          let expected_interval := window_size / n in
          if Py.gtb expected_interval 0
          then np_std intervals / expected_interval else 0
        else 0 in
      Present (mkSignalFeatures frequency delta jitter).

(** [FeatureExtractor.extract_features]. *)
Definition extract_features (self : FeatureExtractor) (signal_name : string)
  : extracted :=
  match message_history self !! signal_name with
  | None => Absent
  | Some messages => features_of (window_size self) messages
  end.

Definition raised (e : extracted) : bool :=
  match e with DivisionByZero => true | _ => false end.

Definition present (e : extracted) : option signal_features :=
  match e with Present f => Some f | _ => None end.

(** [FeatureExtractor.get_all_features]: the signals whose features are
    not [None]; [None] when an extraction raises. *)
Definition get_all_features (self : FeatureExtractor)
  : option (gmap string signal_features) :=
  let results := features_of (window_size self) <$> message_history self in
  if decide (map_Forall (fun _ e => raised e = false) results)
  then Some (omap present results)
  else None.

(** "Layer 1" of [CANListener._process_message]: the listener passes the
    signal's value where [add_message] expects the timestamp, and the
    timestamp where it expects the value. *)
Definition layer1 (self : FeatureExtractor) (signal_name : string)
    (signal_value timestamp : Q)
  : FeatureExtractor * option (gmap string signal_features) :=
  let self := add_message self signal_name signal_value timestamp in
  (self, get_all_features self).

End WithStd.

(** Messages in the order of their timestamps. *)
Fixpoint in_order (messages : list (Q * Q)) : Prop :=
  match messages with
  | [] => True
  | m :: rest => Forall (fun x => fst m <= fst x) rest /\ in_order rest
  end.

End Features.

(** ** contextual_validator.py *)

Module Context.

(** The four deques kept for one sender. *)
Record window := mkWindow {
  timestamps : list Q;
  speeds : list Q;
  steerings : list Q;
  brakes : list Q
}.

(** [ContextualValidator]: the window size (a natural number; [deque]
    refuses a negative [maxlen]), the senders' windows and the four
    thresholds. *)
Record ContextualValidator := mkContextualValidator {
  window_size : nat;
  sender_windows : gmap string window;
  STEER_HIGH_AT_SPEED : Q;
  MAX_STEER_RATE : Q;
  MAX_OSCILLATION_RATE : Q;
  BRAKE_STEER_THRESHOLD : Q
}.

(** [ContextualValidator.__init__]. *)
Definition init (window_size : nat) : ContextualValidator :=
  mkContextualValidator window_size ∅ 15.0 30.0 3.0 10.0.

(** [deque(maxlen=n).append]. *)
Definition deque_append (maxlen : nat) (l : list Q) (x : Q) : list Q :=
  let l' := l ++ [x] in
  drop (length l' - maxlen) l'.

(** [ContextualValidator.add_vehicle_state]. *)
Definition add_vehicle_state (self : ContextualValidator) (sender_id : string)
    (timestamp speed steering brake : Q) : ContextualValidator :=
  let w := default (mkWindow [] [] [] []) (sender_windows self !! sender_id) in
  let n := window_size self in
  let w' :=
    mkWindow (deque_append n (timestamps w) timestamp)
             (deque_append n (speeds w) speed)
             (deque_append n (steerings w) steering)
             (deque_append n (brakes w) brake) in
  mkContextualValidator (window_size self)
    (<[sender_id := w']> (sender_windows self))
    (STEER_HIGH_AT_SPEED self) (MAX_STEER_RATE self)
    (MAX_OSCILLATION_RATE self) (BRAKE_STEER_THRESHOLD self).

(** [xs[-k]]; [None] stands for [IndexError]. *)
Definition from_end (xs : list Q) (k : nat) : option Q :=
  if (k <=? length xs)%nat then xs !! (length xs - k)%nat else None.

(** [xs[-k:]]. *)
Definition last_n (k : nat) (xs : list Q) : list Q :=
  drop (length xs - k) xs.

(** [np.diff], [np.sign] and [np.var]. *)
Definition np_diff (xs : list Q) : list Q :=
  zip_with (fun a b => b - a) xs (tail xs).

Definition np_sign (x : Q) : Q :=
  if Py.ltb x 0 then -1 else if Py.gtb x 0 then 1 else 0.

Definition np_sum (xs : list Q) : Q := fold_left Qplus xs 0.

Definition np_mean (xs : list Q) : Q :=
  np_sum xs / inject_Z (Z.of_nat (length xs)).

Definition np_var (xs : list Q) : Q :=
  let m := np_mean xs in
  np_mean (map (fun x => (x - m) * (x - m)) xs).

(** [np.sum(np.diff(np.sign(changes)) != 0)]. *)
Definition count_sign_flips (changes : list Q) : Z :=
  Z.of_nat
    (length (List.filter (fun d => negb (Py.eqb d 0))
               (np_diff (map np_sign changes)))).

(** The reasons, with the numbers that the source formats into them. *)
Inductive violation :=
| unsafe_physics (steering_delta current_speed : Q)
| control_hijack (oscillation_rate : Q)
| signal_injection (steering_variance speed_variance : Q)
| context_mismatch (current_steering current_brake : Q)
| excessive_rate (steering_rate : Q).

(** The score and the reasons so far, and a rule that fires. *)
Definition verdict : Type := Q * list violation.

Definition fire (acc : verdict) (weight : Q) (v : violation) : verdict :=
  (fst acc + weight, snd acc ++ [v]).

(** "VIOLATION 1": large steering at high speed. *)
Definition violation_1 (self : ContextualValidator) (w : window)
    (current_speed : Q) (acc : verdict) : option verdict :=
  if (2 <=? length (steerings w))%nat then
    a ← from_end (steerings w) 1;
    b ← from_end (steerings w) 2;
    let steering_delta := Py.abs (a - b) in
    if Py.gtb current_speed 60
       && Py.gtb steering_delta (STEER_HIGH_AT_SPEED self)
    then Some (fire acc 0.8 (unsafe_physics steering_delta current_speed))
    else Some acc
  else Some acc.

(** "VIOLATION 2": rapid steering oscillation. *)
Definition violation_2 (self : ContextualValidator) (w : window)
    (acc : verdict) : option verdict :=
  if (5 <=? length (steerings w))%nat then
    let steering_changes := np_diff (last_n 5 (steerings w)) in
    let sign_flips := count_sign_flips steering_changes in
    t1 ← from_end (timestamps w) 1;
    t5 ← from_end (timestamps w) 5;
    let time_span := t1 - t5 in
    if Py.gtb time_span 0 then
      let oscillation_rate := inject_Z sign_flips / time_span in
      if Py.gtb oscillation_rate (MAX_OSCILLATION_RATE self)
      then Some (fire acc 0.7 (control_hijack oscillation_rate))
      else Some acc
    else Some acc
  else Some acc.

(** "VIOLATION 3": steering without speed response. *)
Definition violation_3 (w : window) (acc : verdict) : option verdict :=
  if (5 <=? length (speeds w))%nat && (5 <=? length (steerings w))%nat then
    let steering_variance := np_var (last_n 5 (steerings w)) in
    let speed_variance := np_var (last_n 5 (speeds w)) in
    if Py.gtb steering_variance 25 && Py.ltb speed_variance 1.0
    then Some (fire acc 0.6 (signal_injection steering_variance speed_variance))
    else Some acc
  else Some acc.

(** "VIOLATION 4": steering during hard braking. *)
Definition violation_4 (self : ContextualValidator) (w : window)
    (current_steering : Q) (acc : verdict) : option verdict :=
  current_brake ← from_end (brakes w) 1;
  if Py.gtb current_brake 50
     && Py.gtb (Py.abs current_steering) (BRAKE_STEER_THRESHOLD self)
  then Some (fire acc 0.5 (context_mismatch current_steering current_brake))
  else Some acc.

(** "VIOLATION 5": excessive steering rate. *)
Definition violation_5 (self : ContextualValidator) (w : window)
    (acc : verdict) : option verdict :=
  if (2 <=? length (steerings w))%nat && (2 <=? length (timestamps w))%nat then
    t1 ← from_end (timestamps w) 1;
    t2 ← from_end (timestamps w) 2;
    let time_delta := t1 - t2 in
    if Py.gtb time_delta 0 then
      a ← from_end (steerings w) 1;
      b ← from_end (steerings w) 2;
      let steering_rate := Py.abs (a - b) / time_delta in
      if Py.gtb steering_rate (MAX_STEER_RATE self)
      then Some (fire acc 0.4 (excessive_rate steering_rate))
      else Some acc
    else Some acc
  else Some acc.

(** [ContextualValidator.validate_context]: the score and the reasons;
    [None] stands for an [IndexError]. *)
Definition validate_context (self : ContextualValidator) (sender_id : string)
  : option verdict :=
  match sender_windows self !! sender_id with
  | None => Some (0.0, [])
  | Some w =>
      if (length (timestamps w) <? 3)%nat then Some (0.0, [])
      else
        current_speed ← from_end (speeds w) 1;
        current_steering ← from_end (steerings w) 1;
        acc ← violation_1 self w current_speed (0.0, []);
        acc ← violation_2 self w acc;
        acc ← violation_3 w acc;
        acc ← violation_4 self w current_steering acc;
        acc ← violation_5 self w acc;
        Some (Py.min 1.0 (fst acc), snd acc)
  end.

(** A validator after a sequence of calls of [add_vehicle_state], each
    given as sender, timestamp, speed, steering and brake. *)
Definition add_all (self : ContextualValidator)
    (states : list (string * Q * Q * Q * Q)) : ContextualValidator :=
  fold_left
    (fun self '(sender_id, timestamp, speed, steering, brake) =>
       add_vehicle_state self sender_id timestamp speed steering brake)
    states self.

(** The four deques of every sender have one length, at most the window
    size. *)
Definition aligned (self : ContextualValidator) : Prop :=
  map_Forall
    (fun _ w =>
       length (speeds w) = length (timestamps w)
       /\ length (steerings w) = length (timestamps w)
       /\ length (brakes w) = length (timestamps w)
       /\ (length (timestamps w) <= window_size self)%nat)
    (sender_windows self).

(** How many of the recorded states are of a sender. *)
Definition states_of (sender_id : string)
    (states : list (string * Q * Q * Q * Q)) : nat :=
  length (List.filter
            (fun st => String.eqb (fst (fst (fst (fst st)))) sender_id) states).

(** The number of timestamps held for a sender. *)
Definition held (self : ContextualValidator) (sender_id : string) : nat :=
  match sender_windows self !! sender_id with
  | Some w => length (timestamps w)
  | None => 0
  end.

(** What holds of the score and the reasons while the rules run: the
    score is not negative, it is 0 without a reason, and at least the
    smallest weight with one. *)
Definition sound (acc : verdict) : Prop :=
  0 <= fst acc
  /\ (snd acc = [] -> fst acc == 0)
  /\ (snd acc <> [] -> 0.4 <= fst acc).

End Context.

(** ** binary64 arithmetic

    Where a result of the code depends on the rounding of Python's
    [float] operations, they are written out: a finite [float] is the
    rational it denotes, and every operation rounds its exact result to the
    nearest binary64 number, the even one of two nearest.  Infinities, NaN
    and the sign of zero are left out; no value of the frame codec is
    beyond [2^17]. *)

Module Float64.

(** [2^e] for any integer [e]. *)
Definition pow2 (e : Z) : Q := 2 ^ e.

(** The largest [L] with [2^L <= a / b]. *)
Definition floor_log2 (a b : positive) : Z :=
  let k := (Z.log2 (Zpos a) - Z.log2 (Zpos b))%Z in
  if Qle_bool (pow2 k) (Zpos a # b) then k else (k - 1)%Z.

(** The integer nearest to [n / d], the even one of two at the same
    distance. *)
Definition round_half_even (n : Z) (d : positive) : Z :=
  let quo := (n / Zpos d)%Z in
  let rem := (n mod Zpos d)%Z in
  match (2 * rem ?= Zpos d)%Z with
  | Lt => quo
  | Gt => (quo + 1)%Z
  | Eq => if Z.even quo then quo else (quo + 1)%Z
  end.

(** A positive rational rounded to the nearest binary64 number: 53
    significant bits, the smallest exponent -1074. *)
Definition round_pos (a b : positive) : Q :=
  let e := Z.max (floor_log2 a b - 52) (-1074) in
  let scaled := (Zpos a # b) / pow2 e in
  inject_Z (round_half_even (Qnum scaled) (Qden scaled)) * pow2 e.

(** Rounding to binary64; also what a decimal literal denotes. *)
Definition b64 (q : Q) : Q :=
  match Qnum q with
  | Z0 => 0
  | Zpos a => round_pos a (Qden q)
  | Zneg a => - round_pos a (Qden q)
  end.

(** [x + y], [x - y], [x * y] and [x / y] on floats. *)
Definition fadd (x y : Q) : Q := b64 (x + y).
Definition fsub (x y : Q) : Q := b64 (x - y).
Definition fmul (x y : Q) : Q := b64 (x * y).
Definition fdiv (x y : Q) : Q := b64 (x / y).

(** The two error terms of a rounding: [2^-53] of the magnitude, and
    [2^-1075] in the subnormal range. *)
Definition u53 : Q := 1 # (2 ^ 53).
Definition eta : Q := 1 # (2 ^ 1075).

End Float64.

(** ** The frame payloads in binary64 *)

Module Codec64.
Import Codec Float64.

(** The integer that each [_send_] method of the producer hands to
    [to_bytes]: [int((target_steering + 45) * 10)] and [int(target * 10)]. *)
Definition scaled (s : signal) (x : Q) : Z :=
  match s with
  | Steering => py_int (fmul (fadd x 45) 10)
  | Speed => py_int (fmul x 10)
  | Brake => py_int (fmul x 10)
  end.

(** The producer's payload for each signal. *)
Definition encode (s : signal) (x : Q) : option (list Byte.byte) :=
  frame_data (scaled s x).

(** The value the listener computes from the integer of the first two
    bytes: [n / 10.0 - 45.0] and [n / 10.0]. *)
Definition value (s : signal) (n : Z) : Q :=
  match s with
  | Steering => fsub (fdiv (inject_Z n) 10.0) 45.0
  | Speed => fdiv (inject_Z n) 10.0
  | Brake => fdiv (inject_Z n) 10.0
  end.

(** "Extract signal values" in [CANListener._process_message]. *)
Definition extract_signal (can_id : Z) (data : list Byte.byte)
  : option (signal * Q) :=
  if (can_id =? 0x120)%Z then
    Some (Steering, value Steering (int_from_bytes_big (take 2 data)))
  else if (can_id =? 0x130)%Z then
    Some (Speed, value Speed (int_from_bytes_big (take 2 data)))
  else if (can_id =? 0x140)%Z then
    Some (Brake, value Brake (int_from_bytes_big (take 2 data)))
  else None.

(** Producer, then consumer. *)
Definition roundtrip (s : signal) (x : Q) : option Q :=
  match encode s x with
  | Some data =>
      match extract_signal (can_id_of s) data with
      | Some (_, y) => Some y
      | None => None
      end
  | None => None
  end.

(** The largest payload integer of each signal's range: 45 degrees,
    120 km/h (the producer's clamp) and 100 percent. *)
Definition top (s : signal) : Z :=
  match s with
  | Steering => 900
  | Speed => 1200
  | Brake => 1000
  end.

(** The steering payloads that decoding and encoding again does not give
    back. *)
Definition not_reproduced : list Z :=
  [3; 4; 8; 9; 13; 14; 18; 19; 23; 24; 28; 29; 33; 34; 38; 39; 43; 44; 48;
   49; 53; 54; 58; 59; 63; 64; 68; 69; 73; 74; 78; 79; 83; 84; 88; 89; 93;
   94; 98; 99; 103; 104; 108; 109; 113; 114; 118; 119; 123; 124; 128]%Z.

(** What the producer computes from the value decoded from [n]. *)
Definition reencoded (s : signal) (n : Z) : Z := scaled s (value s n).

(** The check of one payload integer: it is given back, or it is a
    steering payload of the list and the one below it comes back. *)
Definition reencode_check (s : signal) (n : Z) : bool :=
  match s with
  | Steering =>
      if bool_decide (n ∈ not_reproduced)
      then (reencoded s n =? n - 1)%Z
      else (reencoded s n =? n)%Z
  | _ => (reencoded s n =? n)%Z
  end.

End Codec64.

(** ** security: the verifier over a run of envelopes *)

Module ReplayTrace.
Import Security.





Section WithHmac.

Variable hmac_sha256 : string -> string -> list Byte.byte.



(** A verifier after a run of calls. *)
Definition verify_all (history : list (Z * envelope)) (v : MessageVerifier)
  : MessageVerifier :=
  fold_left (fun v ev => fst (verify_message hmac_sha256 (fst ev) (snd ev) v))
    history v.

End WithHmac.


(** An envelope of the brake ECU, signed at clock 1000250 ms. *)
Definition brake_7 : envelope :=
  snd (sign_message toy_digest 1000250 0x140 frame_30
         {| s_device_id := "vehicleA-brake-ecu";
            s_key := "brake_key_v1_secret_2024";
            s_sequence := 6; saved_sequence := Some 6%Z |}).

End ReplayTrace.

(** * Properties *)

(** ** Comparisons, [max] and [min] *)

Module PyFacts.
Import Py.

Lemma ltb_lt a b : ltb a b = true <-> a < b.
Proof.
  unfold ltb. rewrite negb_true_iff, <- not_true_iff_false, Qle_bool_iff.
  split; [apply Qnot_le_lt | apply Qlt_not_le].
Qed.

Lemma ltb_ge a b : ltb a b = false <-> b <= a.
Proof. unfold ltb. rewrite negb_false_iff. apply Qle_bool_iff. Qed.

Lemma leb_le a b : leb a b = true <-> a <= b.
Proof. apply Qle_bool_iff. Qed.

Lemma leb_gt a b : leb a b = false <-> b < a.
Proof.
  unfold leb. rewrite <- not_true_iff_false, Qle_bool_iff.
  split; [apply Qnot_le_lt | apply Qlt_not_le].
Qed.

Lemma geb_ge a b : geb a b = true <-> b <= a.
Proof. apply leb_le. Qed.

Lemma geb_lt a b : geb a b = false <-> a < b.
Proof. apply leb_gt. Qed.

Lemma gtb_gt a b : gtb a b = true <-> b < a.
Proof. apply ltb_lt. Qed.

Lemma gtb_le a b : gtb a b = false <-> a <= b.
Proof. apply ltb_ge. Qed.

Lemma eqb_eq a b : eqb a b = true <-> a == b.
Proof. apply Qeq_bool_iff. Qed.

Lemma eqb_neq a b : eqb a b = false <-> ~ a == b.
Proof. unfold eqb. rewrite <- not_true_iff_false, Qeq_bool_iff. tauto. Qed.

Lemma max_lub_l a b : a <= max a b.
Proof.
  unfold max. destruct (gtb b a) eqn:E; [| apply Qle_refl].
  apply gtb_gt in E. now apply Qlt_le_weak.
Qed.

Lemma max_lub_r a b : b <= max a b.
Proof.
  unfold max. destruct (gtb b a) eqn:E; [apply Qle_refl |].
  now apply gtb_le in E.
Qed.

Lemma max_case a b : max a b = a \/ max a b = b.
Proof. unfold max. destruct (gtb b a); auto. Qed.

Lemma min_glb_l a b : min a b <= a.
Proof.
  unfold min. destruct (ltb b a) eqn:E; [| apply Qle_refl].
  apply ltb_lt in E. now apply Qlt_le_weak.
Qed.

Lemma min_glb_r a b : min a b <= b.
Proof.
  unfold min. destruct (ltb b a) eqn:E; [apply Qle_refl |].
  now apply ltb_ge in E.
Qed.

Lemma min_case a b : min a b = a \/ min a b = b.
Proof. unfold min. destruct (ltb b a); auto. Qed.

(** Turn the boolean comparisons of the context into orderings on [Q]. *)
Ltac to_orders :=
  repeat match goal with
  | H : ltb _ _ = true |- _ => apply ltb_lt in H
  | H : ltb _ _ = false |- _ => apply ltb_ge in H
  | H : leb _ _ = true |- _ => apply leb_le in H
  | H : leb _ _ = false |- _ => apply leb_gt in H
  | H : gtb _ _ = true |- _ => apply gtb_gt in H
  | H : gtb _ _ = false |- _ => apply gtb_le in H
  | H : geb _ _ = true |- _ => apply geb_ge in H
  | H : geb _ _ = false |- _ => apply geb_lt in H
  | H : eqb _ _ = true |- _ => apply eqb_eq in H
  | H : eqb _ _ = false |- _ => apply eqb_neq in H
  end.

(** Case analysis on every comparison under an [if] of the goal, innermost
    first. *)
Ltac split_ifs :=
  repeat match goal with
  | |- context [if ?b then _ else _] =>
      lazymatch b with
      | context [if _ then _ else _] => fail
      | _ => let E := fresh "E" in destruct b eqn:E
      end
  end.

End PyFacts.

(** ** Trust engine *)

Module TrustProps.
Import Py PyFacts Trust.

Lemma step_params e c : params_of (step e c) = params_of e.
Proof. destruct c; reflexivity. Qed.

Lemma run_params cs : forall e, params_of (run e cs) = params_of e.
Proof.
  induction cs as [|c cs IH]; intros e; [reflexivity|].
  cbn. unfold run in IH. rewrite IH. apply step_params.
Qed.

Lemma run_after e cs c : run e (cs ++ [c]) = step (run e cs) c.
Proof. unfold run. now rewrite fold_left_app. Qed.

Lemma init_params alpha beta gamma vid now cs :
  params_of (run (init alpha beta gamma vid now) cs)
  = (alpha, beta, gamma, 0.01, 0.0, 1.0).
Proof. rewrite run_params. reflexivity. Qed.

(** The clamp of the source, between any two ordered bounds. *)
Lemma max_min_bounds lo hi x :
  lo <= hi -> lo <= max lo (min hi x) <= hi.
Proof.
  intros Hb. split; [apply max_lub_l|].
  unfold max, min. split_ifs; to_orders; lra.
Qed.

(** The clamp of the source is the clamp of the specification. *)
Lemma max_min_clamp x y :
  x == y -> max 0.0 (min 1.0 x) == clamp y 0 1.
Proof.
  intros Hxy. unfold max, min, clamp.
  split_ifs; to_orders; lra.
Qed.

Lemma step_bounds e c :
  min_trust e <= max_trust e ->
  min_trust e <= trust_score e <= max_trust e ->
  min_trust e <= trust_score (step e c) <= max_trust e.
Proof.
  intros Hb He. destruct c; cbn; auto.
  - now apply max_min_bounds.
  - split; [assumption | apply Qle_refl].
Qed.

Lemma run_bounds cs : forall e,
  min_trust e <= max_trust e ->
  min_trust e <= trust_score e <= max_trust e ->
  min_trust e <= trust_score (run e cs) <= max_trust e.
Proof.
  induction cs as [|c cs IH]; intros e Hb He; [exact He|].
  cbn. pose proof (step_params e c) as Hp. unfold params_of in Hp.
  injection Hp as _ _ _ _ Hmin Hmax.
  rewrite <- Hmin, <- Hmax. apply IH; rewrite ?Hmin, ?Hmax; auto.
  now apply step_bounds.
Qed.

Lemma init_bounds alpha beta gamma vid now cs :
  0 <= trust_score (run (init alpha beta gamma vid now) cs) <= 1.
Proof.
  pose proof (run_bounds cs (init alpha beta gamma vid now)) as H.
  cbn in H.
  assert (H0 : 0.0 <= 1.0) by lra.
  specialize (H H0 (conj H0 (Qle_refl _))). lra.
Qed.

(** C4. On an engine built by the constructor with weights [alpha], [beta]
    and [gamma], after any earlier calls, [update_trust] stores and returns
    [clamp(trust - alpha*eff - beta*(1-auth) - gamma*(1-temporal) + (eff < 0.1 ? rho : 0), 0, 1)]
    with [rho = 0.01], where [eff] is the anomaly score when ML is enabled
    and [0] otherwise; the constructor's default weights are 0.10, 0.20 and
    0.05; the trust score is in [[0, 1]] before and after the call. *)
Theorem update_trust_law (alpha beta gamma : Q) (vid : string) (now0 : Q)
    (cs : list call) (now a au t : Q) :
  let e := run (init alpha beta gamma vid now0) cs in
  let r := update_trust now a au t e in
  snd r == spec_update alpha beta gamma 0.01 (ml_enabled e) (trust_score e) a au t
  /\ trust_score (fst r) = snd r
  /\ 0 <= trust_score e <= 1
  /\ 0 <= snd r <= 1
  /\ params_of (init_default now0) = (0.1, 0.2, 0.05, 0.01, 0.0, 1.0).
Proof.
  intros e r.
  pose proof (init_params alpha beta gamma vid now0 cs) as Hp. fold e in Hp.
  unfold params_of in Hp. injection Hp as Ha Hb Hg Hr Hmin Hmax.
  pose proof (init_bounds alpha beta gamma vid now0 cs) as Hrange. fold e in Hrange.
  assert (Hres : 0 <= trust_score (fst r) <= 1).
  { change (fst r) with (step e (CUpdate now a au t)).
    unfold e. rewrite <- run_after. apply init_bounds. }
  split; [| split; [reflexivity | split; [exact Hrange | split; [exact Hres |]]]].
  - subst r. cbn [update_trust snd]. rewrite Ha, Hb, Hg, Hr, Hmin, Hmax.
    unfold spec_update. apply max_min_clamp.
    destruct (ml_enabled e); split_ifs; to_orders; try lra;
      ring_simplify; reflexivity || lra.
  - reflexivity.
Qed.

End TrustProps.

(** ** IPS policy engine *)

Module IPSProps.
Import Py PyFacts IPS.

Lemma run_snoc cs c : run (cs ++ [c]) = step (run cs) c.
Proof. unfold run. now rewrite fold_left_app. Qed.

(** The sanitizers never touch the mode, the timer or the switch. *)
Lemma sanitize_speed_frame r c st :
  let st' := fst (sanitize_speed r c st) in
  enabled st' = enabled st /\ mode st' = mode st
  /\ recovery_timer st' = recovery_timer st.
Proof.
  unfold sanitize_speed, _get_policy_limits.
  destruct (mode st) eqn:E; cbn; rewrite ?E; repeat split; reflexivity.
Qed.

Lemma sanitize_steering_frame r st :
  let st' := fst (sanitize_steering r st) in
  enabled st' = enabled st /\ mode st' = mode st
  /\ recovery_timer st' = recovery_timer st.
Proof.
  unfold sanitize_steering, _get_policy_limits.
  destruct (mode st) eqn:E; cbn; rewrite ?E; repeat split; reflexivity.
Qed.

(** In a mode other than OFF the steering sanitizer writes nothing. *)
Lemma sanitize_steering_keeps_state r st :
  mode st <> OFF -> fst (sanitize_steering r st) = st.
Proof.
  intros H. unfold sanitize_steering, _get_policy_limits.
  destruct (mode st); [contradiction | reflexivity ..].
Qed.

Lemma sanitize_speed_keeps_state r c st :
  mode st <> OFF -> fst (sanitize_speed r c st) = st.
Proof.
  intros H. unfold sanitize_speed, _get_policy_limits.
  destruct (mode st); [contradiction | reflexivity ..].
Qed.

(** Hence consecutive calls return one and the same value. *)
Lemma steering_outputs_constant n r st :
  mode st <> OFF ->
  steering_outputs n r st = repeat (snd (sanitize_steering r st)) n.
Proof.
  intros H. induction n as [|n IH]; [reflexivity|].
  cbn [steering_outputs repeat]. rewrite sanitize_steering_keeps_state by exact H.
  now rewrite IH.
Qed.

Lemma timer_inv_extend cs st c st' :
  timer_inv cs st ->
  (enabled st' = false -> enabled st = false) ->
  recovery_timer st' = recovery_timer st ->
  high_trust c ->
  timer_inv (cs ++ [c]) st'.
Proof.
  intros [Hoff Hrun] He Ht Hc. split.
  - rewrite Ht. intros H. apply Hoff, He, H.
  - rewrite Ht. intros Hne.
    destruct (Hrun Hne) as (pre & t0 & tr0 & a0 & k0 & mid & -> & Ht0 & Htr & Hmid).
    exists pre, t0, tr0, a0, k0, (mid ++ [c]).
    rewrite <- app_assoc. cbn. repeat split; auto.
    apply Forall_app. split; [exact Hmid | now constructor].
Qed.

Lemma timer_inv_zero cs st :
  recovery_timer st == 0 -> timer_inv cs st.
Proof. intros Hz. split; [auto | intros Hne; contradiction]. Qed.

Lemma timer_inv_step cs st c :
  timer_inv cs st -> timer_inv (cs ++ [c]) (step st c).
Proof.
  intros Hinv. destruct c as [now t a k | b | r c | r]; cbn [step].
  - unfold update_policy.
    destruct (enabled st) eqn:Hen; cbn [negb fst].
    + destruct (ltb t 0.8) eqn:Hlow.
      { apply timer_inv_zero. reflexivity. }
      apply ltb_ge in Hlow.
      destruct (Mode_eqb (mode st) OFF) eqn:Hm; cbn [negb].
      { apply timer_inv_extend with (st := st); auto. }
      destruct (eqb (recovery_timer st) 0) eqn:Hz.
      { split; cbn; [congruence |]. intros _.
        exists cs, now, t, a, k, []. repeat split; auto. }
      destruct (gtb (now - recovery_timer st) 5.0) eqn:Hgt.
      { apply timer_inv_zero. reflexivity. }
      apply timer_inv_extend with (st := st); auto.
    + destruct Hinv as [Hoff _]. apply timer_inv_zero. cbn. auto.
  - destruct b.
    + destruct Hinv as [Hoff Hrun].
      split; cbn; [discriminate |]. intros Hne.
      destruct (Hrun Hne) as (pre & t0 & tr0 & a0 & k0 & mid & -> & Ht0 & Htr & Hmid).
      exists pre, t0, tr0, a0, k0, (mid ++ [CSetEnabled true]).
      rewrite <- app_assoc. cbn. repeat split; auto.
      apply Forall_app. split; [exact Hmid | now repeat constructor].
    + apply timer_inv_zero. reflexivity.
  - destruct (sanitize_speed_frame r c st) as (He & _ & Ht).
    apply timer_inv_extend with (st := st); cbn; auto; congruence.
  - destruct (sanitize_steering_frame r st) as (He & _ & Ht).
    apply timer_inv_extend with (st := st); cbn; auto; congruence.
Qed.

Lemma run_timer_inv cs : timer_inv cs (run cs).
Proof.
  induction cs as [|c cs IH] using rev_ind.
  - apply timer_inv_zero. reflexivity.
  - rewrite run_snoc. now apply timer_inv_step.
Qed.

(** C5. After any calls on a fresh engine, an [update_policy] call at clock
    [now] takes the mode from a non-OFF mode to OFF only if it sees trust at
    or above 0.8 and an earlier update, made more than 5 seconds before
    [now], saw trust at or above 0.8 with every update in between seeing the
    same; and an update that sees trust below 0.8 leaves the recovery timer
    at zero. *)
Theorem recovery_needs_five_seconds
    (cs : list call) (now trust anomaly : Q) (attack : bool) :
  let st := run cs in
  let st' := fst (update_policy now trust anomaly attack st) in
  (mode st <> OFF -> mode st' = OFF ->
   0.8 <= trust
   /\ exists pre t0 trust0 a0 k0 mid,
        cs = pre ++ CUpdate t0 trust0 a0 k0 :: mid
        /\ 0.8 <= trust0
        /\ Forall high_trust mid
        /\ 5 < now - t0)
  /\ (trust < 0.8 -> recovery_timer st' == 0).
Proof.
  intros st st'. pose proof (run_timer_inv cs) as [Hoff Hrun]. fold st in Hoff, Hrun.
  subst st'. unfold update_policy.
  destruct (enabled st) eqn:Hen; cbn [negb fst].
  - split.
    + intros Hm.
      destruct (ltb trust 0.8) eqn:Hlow.
      { cbn. split_ifs; discriminate. }
      apply ltb_ge in Hlow.
      destruct (Mode_eqb (mode st) OFF) eqn:Hmo; cbn [negb].
      { destruct (mode st); try discriminate. contradiction. }
      destruct (eqb (recovery_timer st) 0) eqn:Hz; [cbn; contradiction|].
      apply eqb_neq in Hz.
      destruct (gtb (now - recovery_timer st) 5.0) eqn:Hgt; [| contradiction].
      intros _. split; [exact Hlow|].
      destruct (Hrun Hz) as (pre & t0 & tr0 & a0 & k0 & mid & Hcs & Ht0 & Htr & Hmid).
      exists pre, t0, tr0, a0, k0, mid. repeat split; auto.
      apply gtb_gt in Hgt. rewrite Ht0 in Hgt. lra.
    + intros Hlow. apply ltb_lt in Hlow. rewrite Hlow. reflexivity.
  - split.
    + intros Hm Hm'. contradiction.
    + intros _. auto.
Qed.

(** The same statement on a run that ends in a recovery: a drop of trust at
    clock 1, a timer started at clock 2, and the return to OFF at clock 8. *)
Lemma recovery_needs_five_seconds_witness :
  let cs := [CUpdate 1 0.5 0 false; CUpdate 2 0.9 0 false] in
  mode (run cs) <> OFF
  /\ mode (fst (update_policy 8 0.9 0 false (run cs))) = OFF
  /\ 0.8 <= 0.9
  /\ (exists pre t0 trust0 a0 k0 mid,
        cs = pre ++ CUpdate t0 trust0 a0 k0 :: mid
        /\ 0.8 <= trust0 /\ Forall high_trust mid /\ 5 < 8 - t0).
Proof.
  intros cs.
  assert (H1 : mode (run cs) <> OFF) by (vm_compute; discriminate).
  assert (H2 : mode (fst (update_policy 8 0.9 0 false (run cs))) = OFF)
    by (vm_compute; reflexivity).
  split; [exact H1|]. split; [exact H2|].
  exact (proj1 (recovery_needs_five_seconds cs 8 0.9 0 false) H1 H2).
Defined.

(** C6 (as the code behaves). From a fresh engine, a steering of 10 degrees
    is accepted in OFF mode and a trust of 0.75 then selects SOFT_LIMIT.
    Three consecutive [sanitize_steering] calls each return 9 degrees, and
    the stored last-safe steering is still 10 after them: the second call
    does not return 8.1 and the third does not return 7.29. *)
Theorem sanitize_steering_does_not_decay :
  let st := run [CSanitizeSteering 10; CUpdate 1 0.75 0 false] in
  mode st = SOFT_LIMIT
  /\ last_safe_steering st == 10
  /\ Forall (fun v => v == 9) (steering_outputs 3 20 st)
  /\ length (steering_outputs 3 20 st) = 3%nat
  /\ last_safe_steering
       (fold_left (fun s _ => fst (sanitize_steering 20 s)) [1; 2; 3] st) == 10
  /\ ~ nth 1 (steering_outputs 3 20 st) 0 == 10 * 0.9 * 0.9.
Proof.
  intros st. repeat split.
  - vm_compute. repeat constructor.
  - intros H. vm_compute in H. discriminate.
Qed.

(** C8. In a mode other than OFF neither sanitizer looks at the requested
    value: two requests give the same returned value and the same state. *)
Theorem sanitizers_ignore_request (st : IPSState) (r1 r2 current_speed : Q) :
  mode st <> OFF ->
  sanitize_speed r1 current_speed st = sanitize_speed r2 current_speed st
  /\ sanitize_steering r1 st = sanitize_steering r2 st.
Proof.
  intros H. unfold sanitize_speed, sanitize_steering, _get_policy_limits.
  destruct (mode st); [contradiction | split; reflexivity ..].
Qed.

(** The same in SAFE_MODE, for requests of 120 and 20. *)
Lemma sanitizers_ignore_request_witness :
  let st := run [CSanitizeSteering 12; CUpdate 1 0.6 0 false] in
  mode st <> OFF
  /\ sanitize_speed 120 30 st = sanitize_speed 20 30 st
  /\ sanitize_steering 120 st = sanitize_steering 20 st.
Proof.
  intros st.
  assert (H : mode st <> OFF) by (vm_compute; discriminate).
  split; [exact H|].
  exact (sanitizers_ignore_request st 120 20 30 H).
Defined.

End IPSProps.

(** ** Signer and verifier *)

Module SecurityProps.
Import Security.

Lemma string_eqb_false_iff (a b : string) : String.eqb a b = false <-> a <> b.
Proof. destruct (String.eqb_spec a b); split; congruence. Qed.

Lemma is_ascii_app a b : is_ascii (a ++ b) = is_ascii a && is_ascii b.
Proof.
  induction a as [|c a IH]; [reflexivity|].
  change (is_ascii (String c (a ++ b)) = is_ascii (String c a) && is_ascii b).
  cbn [is_ascii]. rewrite IH. now rewrite andb_assoc.
Qed.

(** [bytes.hex()] yields ASCII text, empty only for empty bytes. *)
Lemma hex_is_ascii bs : is_ascii (hex bs) = true.
Proof.
  induction bs as [|b bs IH]; [reflexivity|].
  cbn [hex]. rewrite is_ascii_app, IH, andb_true_r.
  destruct b; reflexivity.
Qed.

Lemma hex_nonempty bs : bs <> [] -> hex bs <> "".
Proof. destruct bs as [|b bs]; [congruence|]. intros _. cbn. discriminate. Qed.

Section WithHmac.

Variable hmac_sha256 : string -> string -> list Byte.byte.

Abbreviation verify := (verify_message hmac_sha256).
Abbreviation sign := (sign_message hmac_sha256).
Abbreviation check := (check_signature hmac_sha256).

(** A required field that is absent or falsy ends the verification at once. *)
Lemma verify_falsy now msg v :
  forallb truthy
    [e_device_id msg; e_timestamp msg; e_sequence msg;
     e_can_id msg; e_payload msg; e_signature msg] = false ->
  verify now msg v = (v, (false, MissingFields)).
Proof. intros H. unfold verify_message. now rewrite H. Qed.

Lemma verify_falsy_field now msg v f :
  In f [e_device_id msg; e_timestamp msg; e_sequence msg;
        e_can_id msg; e_payload msg; e_signature msg] ->
  truthy f = false ->
  verify now msg v = (v, (false, MissingFields)).
Proof.
  intros Hin Hf. apply verify_falsy. apply not_true_is_false. intros Hall.
  rewrite forallb_forall in Hall. specialize (Hall f Hin). congruence.
Qed.

(** The verification of an envelope that passes the early checks is the
    sequence check followed by the signature check. *)
Lemma verify_early now msg v d key ts :
  early_checks_pass now msg d key ts ->
  verify now msg v =
    let '(v1, last_seq) := read_last_sequence d v in
    match e_sequence msg with
    | PInt seq =>
        if (seq <=? last_seq)%Z then
          if (seq <? last_seq - 100)%Z then
            check now key d ts seq msg (set_last_sequence d seq v1)
          else (v1, (false, SequenceReplay seq last_seq))
        else check now key d ts seq msg v1
    | _ => (v1, (false, VerificationError))
    end.
Proof.
  intros (Hall & Hd & Hk & Hne & Hts & Hwin).
  unfold verify_message. rewrite Hall, Hd, Hk, Hts. cbn [negb].
  apply string_eqb_false_iff in Hne. rewrite Hne.
  assert ((Z.abs (now - ts) >? TIMESTAMP_WINDOW_MS)%Z = false) as ->
    by (rewrite Z.gtb_ltb; apply Z.ltb_ge; exact Hwin).
  reflexivity.
Qed.


(** The signature check accepts exactly the expected ASCII signature. *)
Lemma check_accepts now key d ts seq msg v :
  fst (snd (check now key d ts seq msg v)) = true <->
  e_signature msg = PStr (expected_signature hmac_sha256 key d ts seq msg)
  /\ is_ascii (expected_signature hmac_sha256 key d ts seq msg) = true.
Proof.
  unfold check_signature.
  destruct (e_signature msg) as [|n|sig]; cbn; try (split; [discriminate | intros [? _]; discriminate]).
  destruct (is_ascii sig) eqn:Ha; cbn.
  - destruct (is_ascii (expected_signature _ _ _ _ _ _)) eqn:He; cbn.
    + destruct (String.eqb_spec sig (expected_signature hmac_sha256 key d ts seq msg)); cbn.
      * split; auto. intros _. split; congruence.
      * split; [discriminate | intros [[=] _]; contradiction].
    + split; [discriminate | intros [_ ?]; discriminate].
  - split; [discriminate |]. intros [[= ->] He]. congruence.
Qed.

Lemma check_rejects now key d ts seq msg v :
  fst (snd (check now key d ts seq msg v)) = false ->
  fst (check now key d ts seq msg v) = v.
Proof.
  unfold check_signature.
  destruct (e_signature msg) as [|n|sig]; cbn; auto.
  destruct (negb _); cbn; auto.
  destruct (negb _); cbn; auto. discriminate.
Qed.

Lemma check_valid now key d ts seq msg v :
  e_signature msg = PStr (expected_signature hmac_sha256 key d ts seq msg) ->
  snd (check now key d ts seq msg v) = (true, ValidMessage)
  /\ last_sequences (fst (check now key d ts seq msg v)) !! d = Some seq.
Proof.
  intros H. unfold check_signature. rewrite H.
  unfold expected_signature, hexdigest. rewrite hex_is_ascii, String.eqb_refl.
  cbn. split; [reflexivity | apply lookup_insert_eq].
Qed.

Lemma check_invalid now key d ts seq msg v :
  e_signature msg <> PStr (expected_signature hmac_sha256 key d ts seq msg) ->
  fst (check now key d ts seq msg v) = v
  /\ fst (snd (check now key d ts seq msg v)) = false.
Proof.
  intros H.
  destruct (fst (snd (check now key d ts seq msg v))) eqn:E.
  - apply check_accepts in E. destruct E as [E _]. contradiction.
  - split; [| reflexivity]. now apply check_rejects.
Qed.


Lemma last_sequence_anchor d seq v :
  last_sequences v !! d = Some seq -> last_sequence d v = seq.
Proof. unfold last_sequence. now intros ->. Qed.

(** C10. An envelope in which one of the six required fields is absent or
    falsy ([None], the integer 0, the empty string) is rejected with the
    reason "Missing required fields", and the verifier is left as it was. *)
Theorem falsy_field_is_missing (now : Z) (msg : envelope) (v : MessageVerifier) :
  (exists f,
     In f [e_device_id msg; e_timestamp msg; e_sequence msg;
           e_can_id msg; e_payload msg; e_signature msg]
     /\ truthy f = false) ->
  verify now msg v = (v, (false, MissingFields))
  /\ reason_text (snd (snd (verify now msg v))) = "Missing required fields".
Proof.
  intros (f & Hin & Hf).
  rewrite (verify_falsy_field now msg v f Hin Hf). split; reflexivity.
Qed.


(** C9. An envelope that passes the early checks, whose sequence is lower
    than the stored one by more than 100 and whose signature is not the
    expected one, is rejected, and the stored sequence is the rejected
    envelope's afterwards.  A correctly signed envelope of the same device
    with a sequence between the two, which the verifier rejected as a replay
    before, is accepted after it. *)
Theorem forged_restart_reopens_replay
    (now : Z) (msg : envelope) (v : MessageVerifier) (d key : string)
    (ts seq : Z) (now2 : Z) (msg2 : envelope) (ts2 seq2 : Z) :
  early_checks_pass now msg d key ts ->
  e_sequence msg = PInt seq ->
  (seq < last_sequence d v - 100)%Z ->
  e_signature msg <> PStr (expected_signature hmac_sha256 key d ts seq msg) ->
  early_checks_pass now2 msg2 d key ts2 ->
  e_sequence msg2 = PInt seq2 ->
  e_signature msg2 = PStr (expected_signature hmac_sha256 key d ts2 seq2 msg2) ->
  (seq < seq2 <= last_sequence d v)%Z ->
  (last_sequence d v - 100 <= seq2)%Z ->
  let r := verify now msg v in
  fst (snd r) = false
  /\ last_sequence d (fst r) = seq
  /\ snd (verify now2 msg2 v) = (false, SequenceReplay seq2 (last_sequence d v))
  /\ snd (verify now2 msg2 (fst r)) = (true, ValidMessage).
Proof.
  intros He Hs Hgap Hbad He2 Hs2 Hgood [Hlo Hhi] Hnear r.
  assert (Hr : r = check now key d ts seq msg
                 (set_last_sequence d seq (fst (read_last_sequence d v)))).
  { subst r. rewrite (verify_early _ _ _ _ _ _ He), Hs.
    cbn [read_last_sequence]. fold (last_sequence d v).
    assert ((seq <=? last_sequence d v)%Z = true) as -> by (apply Z.leb_le; lia).
    assert ((seq <? last_sequence d v - 100)%Z = true) as -> by (apply Z.ltb_lt; lia).
    reflexivity. }
  destruct (check_invalid now key d ts seq msg
              (set_last_sequence d seq (fst (read_last_sequence d v))) Hbad)
    as [Hst Hno].
  rewrite <- Hr in Hst, Hno.
  assert (Hanchor : last_sequence d (fst r) = seq).
  { rewrite Hst. apply last_sequence_anchor. cbn. apply lookup_insert_eq. }
  repeat split; auto.
  - rewrite (verify_early _ _ _ _ _ _ He2), Hs2.
    cbn [read_last_sequence]. fold (last_sequence d v).
    assert ((seq2 <=? last_sequence d v)%Z = true) as -> by (apply Z.leb_le; lia).
    assert ((seq2 <? last_sequence d v - 100)%Z = false) as -> by (apply Z.ltb_ge; lia).
    reflexivity.
  - rewrite (verify_early _ _ _ _ _ _ He2), Hs2.
    cbn [read_last_sequence]. fold (last_sequence d (fst r)). rewrite Hanchor.
    assert ((seq2 <=? seq)%Z = false) as -> by (apply Z.leb_gt; lia).
    apply check_valid, Hgood.
Qed.

(** C2 (as the code behaves). The signer of the speed ECU signs a frame with
    identifier 0 like any other, and the verifier rejects the envelope as
    having missing fields, whatever the clock, the payload, the stored
    sequence and the verifier's state are. *)
Theorem frame_id_zero_is_rejected
    (stored : option Z) (timestamp now : Z) (payload : list Byte.byte)
    (v : MessageVerifier) :
  match signer_init "vehicleA-speed-ecu" stored with
  | Some s =>
      e_can_id (snd (sign timestamp 0 payload s)) = PInt 0
      /\ verify now (snd (sign timestamp 0 payload s)) v
         = (v, (false, MissingFields))
  | None => False
  end.
Proof.
  unfold signer_init.
  assert (get_device_key "vehicleA-speed-ecu" = Some "speed_key_v1_secret_2024")
    as -> by (vm_compute; reflexivity).
  cbn [String.eqb Ascii.eqb Bool.eqb]. split; [reflexivity|].
  apply verify_falsy_field with (f := PInt 0); [cbn; auto 10 | reflexivity].
Qed.

End WithHmac.

(** *** Signing then verifying, and tampering *)

Lemma append_cons c (a b : string) : String c a +:+ b = String c (a +:+ b).
Proof. reflexivity. Qed.

Lemma append_inv_head (a b c : string) : a +:+ b = a +:+ c -> b = c.
Proof.
  induction a as [|x a IH]; [exact (fun H => H)|].
  rewrite !append_cons. intros [= H]. now apply IH.
Qed.

(** Two texts that agree up to their first colon agree before and after it. *)
Lemma colon_split (a a' r r' : string) :
  no_colon a = true -> no_colon a' = true ->
  a +:+ ":" +:+ r = a' +:+ ":" +:+ r' -> a = a' /\ r = r'.
Proof.
  revert a'. induction a as [|c a IH]; intros [|c' a'] Ha Ha'.
  - intros H. split; [reflexivity|]. now apply (append_inv_head ":").
  - rewrite append_cons. intros [= <- _]. discriminate.
  - rewrite append_cons. intros [= -> _]. discriminate.
  - rewrite !append_cons. intros [= -> H].
    cbn in Ha, Ha'. apply andb_prop in Ha as [_ Ha]. apply andb_prop in Ha' as [_ Ha'].
    destruct (IH a' Ha Ha' H) as [-> ->]. now split.
Qed.

Lemma uint_no_colon d : no_colon (NilEmpty.string_of_uint d) = true.
Proof. induction d; cbn; auto. Qed.

Lemma str_Z_no_colon n : no_colon (str_Z n) = true.
Proof.
  unfold str_Z, NilZero.string_of_int, NilZero.string_of_uint.
  destruct (Z.to_int n) as [d|d]; destruct d; try reflexivity;
    apply (uint_no_colon (_ _)) || (cbn; apply uint_no_colon).
Qed.

Lemma str_Z_inj a b : str_Z a = str_Z b -> a = b.
Proof.
  unfold str_Z. intros H. apply DecimalZ.to_int_inj.
  assert (Hn : forall n, Z.to_int n <> Decimal.Pos Decimal.Nil
                         /\ Z.to_int n <> Decimal.Neg Decimal.Nil).
  { intros [|p|p]; cbn; split; try discriminate;
      intros [= E]; now apply DecimalPos.Unsigned.to_uint_nonnil in E. }
  apply (f_equal NilZero.int_of_string) in H.
  rewrite !NilZero.isi in H by apply Hn. now injection H.
Qed.

(** The device identifiers of the key table hold no colon and are not
    empty. *)
Lemma known_device_text d key :
  get_device_key d = Some key -> no_colon d = true /\ d <> "".
Proof.
  intros H. unfold get_device_key, DEVICE_KEYS in H.
  apply elem_of_list_to_map_2, list_elem_of_In in H.
  cbn in H. repeat (destruct H as [[= <- _] | H]; [split; [reflexivity | discriminate]|]).
  contradiction.
Qed.

(** Hence the signed text determines the device, the timestamp, the
    sequence and the rest. *)
Lemma message_data_inj d d' key key' ts ts' seq seq' can can' p p' :
  get_device_key d = Some key -> get_device_key d' = Some key' ->
  message_data d (str_Z ts) (str_Z seq) can p
  = message_data d' (str_Z ts') (str_Z seq') can' p' ->
  d = d' /\ ts = ts' /\ seq = seq' /\ can +:+ ":" +:+ p = can' +:+ ":" +:+ p'.
Proof.
  intros Hd Hd' H. unfold message_data in H.
  apply colon_split in H as [-> H];
    [| now apply known_device_text in Hd | now apply known_device_text in Hd'].
  apply colon_split in H as [Hts H]; [| apply str_Z_no_colon ..].
  apply colon_split in H as [Hseq H]; [| apply str_Z_no_colon ..].
  apply str_Z_inj in Hts, Hseq. now subst.
Qed.

Section Tampering.

Variable hmac_sha256 : string -> string -> list Byte.byte.

Abbreviation verify' := (verify_message hmac_sha256).
Abbreviation sign' := (sign_message hmac_sha256).

(** What an accepted envelope looks like. *)
Lemma verify_accepts_inv now msg v :
  fst (snd (verify' now msg v)) = true ->
  exists d key ts seq,
    e_device_id msg = PStr d
    /\ get_device_key d = Some key
    /\ e_timestamp msg = PInt ts
    /\ e_sequence msg = PInt seq
    /\ e_signature msg = PStr (expected_signature hmac_sha256 key d ts seq msg).
Proof.
  unfold verify_message.
  destruct (negb _); [discriminate|].
  destruct (e_device_id msg) as [|n|d]; try discriminate.
  destruct (get_device_key d) as [key|] eqn:Hk; [|discriminate].
  destruct (String.eqb key ""); [discriminate|].
  destruct (e_timestamp msg) as [|ts|t]; try discriminate.
  destruct (Z.abs (now - ts) >? TIMESTAMP_WINDOW_MS)%Z; [discriminate|].
  cbn [read_last_sequence].
  destruct (e_sequence msg) as [|seq|q]; try discriminate.
  intros H. exists d, key, ts, seq. repeat split; auto.
  destruct (seq <=? _)%Z; [destruct (seq <? _)%Z; [|discriminate]|];
    apply (check_accepts hmac_sha256) in H; apply H.
Qed.

(** X19. An envelope made by a device's signer, for a frame identifier other
    than 0 and a payload that is not empty, submitted within the timestamp
    window with a sequence above the stored one, is accepted. *)
Lemma verify_sign_fresh d stored s timestamp now can_id payload v :
  signer_init d stored = Some s ->
  can_id <> 0%Z -> payload <> [] -> timestamp <> 0%Z ->
  (s_sequence s + 1 <> 0)%Z ->
  hmac_sha256 (s_key s)
    (message_data d (str_Z timestamp) (str_Z (s_sequence s + 1))
       (str_Z can_id) (hex payload)) <> [] ->
  (Z.abs (now - timestamp) <= TIMESTAMP_WINDOW_MS)%Z ->
  (last_sequence d v < s_sequence s + 1)%Z ->
  snd (verify' now (snd (sign' timestamp can_id payload s)) v)
  = (true, ValidMessage).
Proof.
  intros Hs Hc Hp Ht Hq Hdig Hwin Hseq.
  unfold signer_init in Hs.
  destruct (get_device_key d) as [key|] eqn:Hk; [|discriminate].
  destruct (String.eqb_spec key "") as [|Hne]; [discriminate|].
  injection Hs as <-. cbn [s_key s_sequence s_device_id] in *.
  set (msg := snd (sign' _ _ _ _)).
  assert (He : early_checks_pass now msg d key timestamp).
  { repeat split; auto. cbn.
    destruct (known_device_text d key Hk) as [_ Hd].
    apply string_eqb_false_iff in Hd. rewrite Hd.
    apply Z.eqb_neq in Hc, Ht, Hq. rewrite Hc, Ht, Hq.
    apply hex_nonempty, string_eqb_false_iff in Hp, Hdig.
    unfold hexdigest. cbn [s_key s_device_id s_sequence]. now rewrite Hp, Hdig. }
  rewrite (verify_early _ _ _ _ _ _ _ He). cbn [read_last_sequence].
  fold (last_sequence d v).
  change (e_sequence msg) with (PInt (default 1%Z stored + 1)). cbv iota.
  assert ((default 1%Z stored + 1 <=? last_sequence d v)%Z = false) as ->
    by (apply Z.leb_gt; exact Hseq).
  apply check_valid. reflexivity.
Qed.

(** X20. An accepted envelope that carries the signature and frame identifier
    of a signed one, and differs from it in the payload text, the timestamp,
    the sequence or the device, shows two different texts with the same
    digest: tampering goes unnoticed only through a collision of
    HMAC-SHA256. *)
Lemma tampering_needs_collision d stored s timestamp can_id payload now msg' v :
  signer_init d stored = Some s ->
  let msg := snd (sign' timestamp can_id payload s) in
  e_signature msg' = e_signature msg ->
  e_can_id msg' = e_can_id msg ->
  (py_str (e_payload msg') <> py_str (e_payload msg)
   \/ e_timestamp msg' <> e_timestamp msg
   \/ e_sequence msg' <> e_sequence msg
   \/ e_device_id msg' <> e_device_id msg) ->
  fst (snd (verify' now msg' v)) = true ->
  exists key' data' data,
    data' <> data
    /\ e_signature msg = PStr (hexdigest hmac_sha256 (s_key s) data)
    /\ hexdigest hmac_sha256 key' data' = hexdigest hmac_sha256 (s_key s) data.
Proof.
  intros Hs msg Hsig Hcan Hdiff Hacc.
  unfold signer_init in Hs.
  destruct (get_device_key d) as [key|] eqn:Hk; [|discriminate].
  destruct (String.eqb key ""); [discriminate|]. injection Hs as <-.
  destruct (verify_accepts_inv _ _ _ Hacc)
    as (d' & key' & ts' & seq' & Hd' & Hk' & Hts' & Hseq' & Hsig').
  subst msg. cbn in Hsig, Hcan, Hdiff |- *.
  rewrite Hsig in Hsig'. injection Hsig' as Hcol.
  unfold expected_signature in Hcol. rewrite Hcan in Hcol. cbn [py_str] in Hcol.
  eexists key', _, _. split; [| split; [reflexivity | symmetry; exact Hcol]].
  intros Heq.
  destruct (message_data_inj _ _ _ _ _ _ _ _ _ _ _ _ Hk' Hk Heq)
    as (-> & -> & -> & Hrest).
  apply append_inv_head, (append_inv_head ":") in Hrest.
  rewrite Hd', Hts', Hseq' in Hdiff.
  destruct Hdiff as [H | [H | [H | H]]]; congruence.
Qed.

End Tampering.

(** *** Concrete runs, with [toy_digest] for the digest *)

Lemma speed_key : get_device_key "vehicleA-speed-ecu" = Some "speed_key_v1_secret_2024".
Proof. vm_compute. reflexivity. Qed.

(** An envelope signed for frame identifier 0 falls under C10. *)
Lemma falsy_field_is_missing_witness :
  let msg := snd (sign_message toy_digest 1000000 0 frame_30 speed_signer) in
  (exists f,
     In f [e_device_id msg; e_timestamp msg; e_sequence msg;
           e_can_id msg; e_payload msg; e_signature msg]
     /\ truthy f = false)
  /\ verify_message toy_digest 1000000 msg verifier_init
     = (verifier_init, (false, MissingFields))
  /\ reason_text (snd (snd (verify_message toy_digest 1000000 msg verifier_init)))
     = "Missing required fields".
Proof.
  intros msg.
  assert (H : exists f,
     In f [e_device_id msg; e_timestamp msg; e_sequence msg;
           e_can_id msg; e_payload msg; e_signature msg]
     /\ truthy f = false).
  { exists (PInt 0). split; [cbn; auto 10 | reflexivity]. }
  split; [exact H|].
  exact (falsy_field_is_missing toy_digest 1000000 msg verifier_init H).
Defined.

Lemma early_genuine_450 now :
  (Z.abs (now - 1000000) <= 5000)%Z ->
  early_checks_pass now genuine_450 "vehicleA-speed-ecu"
    "speed_key_v1_secret_2024" 1000000.
Proof.
  intros H. repeat split; try reflexivity; try discriminate. exact H.
Qed.

Lemma early_forged_10 :
  early_checks_pass 1000200 forged_10 "vehicleA-speed-ecu"
    "speed_key_v1_secret_2024" 1000100.
Proof.
  repeat split; try reflexivity; discriminate.
Qed.

(** [forged_restart_reopens_replay] on a verifier that accepted sequence
    500: the forged envelope with sequence 10 is rejected, and the old
    envelope with sequence 450 is accepted after it. *)
Lemma forged_restart_reopens_replay_witness :
  let d := "vehicleA-speed-ecu" in
  let r := verify_message toy_digest 1000200 forged_10 verifier_500 in
  last_sequence d verifier_500 = 500%Z
  /\ fst (snd r) = false
  /\ last_sequence d (fst r) = 10%Z
  /\ snd (verify_message toy_digest 1000300 genuine_450 verifier_500)
     = (false, SequenceReplay 450 (last_sequence d verifier_500))
  /\ snd (verify_message toy_digest 1000300 genuine_450 (fst r))
     = (true, ValidMessage).
Proof.
  intros d r. split; [vm_compute; reflexivity|].
  refine (forged_restart_reopens_replay toy_digest 1000200 forged_10
            verifier_500 d "speed_key_v1_secret_2024" 1000100 10
            1000300 genuine_450 1000000 450 early_forged_10 eq_refl _ _
            (early_genuine_450 1000300 _) eq_refl eq_refl _ _).
  - vm_compute. reflexivity.
  - vm_compute. discriminate.
  - vm_compute. discriminate.
  - vm_compute. split; [reflexivity | discriminate].
  - vm_compute. discriminate.
Defined.

End SecurityProps.

(** ** Frame payloads *)

Module CodecProps.
Import Codec.

Lemma byte_of_small (n : N) :
  (n < 256)%N -> exists b, Byte.of_N n = Some b /\ Byte.to_N b = n.
Proof.
  intros H. destruct (Byte.of_N n) as [b|] eqn:E.
  - exists b. split; [reflexivity | now apply Byte.to_of_N].
  - apply Byte.of_N_None_iff in E. lia.
Qed.

(** Two big-endian bytes hold any value below 65536, and read back as it. *)
Lemma frame_data_reads_back (val : Z) :
  (0 <= val < 65536)%Z ->
  exists data,
    frame_data val = Some data
    /\ length data = 8%nat
    /\ int_from_bytes_big (take 2 data) = val.
Proof.
  intros [Hlo Hhi]. unfold frame_data, to_bytes_2_big.
  assert ((0 <=? val)%Z && (val <? 65536)%Z = true) as ->.
  { apply andb_true_intro. split; [apply Z.leb_le | apply Z.ltb_lt]; lia. }
  destruct (byte_of_small (Z.to_N (val / 256))) as (hi & Ehi & Hhi').
  { assert (0 <= val / 256 < 256)%Z
      by (split; [apply Z.div_pos | apply Z.div_lt_upper_bound]; lia).
    lia. }
  destruct (byte_of_small (Z.to_N (val mod 256))) as (lo & Elo & Hlo').
  { pose proof (Z.mod_pos_bound val 256). lia. }
  rewrite Ehi, Elo. eexists. split; [reflexivity|]. split; [reflexivity|].
  cbn. rewrite Hhi', Hlo'.
  pose proof (Z.mod_pos_bound val 256).
  assert (0 <= val / 256)%Z by (apply Z.div_pos; lia).
  rewrite !Z2N.id by lia.
  pose proof (Z.div_mod val 256). lia.
Qed.

(** [int] of a non-negative float is its floor. *)
Lemma py_int_floor (q : Q) :
  0 <= q -> inject_Z (py_int q) <= q /\ q < inject_Z (py_int q) + 1.
Proof.
  destruct q as [a b]. unfold Qle, Qlt, py_int. cbn. intros Ha.
  assert (Ha' : (0 <= a)%Z) by lia.
  rewrite Z.quot_div_nonneg by lia.
  pose proof (Z.div_mod a (Z.pos b)) as Hdm.
  pose proof (Z.mod_pos_bound a (Z.pos b)) as Hmod.
  split; nia.
Qed.

Lemma py_int_range (q : Q) (n : Z) :
  0 <= q -> q <= inject_Z n -> (0 <= py_int q <= n)%Z.
Proof.
  intros Hq Hhi. destruct (py_int_floor q Hq) as [Hfl _].
  split.
  - destruct q as [a b]. unfold py_int. cbn.
    unfold Qle in Hq. cbn in Hq. apply Z.quot_pos; lia.
  - assert (H : inject_Z (py_int q) <= inject_Z n) by lra.
    now rewrite <- Zle_Qle in H.
Qed.

(** The decoded value after a truncating encode of [q / 10 - offset]. *)
Lemma decode_truncated (q : Q) :
  0 <= q -> q <= 65535 ->
  exists data,
    frame_data (py_int q) = Some data
    /\ length data = 8%nat
    /\ inject_Z (int_from_bytes_big (take 2 data)) <= q
    /\ q < inject_Z (int_from_bytes_big (take 2 data)) + 1.
Proof.
  intros Hlo Hhi.
  pose proof (py_int_range q 65535 Hlo Hhi) as Hr.
  destruct (frame_data_reads_back (py_int q)) as (data & Hd & Hlen & Hback); [lia|].
  exists data. rewrite Hback. repeat split; auto; apply py_int_floor; exact Hlo.
Qed.

End CodecProps.

(** ** Physics validator and the listener's scoring *)

Module ListenerProps.
Import Py PyFacts Physics Listener.

(** The steering validator answers "valid" when no time has passed since
    the stored timestamp. *)
Lemma steering_valid_without_delta (steering timestamp : Q) (pv : PhysicsValidator) :
  leb (timestamp - last_timestamp pv) 0 = true ->
  fst (fst (snd (validate_steering_physics steering timestamp pv))) = true.
Proof.
  intros H. unfold validate_steering_physics. rewrite H.
  now destruct (is_empty (steering_history pv)).
Qed.

(** After the speed validator no time has passed since the stored
    timestamp: it stored the frame's own, or it found no time delta. *)
Lemma speed_check_leaves_no_delta (speed timestamp : Q) (pv : PhysicsValidator) :
  leb (timestamp
       - last_timestamp (fst (validate_speed_physics speed timestamp pv))) 0 = true.
Proof.
  assert (Hz : leb (timestamp - timestamp) 0 = true) by (apply leb_le; lra).
  unfold validate_speed_physics.
  destruct (is_empty (speed_history pv)); [exact Hz|].
  destruct (leb (timestamp - last_timestamp pv) 0) eqn:Hdt; [exact Hdt|].
  split_ifs; exact Hz.
Qed.

(** Within [get_physics_score] the steering validator runs after the speed
    validator, so it always answers "valid". *)
Lemma steering_check_after_speed_check (speed steering brake timestamp : Q)
    (pv : PhysicsValidator) :
  steering_valid (snd (get_physics_score speed steering brake timestamp pv)) = true.
Proof.
  pose proof (speed_check_leaves_no_delta speed timestamp pv) as H.
  unfold get_physics_score.
  destruct (validate_speed_physics speed timestamp pv) as [pv1 [[sv sr] ss]].
  cbn [fst] in H.
  pose proof (steering_valid_without_delta steering timestamp pv1 H) as H'.
  destruct (validate_steering_physics steering timestamp pv1) as [pv2 [[tv tr] ts]].
  destruct (validate_correlation speed steering brake pv2) as [[cv cr] cs].
  exact H'.
Qed.

(** Outside training and for a device other than the UI controller, an
    invalid physics result lifts the score to 0.8. *)
Lemma total_anomaly_score_floor (l : layers) (res : physics_result) :
  is_ui_controller (device_id l) = false ->
  training_mode l = false ->
  overall_valid res = false ->
  0.8 <= total_anomaly_score l res.
Proof.
  intros Hui Htr Hinv. unfold total_anomaly_score.
  rewrite Hui, Htr, Hinv. cbn [negb]. apply max_lub_r.
Qed.

(** C1 (amended). For every frame scored by the listener once training is
    over, from a device whose identifier does not contain "ui-controller",
    for which the physics validator reports [overall_valid = false], the
    anomaly score handed to the trust engine is at least 0.8, whatever the
    other layers report. *)
Theorem physics_invalid_forces_score
    (current_speed current_steering current_brake timestamp : Q)
    (l : layers) (pv : PhysicsValidator) :
  is_ui_controller (device_id l) = false ->
  training_mode l = false ->
  let r := score_frame current_speed current_steering current_brake timestamp l pv in
  overall_valid (fst (snd r)) = false ->
  0.8 <= snd (snd r).
Proof.
  intros Hui Htr r. subst r. unfold score_frame.
  destruct (get_physics_score _ _ _ _ _) as [pv' res]. cbn [fst snd].
  now apply total_anomaly_score_floor.
Qed.

(** A jump to 60 km/h a tenth of a second later, from the speed ECU after
    training: the physics result is invalid and the score is at least 0.8. *)
Lemma physics_invalid_forces_score_witness :
  let l := quiet_layers "vehicleA-speed-ecu" false in
  let r := score_frame 60 0 0 100.1 l after_first_frame in
  is_ui_controller (device_id l) = false
  /\ training_mode l = false
  /\ overall_valid (fst (snd r)) = false
  /\ 0.8 <= snd (snd r).
Proof.
  intros l r.
  assert (H1 : is_ui_controller (device_id l) = false) by (vm_compute; reflexivity).
  assert (H2 : training_mode l = false) by reflexivity.
  assert (H3 : overall_valid (fst (snd r)) = false) by (vm_compute; reflexivity).
  split; [exact H1|]. split; [exact H2|]. split; [exact H3|].
  exact (physics_invalid_forces_score 60 0 0 100.1 l after_first_frame H1 H2 H3).
Defined.

(** C1 (as stated) fails: the same jump in a frame of the UI controller, or
    in a frame of the speed ECU while the detector is still training, is
    physics-invalid and scores 0. *)
Lemma physics_invalid_frames_scoring_zero :
  let ui := score_frame 60 0 0 100.1
              (quiet_layers "vehicleA-ui-controller" false) after_first_frame in
  let tr := score_frame 60 0 0 100.1
              (quiet_layers "vehicleA-speed-ecu" true) after_first_frame in
  (overall_valid (fst (snd ui)) = false /\ snd (snd ui) == 0
   /\ ~ 0.8 <= snd (snd ui))
  /\ (overall_valid (fst (snd tr)) = false /\ snd (snd tr) == 0
      /\ ~ 0.8 <= snd (snd tr)).
Proof.
  intros ui tr. split; (split; [vm_compute; reflexivity|]);
    (split; [vm_compute; reflexivity|]); vm_compute; intros H; apply H; reflexivity.
Qed.

End ListenerProps.

(** ** IPS policy engine: limits, bands and recovery *)

Module IPSLimits.
Import Py PyFacts IPS IPSBands.

(** X1. In a mode other than OFF the sanitized speed is at least 10 km/h, at
    most the cap of the mode (40, 35 or 25 km/h), and above 10 km/h only as
    far as 2 km/h over the current speed. *)
Theorem sanitize_speed_within_limits (st : IPSState) (requested current : Q) :
  mode st <> OFF ->
  let out := snd (sanitize_speed requested current st) in
  10 <= out /\ out <= speed_cap (mode st)
  /\ (10 < out -> out <= current + 2).
Proof.
  intros Hm. unfold sanitize_speed, _get_policy_limits.
  destruct (mode st); [contradiction | ..]; cbn [p_mode speed_limit snd speed_cap];
    unfold max, min; split_ifs; to_orders; repeat split; intros; lra.
Qed.

Lemma sanitize_speed_within_limits_witness :
  let st := run [CUpdate 1 0.6 0 false] in
  mode st <> OFF
  /\ 10 <= snd (sanitize_speed 120 80 st)
  /\ snd (sanitize_speed 120 80 st) <= speed_cap (mode st)
  /\ (10 < snd (sanitize_speed 120 80 st) -> snd (sanitize_speed 120 80 st) <= 80 + 2).
Proof.
  intros st.
  assert (H : mode st <> OFF) by (vm_compute; discriminate).
  split; [exact H|]. exact (sanitize_speed_within_limits st 120 80 H).
Defined.

(** X2. In a mode other than OFF the sanitized steering is within the cap of
    the mode (15, 10 or 5 degrees) on either side of the centre. *)
Theorem sanitize_steering_within_limits (st : IPSState) (requested : Q) :
  mode st <> OFF ->
  let out := snd (sanitize_steering requested st) in
  - steering_cap (mode st) <= out <= steering_cap (mode st).
Proof.
  intros Hm. unfold sanitize_steering, _get_policy_limits.
  destruct (mode st); [contradiction | ..];
    cbn [p_mode steering_limit snd steering_cap];
    unfold max, min; split_ifs; to_orders; split; lra.
Qed.

Lemma sanitize_steering_within_limits_witness :
  let st := run [CSanitizeSteering 30; CUpdate 1 0.3 0 false] in
  mode st <> OFF
  /\ - steering_cap (mode st) <= snd (sanitize_steering 30 st)
     <= steering_cap (mode st).
Proof.
  intros st.
  assert (H : mode st <> OFF) by (vm_compute; discriminate).
  split; [exact H|]. exact (sanitize_steering_within_limits st 30 H).
Defined.

(** X3. An enabled engine that sees trust below 0.8 takes the mode of the
    trust band (SOFT_LIMIT from 0.7, SAFE_MODE from 0.5, CRITICAL below),
    whatever its mode was, clears the recovery timer and returns the policy
    of that mode; the anomaly score and the attack flag play no part. *)
Theorem update_policy_follows_trust_band
    (st : IPSState) (now trust a1 a2 : Q) (k1 k2 : bool) :
  enabled st = true ->
  trust < 0.8 ->
  let r := update_policy now trust a1 k1 st in
  mode (fst r) = band trust
  /\ band trust <> OFF
  /\ recovery_timer (fst r) == 0
  /\ p_mode (snd r) = band trust
  /\ update_policy now trust a2 k2 st = r.
Proof.
  intros He Hlow. apply ltb_lt in Hlow.
  unfold update_policy, band, geb, leb. rewrite He, Hlow. cbn [negb fst snd].
  destruct (Qle_bool 0.7 trust); [|destruct (Qle_bool 0.5 trust)];
    cbn; repeat split; discriminate.
Qed.

Lemma update_policy_follows_trust_band_witness :
  let st := run [CUpdate 1 0.75 0 false] in
  let r := update_policy 2 0.55 0.9 true st in
  enabled st = true /\ 0.55 < 0.8
  /\ mode (fst r) = band 0.55
  /\ band 0.55 <> OFF
  /\ recovery_timer (fst r) == 0
  /\ p_mode (snd r) = band 0.55
  /\ update_policy 2 0.55 0 false st = r.
Proof.
  intros st r.
  assert (H1 : enabled st = true) by reflexivity.
  assert (H2 : 0.55 < 0.8) by lra.
  split; [exact H1|]. split; [exact H2|].
  exact (update_policy_follows_trust_band st 2 0.55 0.9 0 true false H1 H2).
Defined.

(** X4. An enabled engine in a mode other than OFF whose timer is not running
    returns to OFF on the second of two updates that see trust at or above
    0.8 more than 5 seconds apart: the first starts the timer and keeps the
    mode, the second sets OFF and clears the timer. *)
Theorem recovery_after_five_seconds
    (st : IPSState) (t1 t2 trust1 trust2 a1 a2 : Q) (k1 k2 : bool) :
  enabled st = true ->
  mode st <> OFF ->
  recovery_timer st == 0 ->
  ~ t1 == 0 ->
  0.8 <= trust1 -> 0.8 <= trust2 ->
  5 < t2 - t1 ->
  let st1 := fst (update_policy t1 trust1 a1 k1 st) in
  let st2 := fst (update_policy t2 trust2 a2 k2 st1) in
  mode st1 = mode st /\ recovery_timer st1 = t1
  /\ mode st2 = OFF /\ recovery_timer st2 == 0.
Proof.
  intros He Hm Hz Ht1 H1 H2 Hgap.
  apply ltb_ge in H1, H2. apply eqb_eq in Hz. apply eqb_neq in Ht1.
  assert (Hoff : Mode_eqb (mode st) OFF = false)
    by (destruct (mode st); [contradiction | reflexivity ..]).
  assert (E1 : fst (update_policy t1 trust1 a1 k1 st)
               = with_mode_timer (mode st) t1 st).
  { unfold update_policy. rewrite He, H1, Hoff, Hz. reflexivity. }
  intros st1 st2. subst st2 st1. rewrite E1.
  unfold update_policy, with_mode_timer.
  cbn [enabled mode recovery_timer]. rewrite He, H2, Hoff, Ht1. cbn [negb].
  assert (gtb (t2 - t1) 5.0 = true) as -> by (apply gtb_gt; lra).
  cbn. repeat split; reflexivity.
Qed.

Lemma recovery_after_five_seconds_witness :
  let st := run [CUpdate 1 0.6 0 false] in
  let st1 := fst (update_policy 2 0.85 0 false st) in
  let st2 := fst (update_policy 7.5 0.9 0 false st1) in
  mode st <> OFF
  /\ mode st1 = mode st /\ recovery_timer st1 = 2
  /\ mode st2 = OFF /\ recovery_timer st2 == 0.
Proof.
  intros st.
  assert (Hm : mode st <> OFF) by (vm_compute; discriminate).
  split; [exact Hm|].
  refine (recovery_after_five_seconds st 2 7.5 0.85 0.9 0 0 false false
            eq_refl Hm _ _ _ _ _); try lra.
  - reflexivity.
Defined.

(** X5. Once switched off, an engine is in OFF mode with no timer running
    after any further calls that leave it switched off; it then hands every
    requested speed and steering back unchanged and an [update_policy]
    call changes nothing. *)
Theorem disabled_engine_is_transparent
    (cs : list call) (requested current now trust a : Q) (k : bool) :
  enabled (run cs) = false ->
  mode (run cs) = OFF
  /\ recovery_timer (run cs) == 0
  /\ snd (sanitize_speed requested current (run cs)) = requested
  /\ snd (sanitize_steering requested (run cs)) = requested
  /\ fst (update_policy now trust a k (run cs)) = run cs
  /\ p_mode (snd (update_policy now trust a k (run cs))) = OFF.
Proof.
  intros Hd.
  assert (Hinv : forall cs, enabled (run cs) = false ->
                   mode (run cs) = OFF /\ recovery_timer (run cs) == 0).
  { clear. induction cs as [|c cs IH] using rev_ind; [discriminate|].
    unfold run in *. rewrite fold_left_app. cbn [fold_left].
    set (st := fold_left step cs init) in *.
    destruct c as [now t a k | b | r c | r]; cbn [step].
    - unfold update_policy. destruct (enabled st) eqn:He; cbn [negb fst].
      + split_ifs; intros H; cbn in H; congruence.
      + auto.
    - destruct b; cbn; [discriminate | split; reflexivity].
    - unfold sanitize_speed, _get_policy_limits.
      destruct (mode st) eqn:Em; cbn; rewrite ?Em; auto.
    - unfold sanitize_steering, _get_policy_limits.
      destruct (mode st) eqn:Em; cbn; rewrite ?Em; auto. }
  destruct (Hinv cs Hd) as [Hm Ht].
  unfold sanitize_speed, sanitize_steering, update_policy, _get_policy_limits.
  rewrite Hm, Hd. cbn. repeat split; auto.
Qed.

Lemma disabled_engine_is_transparent_witness :
  let cs := [CUpdate 1 0.3 0 false; CSetEnabled false; CUpdate 2 0.2 0 false] in
  enabled (run cs) = false
  /\ mode (run cs) = OFF
  /\ recovery_timer (run cs) == 0
  /\ snd (sanitize_speed 120 30 (run cs)) = 120
  /\ snd (sanitize_steering 120 (run cs)) = 120
  /\ fst (update_policy 3 0.1 0 false (run cs)) = run cs
  /\ p_mode (snd (update_policy 3 0.1 0 false (run cs))) = OFF.
Proof.
  intros cs.
  assert (H : enabled (run cs) = false) by reflexivity.
  split; [exact H|].
  exact (disabled_engine_is_transparent cs 120 30 3 0.1 0 false H).
Defined.

End IPSLimits.

(** ** Trust engine: toggle and recovery *)

Module TrustMore.
Import Py PyFacts Trust.

(** With ML switched off the anomaly score has no influence on the trust
    update: any two scores give the same engine and the same result. *)
Theorem ml_off_ignores_anomaly (e : TrustEngine) (now a1 a2 auth temporal : Q) :
  ml_enabled e = false ->
  update_trust now a1 auth temporal e = update_trust now a2 auth temporal e.
Proof. intros H. unfold update_trust. rewrite H. reflexivity. Qed.

Lemma ml_off_ignores_anomaly_witness :
  let e := set_ml_enabled false (init_default 0) in
  ml_enabled e = false
  /\ update_trust 1 0.9 1 1 e = update_trust 1 0 1 1 e.
Proof.
  intros e. assert (H : ml_enabled e = false) by reflexivity.
  split; [exact H|]. exact (ml_off_ignores_anomaly e 1 0.9 0 1 1 H).
Defined.

(** X6. On an engine built with the default weights, an update with full
    authentication and temporal scores and an effective anomaly in
    [[0, 0.1)] never lowers the trust score: it adds [0.01 - 0.1 * anomaly]
    and stops at 1. *)
Theorem benign_update_recovers (now0 : Q) (cs : list call) (now a : Q) :
  0 <= a -> a < 0.1 ->
  let e := run (init_default now0) cs in
  let t' := snd (update_trust now a 1 1 e) in
  trust_score e <= t'
  /\ (ml_enabled e = true -> t' == min 1 (trust_score e + 0.01 - 0.1 * a))
  /\ (ml_enabled e = false -> t' == min 1 (trust_score e + 0.01)).
Proof.
  intros Ha0 Ha e t'.
  pose proof (TrustProps.init_params 0.1 0.2 0.05 "vehicleA" now0 cs) as Hp.
  change (init 0.1 0.2 0.05 "vehicleA" now0) with (init_default now0) in Hp.
  fold e in Hp. unfold params_of in Hp. injection Hp as Hal Hb Hg Hr Hmin Hmax.
  pose proof (TrustProps.init_bounds 0.1 0.2 0.05 "vehicleA" now0 cs) as Hrange.
  change (init 0.1 0.2 0.05 "vehicleA" now0) with (init_default now0) in Hrange.
  fold e in Hrange.
  subst t'. cbn [update_trust snd]. rewrite Hal, Hb, Hg, Hr, Hmin, Hmax.
  destruct (ml_enabled e); unfold max, min; split_ifs; to_orders;
    repeat split; intros; try discriminate; lra.
Qed.

Lemma benign_update_recovers_witness :
  let e := run (init_default 0) [CUpdate 1 0.9 1 1; CUpdate 2 0.9 1 1] in
  let t' := snd (update_trust 3 0.05 1 1 e) in
  0 <= 0.05 /\ 0.05 < 0.1
  /\ trust_score e <= t'
  /\ (ml_enabled e = true -> t' == min 1 (trust_score e + 0.01 - 0.1 * 0.05))
  /\ (ml_enabled e = false -> t' == min 1 (trust_score e + 0.01)).
Proof.
  intros e t'.
  assert (H1 : 0 <= 0.05) by lra. assert (H2 : 0.05 < 0.1) by lra.
  split; [exact H1|]. split; [exact H2|].
  exact (benign_update_recovers 0 [CUpdate 1 0.9 1 1; CUpdate 2 0.9 1 1] 3 0.05 H1 H2).
Defined.

End TrustMore.

(** ** Policy engine *)

Module PolicyProps.
Import Py PyFacts Policy.

(** Case analysis on the trust comparisons, with the comparisons of action
    names evaluated on the way. *)
Ltac split_actions :=
  repeat (cbv [String.eqb Ascii.eqb Bool.eqb];
          match goal with
          | |- context [if ?b then _ else _] =>
              lazymatch b with
              | context [if _ then _ else _] => fail
              | _ => let E := fresh "E" in destruct b eqn:E
              end
          end);
  cbv [String.eqb Ascii.eqb Bool.eqb].

(** The containment policy never raises a speed: the result is at most the
    commanded speed, at most 50 km/h once trust is 0.6 or less and at most
    10 km/h once trust is 0.4 or less; above 0.6 the speed passes unchanged. *)
Theorem speed_policy_only_lowers (speed trust : Q) :
  let out := apply_speed_policy init speed trust in
  out <= speed
  /\ (trust <= 0.6 -> out <= 50)
  /\ (trust <= 0.4 -> out <= 10)
  /\ (0.6 < trust -> out = speed).
Proof.
  unfold apply_speed_policy, get_containment_action, init; cbn [warning_threshold
    clamp_threshold ignore_threshold max_speed].
  unfold min; split_actions; to_orders; repeat split; intros;
    try reflexivity; lra.
Qed.

(** The containment policy returns 0 degrees for a trust of 0.4 or less,
    a steering within 15 degrees of the centre for a trust in (0.4, 0.6],
    and the commanded steering unchanged above 0.6. *)
Theorem steering_policy_bands (steering trust : Q) :
  let out := apply_steering_policy init steering trust in
  (trust <= 0.4 -> out = 0.0)
  /\ (0.4 < trust -> trust <= 0.6 -> -15 <= out <= 15)
  /\ (0.6 < trust -> out = steering).
Proof.
  unfold apply_steering_policy, get_containment_action, init; cbn [warning_threshold
    clamp_threshold ignore_threshold max_steering_angle].
  unfold max, min; split_actions; to_orders; repeat split; intros;
    try reflexivity; lra.
Qed.

(** X8. [should_ignore_message] and the IGNORE action disagree at exactly one
    trust score: at 0.4 the action is IGNORE (and the decision reports
    message filtering) while [should_ignore_message] answers no. *)
Theorem ignore_boundary_mismatch (trust : Q) :
  (get_containment_action init trust = "IGNORE" <-> trust <= 0.4)
  /\ (should_ignore_message init trust = true <-> trust < 0.4)
  /\ (d_message_filtering (get_policy_decision init trust) = true
      /\ should_ignore_message init trust = false <-> trust == 0.4).
Proof.
  unfold get_policy_decision, should_ignore_message, get_containment_action, init;
    cbn [warning_threshold clamp_threshold ignore_threshold d_message_filtering].
  destruct (ltb trust 0.4) eqn:Hlt;
    split_actions; to_orders; repeat split; intros;
    repeat match goal with H : _ /\ _ |- _ => destruct H end;
    try discriminate; try reflexivity; try lra.
Qed.

(** The containment action and the trust engine's level are the same scale:
    NONE goes with HIGH, WARNING with MEDIUM, CLAMP with LOW and IGNORE with
    CRITICAL, for every trust score. *)
Theorem action_matches_trust_level (e : Trust.TrustEngine) :
  level_of_action (get_containment_action init (Trust.trust_score e))
  = Trust.get_trust_level e.
Proof.
  unfold get_containment_action, Trust.get_trust_level, init;
    cbn [warning_threshold clamp_threshold ignore_threshold].
  unfold level_of_action. split_actions; reflexivity.
Qed.

(** X7. The containment policy only ever restricts a command.  Speed: the
    result is at most the commanded speed, at most 50 km/h once trust is
    0.6 or less and at most 10 km/h once trust is 0.4 or less.  Steering:
    0 degrees for a trust of 0.4 or less, within 15 degrees of the centre
    for a trust in (0.4, 0.6].  Above 0.6 both pass unchanged. *)
Theorem containment_limits (speed steering trust : Q) :
  (apply_speed_policy init speed trust <= speed
   /\ (trust <= 0.6 -> apply_speed_policy init speed trust <= 50)
   /\ (trust <= 0.4 -> apply_speed_policy init speed trust <= 10)
   /\ (0.6 < trust -> apply_speed_policy init speed trust = speed))
  /\ ((trust <= 0.4 -> apply_steering_policy init steering trust = 0.0)
      /\ (0.4 < trust -> trust <= 0.6 ->
          -15 <= apply_steering_policy init steering trust <= 15)
      /\ (0.6 < trust -> apply_steering_policy init steering trust = steering)).
Proof.
  split; [apply speed_policy_only_lowers | apply steering_policy_bands].
Qed.

End PolicyProps.

(** ** From the score to the trust and IPS engines *)

Module PipelineProps.
Import Py PyFacts Pipeline.

Lemma after_scoring_trust now now' score te ips :
  Trust.trust_score (fst (fst (Pipeline.after_scoring now now' score te ips)))
  = snd (Trust.update_trust now score 1.0 1.0 te)
  /\ Trust.params_of (fst (fst (Pipeline.after_scoring now now' score te ips)))
     = Trust.params_of te
  /\ Trust.ml_enabled (fst (fst (Pipeline.after_scoring now now' score te ips)))
     = Trust.ml_enabled te
  /\ snd (fst (Pipeline.after_scoring now now' score te ips))
     = fst (IPS.update_policy now' (snd (Trust.update_trust now score 1.0 1.0 te))
              score false ips).
Proof.
  unfold Pipeline.after_scoring. cbn [Trust.update_trust].
  destruct (IPS.update_policy _ _ _ _ _) as [ips1 pol] eqn:E.
  cbn. repeat split; reflexivity.
Qed.

Lemma default_engine_after now now' score te ips :
  default_engine te ->
  default_engine (fst (fst (Pipeline.after_scoring now now' score te ips))).
Proof.
  intros [Hp Hr]. destruct (after_scoring_trust now now' score te ips) as (Ht & Hp' & _).
  split; [now rewrite Hp'|]. rewrite Ht.
  unfold Trust.params_of in Hp. injection Hp as _ _ _ _ Hmin Hmax.
  cbn [Trust.update_trust snd]. rewrite Hmin, Hmax.
  pose proof (TrustProps.max_min_bounds 0.0 1.0
    (Trust.trust_score te
     + (if ltb (if Trust.ml_enabled te then score else 0.0) 0.1
        then - Trust.alpha te * (if Trust.ml_enabled te then score else 0.0)
             - Trust.beta te * (1 - 1.0) - Trust.gamma te * (1 - 1.0)
             + Trust.recovery_rate te
        else - Trust.alpha te * (if Trust.ml_enabled te then score else 0.0)
             - Trust.beta te * (1 - 1.0) - Trust.gamma te * (1 - 1.0)))) as H.
  lra.
Qed.

(** X9. With ML switched off, no frame lowers the trust score in the listener,
    whatever its anomaly score: physics-invalid frames included, the trust
    of a default engine grows by 0.01 per frame up to 1, and an IPS engine
    in OFF mode stays in OFF mode when trust was at or above 0.8. *)
Theorem ml_off_frame_never_lowers_trust
    (now now' score : Q) (te : Trust.TrustEngine) (ips : IPS.IPSState) :
  default_engine te ->
  Trust.ml_enabled te = false ->
  let r := Pipeline.after_scoring now now' score te ips in
  Trust.trust_score (fst (fst r)) == min 1 (Trust.trust_score te + 0.01)
  /\ Trust.trust_score te <= Trust.trust_score (fst (fst r))
  /\ (0.8 <= Trust.trust_score te -> IPS.mode ips = IPS.OFF ->
      IPS.mode (snd (fst r)) = IPS.OFF).
Proof.
  intros [Hp [H0 H1]] Hml r. subst r.
  destruct (after_scoring_trust now now' score te ips) as (Ht & _ & _ & Hips).
  rewrite Ht, Hips. clear Ht Hips.
  unfold Trust.params_of in Hp. injection Hp as Hal Hb Hg Hr Hmin Hmax.
  cbn [Trust.update_trust snd]. rewrite Hml, Hal, Hb, Hg, Hr, Hmin, Hmax.
  assert (ltb 0.0 0.1 = true) as -> by reflexivity.
  set (t' := max 0.0 (min 1.0 (Trust.trust_score te
               + (- (0.1) * 0.0 - 0.2 * (1 - 1.0) - 0.05 * (1 - 1.0) + 0.01)))).
  assert (Ht' : t' == min 1 (Trust.trust_score te + 0.01)
                /\ Trust.trust_score te <= t').
  { subst t'. unfold max, min. split_ifs; to_orders; split; lra. }
  destruct Ht' as [E Hle]. split; [exact E|]. split; [exact Hle|].
  intros Hhigh Hoff. unfold IPS.update_policy.
  destruct (IPS.enabled ips); cbn [negb fst]; [|exact Hoff].
  assert (ltb t' 0.8 = false) as -> by (apply ltb_ge; lra).
  rewrite Hoff. cbn [IPS.Mode_eqb negb]. exact Hoff.
Qed.

Lemma ml_off_frame_never_lowers_trust_witness :
  let te := Trust.set_ml_enabled false (Trust.init_default 0) in
  let r := Pipeline.after_scoring 1 1.001 0.95 te IPS.init in
  default_engine te /\ Trust.ml_enabled te = false
  /\ Trust.trust_score (fst (fst r)) == min 1 (Trust.trust_score te + 0.01)
  /\ Trust.trust_score te <= Trust.trust_score (fst (fst r))
  /\ (0.8 <= Trust.trust_score te -> IPS.mode IPS.init = IPS.OFF ->
      IPS.mode (snd (fst r)) = IPS.OFF).
Proof.
  intros te r.
  assert (H1 : default_engine te) by (split; [reflexivity | cbn; lra]).
  assert (H2 : Trust.ml_enabled te = false) by reflexivity.
  split; [exact H1|]. split; [exact H2|].
  exact (ml_off_frame_never_lowers_trust 1 1.001 0.95 te IPS.init H1 H2).
Defined.

Lemma update_policy_keeps_switch now trust a k st :
  IPS.enabled (fst (IPS.update_policy now trust a k st)) = IPS.enabled st.
Proof.
  unfold IPS.update_policy. destruct (IPS.enabled st) eqn:E; cbn [negb fst];
    [split_ifs; exact E | exact E].
Qed.

(** One frame with a score of at least 0.8, ML on. *)
Lemma high_score_frame_lowers_trust now now' score te ips :
  default_engine te ->
  Trust.ml_enabled te = true ->
  0.8 <= score ->
  Trust.trust_score (fst (fst (Pipeline.after_scoring now now' score te ips)))
  <= max 0 (Trust.trust_score te - 0.08).
Proof.
  intros [Hp [H0 H1]] Hml Hs.
  destruct (after_scoring_trust now now' score te ips) as (Ht & _).
  rewrite Ht. clear Ht.
  unfold Trust.params_of in Hp. injection Hp as Hal Hb Hg Hr Hmin Hmax.
  cbn [Trust.update_trust snd]. rewrite Hml, Hal, Hb, Hg, Hr, Hmin, Hmax.
  unfold max, min. split_ifs; to_orders; lra.
Qed.

(** X10. With ML on, three frames in a row that score at least 0.8 (as every
    physics-invalid frame does once training is over) bring the trust of a
    default engine to 0.76 or less, and an enabled IPS engine is then in a
    mode other than OFF, whatever the trust and the mode were before. *)
Theorem three_high_scores_trip_ips
    (t1 t1' t2 t2' t3 t3' s1 s2 s3 : Q) (te : Trust.TrustEngine) (ips : IPS.IPSState) :
  default_engine te ->
  Trust.ml_enabled te = true ->
  IPS.enabled ips = true ->
  0.8 <= s1 -> 0.8 <= s2 -> 0.8 <= s3 ->
  let r := Pipeline.after_frames [(t1, t1', s1); (t2, t2', s2); (t3, t3', s3)] te ips in
  Trust.trust_score (fst r) <= 0.76
  /\ IPS.mode (snd r) <> IPS.OFF.
Proof.
  intros Hd Hml Hen H1 H2 H3 r. subst r. cbn [Pipeline.after_frames].
  pose proof (high_score_frame_lowers_trust t1 t1' s1 te ips Hd Hml H1) as L1.
  pose proof (default_engine_after t1 t1' s1 te ips Hd) as D1.
  destruct (after_scoring_trust t1 t1' s1 te ips) as (_ & _ & M1 & I1).
  destruct (Pipeline.after_scoring t1 t1' s1 te ips) as [[te1 ips1] p1].
  cbn [fst snd] in *. rewrite Hml in M1.
  pose proof (high_score_frame_lowers_trust t2 t2' s2 te1 ips1 D1 M1 H2) as L2.
  pose proof (default_engine_after t2 t2' s2 te1 ips1 D1) as D2.
  destruct (after_scoring_trust t2 t2' s2 te1 ips1) as (_ & _ & M2 & I2).
  destruct (Pipeline.after_scoring t2 t2' s2 te1 ips1) as [[te2 ips2] p2].
  cbn [fst snd] in *. rewrite M1 in M2.
  pose proof (high_score_frame_lowers_trust t3 t3' s3 te2 ips2 D2 M2 H3) as L3.
  destruct (after_scoring_trust t3 t3' s3 te2 ips2) as (T3 & _ & _ & I3).
  destruct (Pipeline.after_scoring t3 t3' s3 te2 ips2) as [[te3 ips3] p3].
  cbn [fst snd] in *.
  destruct Hd as [_ [_ Hle]]. destruct D1 as [_ [_ Hle1]]. destruct D2 as [_ [_ Hle2]].
  assert (Hfin : Trust.trust_score te3 <= 0.76).
  { revert L1 L2 L3. unfold max. split_ifs; to_orders; intros; lra. }
  split; [exact Hfin|].
  assert (En2 : IPS.enabled ips2 = true)
    by (rewrite I2, I1, !update_policy_keeps_switch; exact Hen).
  rewrite I3, <- T3. unfold IPS.update_policy. rewrite En2. cbn [negb fst].
  assert (ltb (Trust.trust_score te3) 0.8 = true) as -> by (apply ltb_lt; lra).
  split_ifs; discriminate.
Qed.

Lemma three_high_scores_trip_ips_witness :
  let te := Trust.init_default 0 in
  let r := Pipeline.after_frames [(1, 1.01, 0.8); (1.1, 1.11, 0.9); (1.2, 1.21, 1)] te IPS.init in
  default_engine te
  /\ Trust.trust_score (fst r) <= 0.76
  /\ IPS.mode (snd r) <> IPS.OFF.
Proof.
  intros te.
  assert (H1 : default_engine te) by (split; [reflexivity | cbn; lra]).
  split; [exact H1|].
  refine (three_high_scores_trip_ips 1 1.01 1.1 1.11 1.2 1.21 0.8 0.9 1 te IPS.init H1
            eq_refl eq_refl _ _ _); lra.
Defined.

End PipelineProps.

(** ** Physics validator: what its verdicts depend on *)

Module PhysicsProps.
Import Py PyFacts Physics PhysicsRun.

Lemma update_history_limits speed steering timestamp pv :
  limits_of (_update_history speed steering timestamp pv) = limits_of pv.
Proof. reflexivity. Qed.

Lemma validate_speed_state speed timestamp pv :
  fst (validate_speed_physics speed timestamp pv) = pv
  \/ fst (validate_speed_physics speed timestamp pv)
     = _update_history speed 0.0 timestamp pv.
Proof.
  unfold validate_speed_physics.
  destruct (is_empty (speed_history pv)); [now right|].
  destruct (leb _ 0); [now left|]. right. split_ifs; reflexivity.
Qed.

Lemma validate_steering_state steering timestamp pv :
  fst (validate_steering_physics steering timestamp pv) = pv
  \/ (steering_history pv = []
      /\ fst (validate_steering_physics steering timestamp pv)
         = _update_history 0.0 steering timestamp pv).
Proof.
  unfold validate_steering_physics.
  destruct (steering_history pv) eqn:E; cbn [is_empty]; [right; now split|].
  left. split_ifs; reflexivity.
Qed.

Lemma get_physics_score_state speed steering brake timestamp pv :
  fst (get_physics_score speed steering brake timestamp pv)
  = fst (validate_steering_physics steering timestamp
           (fst (validate_speed_physics speed timestamp pv))).
Proof.
  unfold get_physics_score.
  destruct (validate_speed_physics speed timestamp pv) as [pv1 [[sv sr] ss]].
  cbn [fst].
  destruct (validate_steering_physics steering timestamp pv1) as [pv2 [[tv tr] ts]].
  destruct (validate_correlation speed steering brake pv2) as [[cv cr] cs].
  reflexivity.
Qed.

Lemma deque_append_length l x :
  length (deque_append l x) = Nat.min (length l + 1) 10.
Proof. unfold deque_append. rewrite length_drop, length_app. cbn. lia. Qed.

Lemma deque_append_nonempty l x : deque_append l x <> [].
Proof.
  intros H. apply (f_equal (@length Q)) in H.
  rewrite deque_append_length in H. cbn in H. lia.
Qed.

Lemma deque_append_zeros l :
  Forall (fun s => s = 0.0) l -> Forall (fun s => s = 0.0) (deque_append l 0.0).
Proof.
  intros H. unfold deque_append. apply Forall_drop, Forall_app.
  split; [exact H | now constructor].
Qed.

Lemma history_inv_step pv f : history_inv pv -> history_inv (step pv f).
Proof.
  intros (Hl & Hlen & Hlen' & Hmax & Hz & Hls).
  destruct f as [[[speed steering] brake] timestamp]. unfold step.
  rewrite get_physics_score_state.
  assert (H1 : history_inv (fst (validate_speed_physics speed timestamp pv))).
  { destruct (validate_speed_state speed timestamp pv) as [-> | ->].
    - repeat split; assumption.
    - unfold history_inv, default_limits. rewrite update_history_limits.
      cbn [_update_history speed_history steering_history timestamp_history
           last_steering].
      rewrite !deque_append_length, Hlen, Hlen'.
      repeat split; auto; try lia. now apply deque_append_zeros. }
  set (pv1 := fst (validate_speed_physics speed timestamp pv)) in *.
  destruct (validate_steering_state steering timestamp pv1) as [-> | [He ->]];
    [exact H1|].
  (* the steering validator records a frame only on an empty history, which
     the speed validator has just filled *)
  exfalso. subst pv1.
  destruct (validate_speed_state speed timestamp pv) as [E | E]; rewrite E in He.
  - unfold validate_speed_physics in E.
    destruct (speed_history pv) eqn:Es; cbn [is_empty] in E.
    + apply (f_equal steering_history) in E. cbn in E. rewrite He in E.
      now apply deque_append_nonempty in E.
    + rewrite He in Hlen. discriminate.
  - cbn in He. now apply deque_append_nonempty in He.
Qed.

(** X11. After any run of frames from a fresh validator: the limits are the
    constructor's, the three histories have the same length, at most 10,
    and the steering history and the last steering hold no steering angle
    at all: every entry is the 0.0 that the speed validator records. *)
Theorem steering_history_holds_only_zeros (now : Q) (frames : list frame) :
  let pv := run now frames in
  default_limits pv
  /\ length (speed_history pv) = length (steering_history pv)
  /\ length (timestamp_history pv) = length (speed_history pv)
  /\ (length (speed_history pv) <= 10)%nat
  /\ Forall (fun s => s = 0.0) (steering_history pv)
  /\ last_steering pv = 0.0.
Proof.
  induction frames as [|f frames IH] using rev_ind.
  - cbn. repeat split; try reflexivity; try lia. constructor.
  - unfold run in *. rewrite fold_left_app. cbn [fold_left].
    apply history_inv_step. exact IH.
Qed.

(** Case analysis on every comparison of a validator's body. *)
Ltac split_rules :=
  unfold abs, max, min, andb; split_ifs; try discriminate; to_orders.

Ltac use_limits H :=
  unfold default_limits, limits_of in H;
  let A := fresh "Hacc" in
  let B := fresh "Hdec" in
  let C := fresh "Hdelta" in
  let D := fresh "Hrate" in
  injection H as A B C D; rewrite ?A, ?B, ?C, ?D.

Lemma speed_score_bounds speed timestamp pv :
  default_limits pv ->
  0 <= snd (snd (validate_speed_physics speed timestamp pv)) <= 1.
Proof.
  intros Hl. unfold validate_speed_physics.
  destruct (is_empty (speed_history pv)); [cbn; lra|].
  destruct (leb _ 0); [cbn; lra|].
  use_limits Hl.
  generalize ((speed - last_speed pv) / 3.6 / (timestamp - last_timestamp pv)).
  intros a. unfold Qdiv. change (/ 4.0) with (10 # 40). change (/ 9.0) with (10 # 90).
  split_rules; cbn [snd]; lra.
Qed.

Lemma steering_score_without_delta steering timestamp pv :
  leb (timestamp - last_timestamp pv) 0 = true ->
  snd (snd (validate_steering_physics steering timestamp pv)) = 1.0.
Proof.
  intros H. unfold validate_steering_physics. rewrite H.
  now destruct (is_empty (steering_history pv)).
Qed.

Lemma correlation_score_bounds speed steering brake pv :
  0.3 <= snd (validate_correlation speed steering brake pv) <= 1.
Proof.
  unfold validate_correlation.
  destruct (8 <? length (List.filter _ (steering_history pv)))%nat;
    split_rules; cbn [snd]; lra.
Qed.

(** X12. With the constructor's limits, the combined physics score of a frame is
    never below 0.36 and never above 1: the steering part always counts in
    full, and no correlation rule weighs more than 0.7. *)
Theorem physics_score_bounds (speed steering brake timestamp : Q)
    (pv : PhysicsValidator) :
  default_limits pv ->
  0.36 <= physics_score (snd (get_physics_score speed steering brake timestamp pv))
       <= 1.
Proof.
  intros Hl.
  pose proof (speed_score_bounds speed timestamp pv Hl) as Hs.
  pose proof (ListenerProps.speed_check_leaves_no_delta speed timestamp pv) as Hd.
  unfold get_physics_score.
  destruct (validate_speed_physics speed timestamp pv) as [pv1 [[sv sr] ss]].
  cbn [fst snd] in Hs, Hd.
  pose proof (steering_score_without_delta steering timestamp pv1 Hd) as Ht.
  destruct (validate_steering_physics steering timestamp pv1) as [pv2 [[tv tr] ts]].
  cbn [snd] in Ht. subst ts.
  pose proof (correlation_score_bounds speed steering brake pv2) as Hc.
  destruct (validate_correlation speed steering brake pv2) as [[cv cr] cs].
  cbn [snd physics_score] in *. lra.
Qed.

Lemma physics_score_bounds_witness :
  let pv := run 99 [(30, 0, 0, 100)] in
  default_limits pv
  /\ 0.36 <= physics_score (snd (get_physics_score 95 30 20 100.1 pv)) <= 1.
Proof.
  intros pv. assert (H : default_limits pv) by reflexivity.
  split; [exact H|]. exact (physics_score_bounds 95 30 20 100.1 pv H).
Defined.

(** X14. The correlation verdict is "invalid" exactly when the speed rose by
    more than 1 km/h with the brake above 10 % (given two frames of
    history), or the speed is above 60 km/h with more than 25 degrees of
    steering; the rule on high speed without steering never changes it. *)
Theorem correlation_verdict_rules (speed steering brake : Q) (pv : PhysicsValidator) :
  fst (fst (validate_correlation speed steering brake pv)) = false
  <-> (((2 <= length (speed_history pv))%nat
        /\ last_speed pv + 1 < speed /\ 10 < brake)
       \/ (60 < speed /\ (25 < steering \/ steering < -25))).
Proof.
  unfold validate_correlation.
  destruct (8 <? length (List.filter _ (steering_history pv)))%nat;
  (destruct (2 <=? length (speed_history pv))%nat eqn:El;
    [apply Nat.leb_le in El | apply Nat.leb_gt in El]);
    split_rules; cbn [fst snd]; rewrite ltb_ge;
    (split;
     [ intros H;
       first [ left; repeat split; [exact El | lra ..]
             | right; split; [lra | first [left; lra | right; lra]]
             | exfalso; lra ]
     | intros [(H & H' & H'') | [H [H' | H']]]; first [lra | lia] ]).
Qed.

End PhysicsProps.

(** ** Frame payloads: failures, ranges and exact round trips *)

Module CodecMoreProps.
Import Codec CodecMore.

Lemma py_int_ge (q : Q) (n : Z) :
  (0 < n)%Z -> ((n <= py_int q)%Z <-> inject_Z n <= q).
Proof.
  intros Hn. destruct q as [a b]. unfold Qle, py_int. cbn.
  pose proof (Z.quot_rem' a (Z.pos b)) as Hq.
  destruct (Z.le_gt_cases 0 a) as [Ha | Ha].
  - pose proof (Z.rem_bound_pos a (Z.pos b) Ha ltac:(lia)). split; nia.
  - pose proof (Z.rem_bound_pos_neg a (Z.pos b) ltac:(lia) ltac:(lia)). split; nia.
Qed.

Lemma py_int_neg (q : Q) : ((py_int q < 0)%Z <-> q <= -1).
Proof.
  destruct q as [a b]. unfold Qle, py_int. cbn.
  pose proof (Z.quot_rem' a (Z.pos b)) as Hq.
  destruct (Z.le_gt_cases 0 a) as [Ha | Ha].
  - pose proof (Z.rem_bound_pos a (Z.pos b) Ha ltac:(lia)). split; nia.
  - pose proof (Z.rem_bound_pos_neg a (Z.pos b) ltac:(lia) ltac:(lia)). split; nia.
Qed.

Lemma frame_data_none (val : Z) :
  frame_data val = None <-> (val < 0 \/ 65536 <= val)%Z.
Proof.
  split.
  - intros H. destruct (Z_lt_ge_dec val 0); [now left|].
    destruct (Z_lt_ge_dec val 65536); [|right; lia].
    destruct (CodecProps.frame_data_reads_back val) as (d & Hd & _); [lia|].
    congruence.
  - intros H. unfold frame_data, to_bytes_2_big.
    assert ((0 <=? val)%Z && (val <? 65536)%Z = false) as ->; [|reflexivity].
    apply andb_false_iff. destruct H; [left; apply Z.leb_gt | right; apply Z.ltb_ge]; lia.
Qed.

Lemma py_int_compat (q1 q2 : Q) : q1 == q2 -> py_int q1 = py_int q2.
Proof.
  destruct q1 as [a1 b1], q2 as [a2 b2]. unfold Qeq, py_int. cbn. intros H.
  rewrite <- (Z.quot_mul_cancel_r a1 (Z.pos b1) (Z.pos b2)) by lia.
  rewrite H, (Z.mul_comm (Z.pos b1)).
  apply Z.quot_mul_cancel_r; lia.
Qed.

Lemma encode_unfold s x : encode s x = frame_data (py_int ((x + offset s) * 10)).
Proof.
  destruct s; cbn [encode offset]; unfold steering_data, speed_data, brake_data;
    f_equal; apply py_int_compat; ring.
Qed.

(** X15. Encoding fails (the [OverflowError] of [to_bytes]) exactly for values
    that the offset takes to -0.1 or below, or to 6553.6 or above: below
    -45.1 or from 6508.6 degrees for steering, below -0.1 or from 6553.6 for
    speed and brake.  Values between -0.1 and 0 (after the offset) encode
    as 0. *)
Theorem encode_fails_exactly (s : signal) (x : Q) :
  (encode s x = None <-> (x + offset s <= -0.1 \/ 6553.6 <= x + offset s))
  /\ (-0.1 < x + offset s -> x + offset s < 0 ->
      encode s x = Some (repeat Byte.x00 8)).
Proof.
  rewrite encode_unfold. set (q := (x + offset s) * 10).
  assert (Hq : x + offset s == q * (1 # 10)) by (subst q; ring).
  split.
  - rewrite frame_data_none, py_int_neg, (py_int_ge q 65536) by lia.
    change (inject_Z 65536) with 65536. rewrite Hq.
    split; (intros [H | H]; [left | right]); lra.
  - intros Hlo Hhi.
    assert (Hz : py_int q = 0%Z).
    { rewrite Hq in Hlo, Hhi.
      destruct (Z.lt_trichotomy (py_int q) 0) as [H | [H | H]]; [| exact H |].
      - apply py_int_neg in H. lra.
      - assert (H' : (1 <= py_int q)%Z) by lia. apply py_int_ge in H'; [|lia].
        change (inject_Z 1) with 1 in H'. lra. }
    rewrite Hz. reflexivity.
Qed.

(** X16. The listener decodes any payload, of any length, under each of the
    three identifiers: the value is a multiple of a tenth between 0 and
    6553.5 for speed and brake, and between -45 and 6508.5 degrees for
    steering; every other identifier gives no signal. *)
Theorem decode_total_and_bounded (can_id : Z) (data : list Byte.byte) :
  (forall s, can_id = can_id_of s ->
     exists y n, extract_signal can_id data = Some (s, y)
       /\ (0 <= n <= 65535)%Z
       /\ y + offset s == inject_Z n / 10
       /\ 0 <= y + offset s <= 6553.5)
  /\ ((forall s, can_id <> can_id_of s) -> extract_signal can_id data = None).
Proof.
  assert (Hb : (0 <= int_from_bytes_big (take 2 data) <= 65535)%Z).
  { unfold int_from_bytes_big.
    destruct data as [|b1 [|b2 rest]]; cbn [take firstn fold_left];
      rewrite ?take_0; cbn [fold_left]; [lia | |];
      pose proof (Byte.to_N_bounded b1); try pose proof (Byte.to_N_bounded b2); lia. }
  set (n := int_from_bytes_big (take 2 data)) in *.
  assert (Hq : 0 <= inject_Z n <= 65535).
  { split; [change 0 with (inject_Z 0) | change 65535 with (inject_Z 65535)];
      rewrite <- Zle_Qle; lia. }
  split.
  - intros s ->.
    destruct s; eexists; exists n; (split; [reflexivity|]); (split; [exact Hb|]);
      change (int_from_bytes_big (take 2 data)) with n;
      generalize dependent (inject_Z n); intros v Hv;
      cbn [offset]; unfold Qdiv; change (/ 10.0) with (10 # 100);
      change (/ 10) with (1 # 10); repeat split; lra.
  - intros Hne. unfold extract_signal.
    destruct (can_id =? 288)%Z eqn:E1; [apply Z.eqb_eq in E1; now destruct (Hne Steering)|].
    destruct (can_id =? 304)%Z eqn:E2; [apply Z.eqb_eq in E2; now destruct (Hne Speed)|].
    destruct (can_id =? 320)%Z eqn:E3; [apply Z.eqb_eq in E3; now destruct (Hne Brake)|].
    reflexivity.
Qed.

End CodecMoreProps.

(** ** Signer and verifier: acceptance, isolation and streams *)

Module SecurityMore.
Import Security SecurityRun SecurityProps.

(** Signing a frame at clock 1000000 and verifying it 200 ms later with a
    fresh verifier. *)
Lemma verify_sign_fresh_witness :
  signer_init "vehicleA-speed-ecu" (Some 449%Z) = Some speed_signer
  /\ snd (verify_message toy_digest 1000200
            (snd (sign_message toy_digest 1000000 0x130 frame_30 speed_signer))
            verifier_init)
     = (true, ValidMessage).
Proof.
  assert (H : signer_init "vehicleA-speed-ecu" (Some 449%Z) = Some speed_signer)
    by reflexivity.
  split; [exact H|].
  refine (verify_sign_fresh toy_digest "vehicleA-speed-ecu" (Some 449%Z)
            speed_signer 1000000 1000200 0x130 frame_30 verifier_init H
            _ _ _ _ _ _ _);
    first [vm_compute; discriminate | vm_compute; reflexivity].
Defined.

(** With the stand-in digest, which looks at the last 32 bytes only, the
    envelope of the speed ECU passes under the brake ECU's name: the two
    signed texts differ and have the same digest. *)
Lemma tampering_needs_collision_witness :
  signer_init "vehicleA-speed-ecu" (Some 449%Z) = Some speed_signer
  /\ e_device_id relabelled_450 <> e_device_id genuine_450
  /\ fst (snd (verify_message toy_digest 1000000 relabelled_450 verifier_init)) = true
  /\ exists key' data' data,
       data' <> data
       /\ e_signature genuine_450
          = PStr (hexdigest toy_digest (s_key speed_signer) data)
       /\ hexdigest toy_digest key' data'
          = hexdigest toy_digest (s_key speed_signer) data.
Proof.
  assert (H1 : signer_init "vehicleA-speed-ecu" (Some 449%Z) = Some speed_signer)
    by reflexivity.
  assert (H2 : e_device_id relabelled_450 <> e_device_id genuine_450)
    by discriminate.
  assert (H3 : fst (snd (verify_message toy_digest 1000000 relabelled_450
                           verifier_init)) = true) by (vm_compute; reflexivity).
  split; [exact H1|]. split; [exact H2|]. split; [exact H3|].
  exact (tampering_needs_collision toy_digest "vehicleA-speed-ecu" (Some 449%Z)
           speed_signer 1000000 0x130 frame_30 1000000 relabelled_450
           verifier_init H1 eq_refl eq_refl
           (or_intror (or_intror (or_intror H2))) H3).
Defined.

Section WithHmac.

Variable hmac_sha256 : string -> string -> list Byte.byte.

Abbreviation verify2 := (verify_message hmac_sha256).
Abbreviation sign2 := (sign_message hmac_sha256).
Abbreviation check2 := (check_signature hmac_sha256).

(** The signature check touches the entries of its own device only. *)
Lemma check_other_device now key d ts seq msg v d' :
  d' <> d ->
  last_sequences (fst (check2 now key d ts seq msg v)) !! d'
  = last_sequences v !! d'
  /\ message_history (fst (check2 now key d ts seq msg v)) !! d'
     = message_history v !! d'.
Proof.
  intros Hne. unfold check_signature.
  destruct (e_signature msg) as [|n|sig]; cbn; auto.
  destruct (negb _); cbn; auto. destruct (negb _); cbn; auto.
  rewrite !lookup_insert_ne by congruence. auto.
Qed.

(** X21. Verification reads and writes the tracking entries of the envelope's
    own device only: for every other device the stored sequence and the
    timestamp history are what they were, whether the envelope is accepted
    or rejected. *)
Theorem verify_isolates_devices (now : Z) (msg : envelope) (v : MessageVerifier)
    (d' : string) :
  e_device_id msg <> PStr d' ->
  last_sequences (fst (verify2 now msg v)) !! d' = last_sequences v !! d'
  /\ message_history (fst (verify2 now msg v)) !! d' = message_history v !! d'.
Proof.
  intros Hne. unfold verify_message.
  destruct (negb _); [auto|].
  destruct (e_device_id msg) as [|n|d]; auto.
  assert (Hd : d' <> d) by congruence.
  destruct (get_device_key d) as [key|]; auto.
  destruct (String.eqb key ""); auto.
  destruct (e_timestamp msg) as [|ts|t]; auto.
  destruct (Z.abs (now - ts) >? TIMESTAMP_WINDOW_MS)%Z; auto.
  cbn [read_last_sequence].
  assert (H1 : forall x, <[d:=x]> (last_sequences v) !! d' = last_sequences v !! d')
    by (intros; apply lookup_insert_ne; congruence).
  destruct (e_sequence msg) as [|seq|q]; cbn [fst last_sequences message_history]; auto.
  destruct (seq <=? _)%Z; [destruct (seq <? _)%Z|].
  - destruct (check_other_device now key d ts seq msg
                (set_last_sequence d seq
                   {| last_sequences := <[d:=default 0%Z (last_sequences v !! d)]>
                                          (last_sequences v);
                      message_history := message_history v |}) d' Hd) as [-> ->].
    cbn. rewrite !lookup_insert_ne by congruence. auto.
  - cbn. auto.
  - destruct (check_other_device now key d ts seq msg
                {| last_sequences := <[d:=default 0%Z (last_sequences v !! d)]>
                                       (last_sequences v);
                   message_history := message_history v |} d' Hd) as [-> ->].
    cbn. auto.
Qed.

Lemma check_accept_state now key d ts seq msg v :
  fst (snd (check2 now key d ts seq msg v)) = true ->
  last_sequences (fst (check2 now key d ts seq msg v)) !! d = Some seq
  /\ message_history (fst (check2 now key d ts seq msg v)) !! d
     = Some (List.filter (fun t => (t >? now - TIMESTAMP_WINDOW_MS)%Z)
               (default [] (message_history v !! d) ++ [ts])).
Proof.
  unfold check_signature.
  destruct (e_signature msg) as [|n|sig]; cbn; try discriminate.
  destruct (negb _); cbn; try discriminate.
  destruct (negb _); cbn; try discriminate.
  intros _. rewrite !lookup_insert_eq. auto.
Qed.

(** What holds after an envelope was accepted. *)
Lemma verify_accept_facts now msg v :
  fst (snd (verify2 now msg v)) = true ->
  exists d key ts seq,
    e_device_id msg = PStr d
    /\ get_device_key d = Some key
    /\ e_timestamp msg = PInt ts
    /\ e_sequence msg = PInt seq
    /\ (Z.abs (now - ts) <= TIMESTAMP_WINDOW_MS)%Z
    /\ (last_sequence d v < seq \/ seq < last_sequence d v - 100)%Z
    /\ last_sequences (fst (verify2 now msg v)) !! d = Some seq
    /\ message_history (fst (verify2 now msg v)) !! d
       = Some (List.filter (fun t => (t >? now - TIMESTAMP_WINDOW_MS)%Z)
                 (default [] (message_history v !! d) ++ [ts])).
Proof.
  unfold verify_message.
  destruct (negb _); [discriminate|].
  destruct (e_device_id msg) as [|n|d]; try discriminate.
  destruct (get_device_key d) as [key|] eqn:Hk; [|discriminate].
  destruct (String.eqb key ""); [discriminate|].
  destruct (e_timestamp msg) as [|ts|t]; try discriminate.
  destruct (Z.abs (now - ts) >? TIMESTAMP_WINDOW_MS)%Z eqn:Hw; [discriminate|].
  rewrite Z.gtb_ltb in Hw. apply Z.ltb_ge in Hw.
  cbn [read_last_sequence]. fold (last_sequence d v).
  destruct (e_sequence msg) as [|seq|q]; try discriminate.
  destruct (seq <=? _)%Z eqn:H1;
    [destruct (seq <? _)%Z eqn:H2; [|discriminate]|];
    intros H; apply check_accept_state in H as [Hs Hh];
    exists d, key, ts, seq; rewrite Hs, Hh; cbn;
    repeat split; auto.
  - right. now apply Z.ltb_lt in H2.
  - left. now apply Z.leb_gt in H1.
Qed.

(** X22. An accepted envelope has a timestamp within 5000 ms of the clock and a
    sequence above the stored one or more than 100 below it; afterwards the
    stored sequence of its device is the envelope's, and the device's
    history holds only timestamps newer than 5000 ms, the envelope's own
    included unless it is exactly 5000 ms old. *)
Theorem accepted_envelope_state (now : Z) (msg : envelope) (v : MessageVerifier) :
  fst (snd (verify2 now msg v)) = true ->
  exists d ts seq history,
    e_device_id msg = PStr d /\ e_timestamp msg = PInt ts
    /\ e_sequence msg = PInt seq
    /\ (Z.abs (now - ts) <= 5000)%Z
    /\ (last_sequence d v < seq \/ seq < last_sequence d v - 100)%Z
    /\ last_sequence d (fst (verify2 now msg v)) = seq
    /\ message_history (fst (verify2 now msg v)) !! d = Some history
    /\ Forall (fun t => (now - 5000 < t)%Z) history
    /\ (In ts history <-> ts <> (now - 5000)%Z).
Proof.
  intros H.
  destruct (verify_accept_facts now msg v H)
    as (d & key & ts & seq & Hd & _ & Hts & Hseq & Hw & Hrule & Hs & Hh).
  exists d, ts, seq. eexists. repeat split; eauto.
  - unfold last_sequence. now rewrite Hs.
  - apply List.Forall_forall. intros t Ht. apply filter_In in Ht as [_ Ht].
    unfold TIMESTAMP_WINDOW_MS in Ht. lia.
  - intros Hin. apply filter_In in Hin as [_ Ht].
    unfold TIMESTAMP_WINDOW_MS in Ht. lia.
  - intros Hne. apply filter_In. split; [apply in_app_iff; right; now left|].
    unfold TIMESTAMP_WINDOW_MS in *. lia.
Qed.

(** An envelope whose sequence is at most the stored one of its device and
    within 100 of it is rejected, at any clock, whatever else it holds. *)
Lemma verify_rejects_in_window now msg v d seq :
  e_device_id msg = PStr d ->
  e_sequence msg = PInt seq ->
  (last_sequence d v - 100 <= seq <= last_sequence d v)%Z ->
  fst (snd (verify2 now msg v)) = false.
Proof.
  intros Hd Hs [Hlo Hhi]. unfold verify_message.
  destruct (negb _); [reflexivity|]. rewrite Hd.
  destruct (get_device_key d) as [key|]; [|reflexivity].
  destruct (String.eqb key ""); [reflexivity|].
  destruct (e_timestamp msg) as [|ts|t]; try reflexivity.
  destruct (Z.abs (now - ts) >? TIMESTAMP_WINDOW_MS)%Z; [reflexivity|].
  cbn [read_last_sequence]. fold (last_sequence d v). rewrite Hs.
  assert ((seq <=? last_sequence d v)%Z = true) as -> by (apply Z.leb_le; lia).
  assert ((seq <? last_sequence d v - 100)%Z = false) as -> by (apply Z.ltb_ge; lia).
  reflexivity.
Qed.

(** X24. A rejected envelope still leaves a trace: if it passes the field,
    device and timestamp checks and its device was never seen, the device
    has a stored sequence afterwards and counts as a tracked device in the
    statistics. *)
Theorem rejected_envelope_is_tracked (now : Z) (msg : envelope)
    (v : MessageVerifier) (d key : string) (ts : Z) :
  early_checks_pass now msg d key ts ->
  last_sequences v !! d = None ->
  fst (snd (verify2 now msg v)) = false ->
  is_Some (last_sequences (fst (verify2 now msg v)) !! d)
  /\ tracked_devices (get_device_stats (fst (verify2 now msg v)))
     = S (tracked_devices (get_device_stats v)).
Proof.
  intros He Hnone Hrej. rewrite (verify_early _ _ _ _ _ _ _ He) in *.
  cbn [read_last_sequence] in *. rewrite Hnone in *. cbn [default] in *.
  unfold get_device_stats. cbn [tracked_devices].
  assert (Hsize : forall x, size (<[d:=x]> (last_sequences v))
                            = S (size (last_sequences v)))
    by (intros; now apply map_size_insert_None).
  destruct (e_sequence msg) as [|seq|q];
    cbn [fst last_sequences]; rewrite ?lookup_insert_eq, ?Hsize; eauto.
  destruct (seq <=? 0)%Z; [destruct (seq <? 0 - 100)%Z|].
  - rewrite check_rejects by exact Hrej. unfold set_last_sequence.
    cbn [last_sequences]. rewrite insert_insert_eq, lookup_insert_eq, Hsize. eauto.
  - cbn [fst last_sequences]. rewrite lookup_insert_eq, Hsize. eauto.
  - rewrite check_rejects by exact Hrej.
    cbn [last_sequences]. rewrite lookup_insert_eq, Hsize. eauto.
Qed.



End WithHmac.

(** The forged envelope of the speed ECU leaves the brake ECU's entries
    alone. *)
Lemma verify_isolates_devices_witness :
  e_device_id forged_10 <> PStr "vehicleA-brake-ecu"
  /\ last_sequences (fst (verify_message toy_digest 1000200 forged_10 verifier_500))
       !! "vehicleA-brake-ecu"
     = last_sequences verifier_500 !! "vehicleA-brake-ecu"
  /\ message_history (fst (verify_message toy_digest 1000200 forged_10 verifier_500))
       !! "vehicleA-brake-ecu"
     = message_history verifier_500 !! "vehicleA-brake-ecu".
Proof.
  assert (H : e_device_id forged_10 <> PStr "vehicleA-brake-ecu") by discriminate.
  split; [exact H|].
  exact (verify_isolates_devices toy_digest 1000200 forged_10 verifier_500
           "vehicleA-brake-ecu" H).
Defined.


Lemma genuine_450_accepted :
  fst (snd (verify_message toy_digest 1000200 genuine_450 verifier_init)) = true.
Proof. vm_compute. reflexivity. Qed.

(** The speed ECU's envelope, accepted 200 ms after signing. *)
Lemma accepted_envelope_state_witness :
  fst (snd (verify_message toy_digest 1000200 genuine_450 verifier_init)) = true
  /\ exists d ts seq history,
       e_device_id genuine_450 = PStr d /\ e_timestamp genuine_450 = PInt ts
       /\ e_sequence genuine_450 = PInt seq
       /\ (Z.abs (1000200 - ts) <= 5000)%Z
       /\ (last_sequence d verifier_init < seq
           \/ seq < last_sequence d verifier_init - 100)%Z
       /\ last_sequence d
            (fst (verify_message toy_digest 1000200 genuine_450 verifier_init)) = seq
       /\ message_history
            (fst (verify_message toy_digest 1000200 genuine_450 verifier_init)) !! d
          = Some history
       /\ Forall (fun t => (1000200 - 5000 < t)%Z) history
       /\ (In ts history <-> ts <> (1000200 - 5000)%Z).
Proof.
  split; [exact genuine_450_accepted|].
  exact (accepted_envelope_state toy_digest 1000200 genuine_450 verifier_init
           genuine_450_accepted).
Defined.

(** The forged envelope of the speed ECU, sent to a fresh verifier. *)
Lemma rejected_envelope_is_tracked_witness :
  early_checks_pass 1000200 forged_10 "vehicleA-speed-ecu"
    "speed_key_v1_secret_2024" 1000100
  /\ last_sequences verifier_init !! "vehicleA-speed-ecu" = None
  /\ fst (snd (verify_message toy_digest 1000200 forged_10 verifier_init)) = false
  /\ is_Some (last_sequences
                (fst (verify_message toy_digest 1000200 forged_10 verifier_init))
              !! "vehicleA-speed-ecu")
  /\ tracked_devices
       (get_device_stats
          (fst (verify_message toy_digest 1000200 forged_10 verifier_init)))
     = S (tracked_devices (get_device_stats verifier_init)).
Proof.
  assert (H2 : last_sequences verifier_init !! "vehicleA-speed-ecu" = None)
    by reflexivity.
  assert (H3 : fst (snd (verify_message toy_digest 1000200 forged_10
                           verifier_init)) = false) by (vm_compute; reflexivity).
  split; [exact early_forged_10|]. split; [exact H2|]. split; [exact H3|].
  exact (rejected_envelope_is_tracked toy_digest 1000200 forged_10 verifier_init
           "vehicleA-speed-ecu" "speed_key_v1_secret_2024" 1000100
           early_forged_10 H2 H3).
Defined.


(** A signer can be built exactly for the devices of the key table; a
    built signer starts from the stored sequence, or from 1 without one,
    and holds the key of its device. *)
Theorem signer_init_fails_exactly (d : string) (stored : option Z) :
  (signer_init d stored = None <-> is_valid_device d = false)
  /\ (forall s, signer_init d stored = Some s ->
        s_device_id s = d
        /\ get_device_key d = Some (s_key s)
        /\ s_key s <> ""
        /\ get_sequence s = default 1%Z stored).
Proof.
  unfold signer_init, is_valid_device, get_device_key.
  destruct (DEVICE_KEYS !! d) as [key|] eqn:Hk.
  - assert (Hne : key <> "").
    { apply elem_of_list_to_map_2, list_elem_of_In in Hk. cbn in Hk.
      repeat (destruct Hk as [[= _ <-] | Hk]; [discriminate|]). contradiction. }
    apply string_eqb_false_iff in Hne. rewrite Hne. split.
    + split; [discriminate|]. intros H. apply bool_decide_eq_false in H.
      destruct H. eauto.
    + intros s [= <-]. cbn. repeat split; auto. now apply string_eqb_false_iff.
  - split; [|discriminate]. split; [|reflexivity].
    intros _. apply bool_decide_eq_false. intros [x Hx]. discriminate.
Qed.

End SecurityMore.

(** ** Anomaly detector *)

Module AnomalyProps.
Import Py PyFacts Anomaly.

(** A dictionary that is not empty and has none of the keys "steering",
    "speed" and "brake" is prepared as nine zeros. *)
Lemma prepare_without_signals (d : gmap string fvalue) :
  d <> ∅ ->
  d !! "steering" = None -> d !! "speed" = None -> d !! "brake" = None ->
  prepare_features d = Vector (repeat 0.0 9).
Proof.
  intros Hne H1 H2 H3. unfold prepare_features.
  rewrite bool_decide_eq_false_2 by exact Hne.
  cbn [fold_left]. rewrite H1, H2, H3. reflexivity.
Qed.

Lemma detection_features_shape f :
  detection_features f <> ∅
  /\ detection_features f !! "steering" = None
  /\ detection_features f !! "speed" = None
  /\ detection_features f !! "brake" = None.
Proof.
  unfold detection_features. split; [apply insert_non_empty|].
  repeat split; repeat (rewrite lookup_insert_ne by discriminate);
    apply lookup_empty.
Qed.

(** X26. In the listener's detection phase the detector never sees the frame's
    features: the dictionary it is handed has the feature names as keys,
    not the signal names, so the model is always asked about nine zeros
    and the ML score is the same for every frame. *)
Theorem listener_ml_score_is_constant
    (decision_function : list Q -> Q) (is_trained : bool)
    (f1 f2 : signal_features) :
  prepare_features (detection_features f1) = Vector (repeat 0.0 9)
  /\ detect_anomaly decision_function is_trained (detection_features f1)
     = detect_anomaly decision_function is_trained (detection_features f2)
  /\ detect_anomaly decision_function true (detection_features f1)
     = Some (normalize (decision_function (repeat 0.0 9))).
Proof.
  assert (H : forall f, prepare_features (detection_features f)
                        = Vector (repeat 0.0 9)).
  { intros f. destruct (detection_features_shape f) as (H0 & H1 & H2 & H3).
    now apply prepare_without_signals. }
  unfold detect_anomaly. rewrite !H. repeat split; reflexivity.
Qed.

(** The score made from the model's decision value is between 0 and 1: at
    least 0.8 below -0.1, above 0.5 from there to -0.02, between 0.2 and
    0.4 from there to 0.02, and 0 from 0.02 on; between 0 and 0.02 it grows
    with the decision value, although a larger value means "more normal". *)
Theorem normalize_bands (raw r1 r2 : Q) :
  0 <= normalize raw <= 1
  /\ (raw < -0.1 -> 0.8 <= normalize raw)
  /\ (-0.1 <= raw -> raw < -0.02 -> 0.5 < normalize raw <= 0.74)
  /\ (-0.02 <= raw -> raw < 0.02 -> 0.2 <= normalize raw <= 0.4)
  /\ (0.02 <= raw -> normalize raw == 0)
  /\ (0 <= r1 -> r1 < r2 -> r2 < 0.02 -> normalize r1 < normalize r2).
Proof.
  unfold normalize, abs, min.
  repeat split; intros; split_ifs; to_orders; lra.
Qed.

End AnomalyProps.

(** ** The ECU simulator *)

Module GeneratorProps.
Import Py PyFacts Codec CodecProps Generator.

Lemma clamp_within (lo hi x : Q) :
  lo <= hi -> lo <= max lo (min x hi) <= hi.
Proof.
  intros H. unfold max, min. split_ifs; to_orders; split; lra.
Qed.

Lemma apply_commands_clamps self file :
  targets_clamped self -> targets_clamped (_apply_commands self file).
Proof.
  intros H. destruct file as [cmd|]; [|exact H].
  unfold _apply_commands.
  destruct (if reset cmd then _ else _) as [[[speed steering] brake] active].
  unfold targets_clamped, within. cbn.
  repeat split; apply clamp_within; lra.
Qed.

Lemma Z_of_Q_gt (n m : Z) : inject_Z m - 1 < inject_Z n -> (m <= n)%Z.
Proof.
  intros H. assert (H' : inject_Z (m + -1) < inject_Z n).
  { rewrite inject_Z_plus. change (inject_Z (-1)) with (-1). lra. }
  rewrite <- Zlt_Qlt in H'. lia.
Qed.

Lemma clamped_value_encodes (s : signal) (x : Q) :
  within s x ->
  exists data,
    encode s x = Some data /\ frame_clamped (can_id_of s, data).
Proof.
  unfold within, frame_clamped. intros Hx.
  destruct s; cbn [clamp_limits fst snd encode can_id_of] in *;
    unfold steering_data, speed_data, brake_data.
  - destruct (decode_truncated ((x + 45) * 10)) as (data & -> & Hlen & H1 & H2);
      [lra | lra |].
    exists data. split; [reflexivity|]. split; [exact Hlen|].
    exists Steering. eexists. split; [reflexivity|].
    set (n := int_from_bytes_big (take 2 data)) in *.
    assert (Hn : (150 <= n)%Z) by (apply Z_of_Q_gt; change (inject_Z 150) with 150; lra).
    rewrite Zle_Qle in Hn. change (inject_Z 150) with 150 in Hn.
    generalize dependent (inject_Z n). intros v; intros.
    unfold within; cbn [clamp_limits fst snd].
    unfold Qdiv; change (/ 10.0) with (10 # 100); lra.
  - destruct (decode_truncated (x * 10)) as (data & -> & Hlen & H1 & H2);
      [lra | lra |].
    exists data. split; [reflexivity|]. split; [exact Hlen|].
    exists Speed. eexists. split; [reflexivity|].
    set (n := int_from_bytes_big (take 2 data)) in *.
    assert (Hn : (0 <= n)%Z) by (apply Z_of_Q_gt; change (inject_Z 0) with 0; lra).
    rewrite Zle_Qle in Hn. change (inject_Z 0) with 0 in Hn.
    generalize dependent (inject_Z n). intros v; intros.
    unfold within; cbn [clamp_limits fst snd].
    unfold Qdiv; change (/ 10.0) with (10 # 100); lra.
  - destruct (decode_truncated (x * 10)) as (data & -> & Hlen & H1 & H2);
      [lra | lra |].
    exists data. split; [reflexivity|]. split; [exact Hlen|].
    exists Brake. eexists. split; [reflexivity|].
    set (n := int_from_bytes_big (take 2 data)) in *.
    assert (Hn : (0 <= n)%Z) by (apply Z_of_Q_gt; change (inject_Z 0) with 0; lra).
    rewrite Zle_Qle in Hn. change (inject_Z 0) with 0 in Hn.
    generalize dependent (inject_Z n). intros v; intros.
    unfold within; cbn [clamp_limits fst snd].
    unfold Qdiv; change (/ 10.0) with (10 # 100); lra.
Qed.






Lemma apply_commands_active self file :
  speed_control_active self = true ->
  speed_control_active (_apply_commands self file) = true.
Proof.
  intros H. destruct file as [cmd|]; [|exact H]. unfold _apply_commands.
  destruct (reset cmd); [reflexivity|].
  destruct (cmd_target_speed cmd);
    destruct (gtb (brake_pressure cmd) 0); try (cbn; assumption || reflexivity);
    destruct (eqb (brake_pressure cmd) 0 && gtb (target_brake self) 0);
    cbn; assumption || reflexivity.
Qed.

(** In a cycle that starts with the targets within their limits and the
    speed control active, the speed frame is sent exactly when the brake
    target is not positive after the command: while the brake is applied
    the ECU sends no speed frame.  A steering or brake frame is sent
    exactly when its target differs from the one last sent, and the speed
    control is still active afterwards. *)
Theorem cycle_sends_changes_only (self : CANMessageGenerator)
    (file : option ECUCommand) :
  targets_clamped self ->
  speed_control_active self = true ->
  exists self' sent,
    cycle self file = Some (self', sent)
    /\ speed_control_active self' = true
    /\ changed (_last_sent_steering self') (target_steering self') = false
    /\ changed (_last_sent_brake self') (target_brake self') = false
    /\ (In 0x130%Z (map fst sent)
        <-> target_brake (_apply_commands self file) <= 0)
    /\ (In 0x120%Z (map fst sent)
        <-> changed (_last_sent_steering self)
              (target_steering (_apply_commands self file)) = true)
    /\ (In 0x140%Z (map fst sent)
        <-> changed (_last_sent_brake self)
              (target_brake (_apply_commands self file)) = true).
Proof.
  intros H0 Ha0. unfold cycle.
  pose proof (apply_commands_clamps self file H0) as H.
  pose proof (apply_commands_active self file Ha0) as Ha.
  assert (L1 : _last_sent_steering (_apply_commands self file)
               = _last_sent_steering self).
  { destruct file as [cmd|]; [|reflexivity]. unfold _apply_commands.
    now destruct (if reset cmd then _ else _) as [[[? ?] ?] ?]. }
  assert (L2 : _last_sent_brake (_apply_commands self file)
               = _last_sent_brake self).
  { destruct file as [cmd|]; [|reflexivity]. unfold _apply_commands.
    now destruct (if reset cmd then _ else _) as [[[? ?] ?] ?]. }
  rewrite <- L1, <- L2.
  set (g := _apply_commands self file) in *. clearbody g.
  destruct H as (Hs & Ht & Hb).
  destruct (clamped_value_encodes Speed _ Hs) as (d1 & E1 & _).
  destruct (clamped_value_encodes Steering _ Ht) as (d2 & E2 & _).
  destruct (clamped_value_encodes Brake _ Hb) as (d3 & E3 & _).
  cbn [encode] in E1, E2, E3.
  rewrite Ha. unfold _send_speed, _send_steering, _send_brake, frame_or_overflow.
  rewrite Ha. cbn [negb encode].
  assert (Hself : forall x, changed (Some x) x = false).
  { intros x. unfold changed, eqb. now rewrite Qeq_bool_refl. }
  destruct (gtb (target_brake g) 0) eqn:Eb;
    destruct (changed (_last_sent_steering g) (target_steering g)) eqn:Es;
    destruct (changed (_last_sent_brake g) (target_brake g)) eqn:Ek;
    cbn; rewrite ?E1, ?E2, ?E3; cbn; rewrite ?Es, ?Ek;
    do 2 eexists; (split; [reflexivity|]); cbn;
    rewrite ?Hself; to_orders;
    repeat split; try assumption; try reflexivity; try exact (Hself _);
    try (intros; exfalso; lra);
    try (intros; lra);
    try (intros HH; repeat (destruct HH as [HH | HH]; try discriminate HH); 
         try contradiction; try lra; try reflexivity; fail);
    try (intros; tauto);
    try discriminate.
Qed.

(** A cycle with a brake command, from the initial state. *)
Lemma cycle_sends_changes_only_witness :
  exists self' sent,
    cycle init (Some (mkECUCommand 0 0 50 false None)) = Some (self', sent)
    /\ speed_control_active self' = true
    /\ changed (_last_sent_steering self') (target_steering self') = false
    /\ changed (_last_sent_brake self') (target_brake self') = false
    /\ (In 0x130%Z (map fst sent)
        <-> target_brake (_apply_commands init
                            (Some (mkECUCommand 0 0 50 false None))) <= 0)
    /\ (In 0x120%Z (map fst sent)
        <-> changed (_last_sent_steering init)
              (target_steering (_apply_commands init
                                  (Some (mkECUCommand 0 0 50 false None)))) = true)
    /\ (In 0x140%Z (map fst sent)
        <-> changed (_last_sent_brake init)
              (target_brake (_apply_commands init
                               (Some (mkECUCommand 0 0 50 false None)))) = true).
Proof.
  apply (cycle_sends_changes_only init (Some (mkECUCommand 0 0 50 false None))).
  - unfold targets_clamped, within. cbn. repeat split; lra.
  - reflexivity.
Defined.

End GeneratorProps.

(** ** Feature extractor *)

Module FeaturesProps.
Import Py PyFacts Anomaly Features.

Lemma popleft_while_all cutoff (old : list (Q * Q)) (m : Q * Q) :
  Forall (fun x => fst x < cutoff) old -> cutoff <= fst m ->
  popleft_while cutoff (old ++ [m]) = [m].
Proof.
  intros Hold Hm. induction old as [|x old IH]; cbn [app popleft_while].
  - destruct (ltb (fst m) cutoff) eqn:E; [|reflexivity]. to_orders. lra.
  - inversion Hold as [|? ? Hx Hrest]; subst.
    destruct (ltb (fst x) cutoff) eqn:E; [now apply IH|]. to_orders. lra.
Qed.

Lemma popleft_while_suffix cutoff (messages : list (Q * Q)) :
  exists dropped,
    messages = dropped ++ popleft_while cutoff messages
    /\ Forall (fun x => fst x < cutoff) dropped
    /\ (forall m rest, popleft_while cutoff messages = m :: rest ->
        cutoff <= fst m).
Proof.
  induction messages as [|x l IH]; cbn [popleft_while].
  - exists []. repeat split; [constructor | discriminate].
  - destruct (ltb (fst x) cutoff) eqn:E; to_orders.
    + destruct IH as (d & Hd & Fd & Hh). exists (x :: d).
      split; [cbn; congruence|]. split; [now constructor | exact Hh].
    + exists []. repeat split; [constructor|].
      intros m rest [= <- _]. exact E.
Qed.

Lemma in_order_suffix (a b : list (Q * Q)) : in_order (a ++ b) -> in_order b.
Proof.
  induction a as [|x a IH]; cbn; [auto|]. intros [_ H]. auto.
Qed.

Lemma in_order_snoc (l : list (Q * Q)) (m : Q * Q) :
  in_order l -> Forall (fun x => fst x <= fst m) l -> in_order (l ++ [m]).
Proof.
  induction l as [|x l IH]; cbn; intros Hs Hf.
  - split; [constructor | exact I].
  - destruct Hs as [Hx Hs]. inversion Hf; subst. split; [|auto].
    apply Forall_app. split; [assumption | now repeat constructor].
Qed.

Lemma in_order_head (m : Q * Q) (l : list (Q * Q)) :
  in_order (m :: l) -> Forall (fun x => fst m <= fst x) (m :: l).
Proof.
  cbn. intros [H _]. constructor; [lra | assumption].
Qed.

(** X28. When messages arrive in the order of their timestamps, the deque of a
    signal holds, after [add_message], exactly the messages of the last
    [window_size] seconds: what is kept is the end of the old deque
    followed by the new message, still in order, and every kept timestamp
    lies between the cutoff and the new timestamp; everything dropped is
    older than the cutoff. *)
Theorem window_keeps_recent_messages (self : FeatureExtractor)
    (signal_name : string) (timestamp value : Q) (old : list (Q * Q)) :
  0 <= window_size self ->
  default [] (message_history self !! signal_name) = old ->
  in_order old ->
  Forall (fun m => fst m <= timestamp) old ->
  exists dropped kept,
    old = dropped ++ kept
    /\ message_history (add_message self signal_name timestamp value)
         !! signal_name = Some (kept ++ [(timestamp, value)])
    /\ in_order (kept ++ [(timestamp, value)])
    /\ Forall (fun m => fst m < timestamp - window_size self) dropped
    /\ Forall (fun m => timestamp - window_size self <= fst m <= timestamp)
         (kept ++ [(timestamp, value)]).
Proof.
  intros Hw Hold Hs Hle. unfold add_message. cbn [message_history window_size].
  rewrite lookup_insert_eq, Hold.
  set (cutoff := timestamp - window_size self).
  set (new := (timestamp, value)).
  assert (Hall : in_order (old ++ [new])) by (apply in_order_snoc; assumption).
  destruct (popleft_while_suffix cutoff (old ++ [new])) as (d & Hd & Fd & Hh).
  destruct (popleft_while cutoff (old ++ [new])) as [|m rest] eqn:Ek.
  - exfalso. rewrite app_nil_r in Hd. rewrite <- Hd in Fd.
    apply Forall_app in Fd as [_ Fd]. inversion Fd as [|? ? Hn _]; subst.
    subst new cutoff. cbn in Hn. lra.
  - assert (Hk : exists kept, m :: rest = kept ++ [new] /\ old = d ++ kept).
    { destruct (@exists_last _ (m :: rest) ltac:(discriminate)) as (kept & z & Ez).
      rewrite Ez in Hd. rewrite app_assoc in Hd.
      apply app_inj_tail in Hd as [Hd1 Hd2]. subst z.
      exists kept. split; [exact Ez | exact Hd1]. }
    destruct Hk as (kept & Ez & Eo).
    assert (Hm : cutoff <= fst m) by (eapply Hh; reflexivity).
    exists d, kept. rewrite Ez. split; [exact Eo|]. split; [reflexivity|].
    assert (Hko : in_order (kept ++ [new])).
    { apply (in_order_suffix d). rewrite app_assoc, <- Eo. exact Hall. }
    split; [exact Hko|]. split; [exact Fd|].
    assert (Hup : Forall (fun x => fst x <= timestamp) (kept ++ [new])).
    { apply Forall_app. split.
      - rewrite Eo in Hle. now apply Forall_app in Hle as [_ Hle].
      - repeat constructor. subst new. cbn. lra. }
    rewrite <- Ez in Hko, Hup |- *. apply in_order_head in Hko.
    rewrite Forall_forall in Hko, Hup |- *. intros x Hx.
    specialize (Hko x Hx). specialize (Hup x Hx). cbn beta in *. lra.
Qed.

(** One message of the last half second is kept. *)
Lemma window_keeps_recent_messages_witness :
  exists dropped kept,
    [(10, 30)] = dropped ++ kept
    /\ message_history
         (add_message (mkFeatureExtractor 1.0 {[ "speed" := [(10, 30)] ]})
            "speed" 10.5 31) !! "speed"
       = Some (kept ++ [(10.5, 31)])
    /\ in_order (kept ++ [(10.5, 31)])
    /\ Forall (fun m => fst m < 10.5 - 1.0) dropped
    /\ Forall (fun m => 10.5 - 1.0 <= fst m <= 10.5) (kept ++ [(10.5, 31)]).
Proof.
  apply (window_keeps_recent_messages
           (mkFeatureExtractor 1.0 {[ "speed" := [(10, 30)] ]})
           "speed" 10.5 31 [(10, 30)]).
  - cbn. lra.
  - reflexivity.
  - cbn. split; [constructor | exact I].
  - repeat constructor. cbn. lra.
Defined.

Lemma features_of_no_error np_std (w : Q) (messages : list (Q * Q)) :
  ~ w == 0 -> raised (features_of np_std w messages) = false.
Proof.
  intros Hw. unfold features_of.
  destruct (length messages <? 2)%nat; [reflexivity|].
  destruct (eqb w 0) eqn:E; [|reflexivity]. to_orders. contradiction.
Qed.

Lemma features_of_present np_std (w : Q) (messages : list (Q * Q)) :
  ~ w == 0 -> (2 <= length messages)%nat ->
  exists f,
    features_of np_std w messages = Present f
    /\ delta f = abs (List.last (map snd messages) 0 - hd 0 (map snd messages))
    /\ frequency f = inject_Z (Z.of_nat (length messages)) / w.
Proof.
  intros Hw Hlen. unfold features_of.
  destruct (length messages <? 2)%nat eqn:E1; [apply Nat.ltb_lt in E1; lia|].
  destruct (eqb w 0) eqn:E0; [to_orders; contradiction|].
  rewrite !length_map.
  destruct (1 <? length messages)%nat eqn:E2; [|apply Nat.ltb_ge in E2; lia].
  eexists. repeat split.
Qed.

Lemma get_all_features_lookup np_std (self : FeatureExtractor) (name : string) :
  ~ window_size self == 0 ->
  exists all,
    get_all_features np_std self = Some all
    /\ all !! name = present (extract_features np_std self name).
Proof.
  intros Hw. unfold get_all_features, extract_features.
  destruct (decide _) as [_ | Hn].
  - eexists. split; [reflexivity|].
    rewrite lookup_omap, lookup_fmap.
    now destruct (message_history self !! name).
  - exfalso. apply Hn. intros k e. rewrite lookup_fmap.
    destruct (message_history self !! k); cbn; [|discriminate].
    intros [= <-]. now apply features_of_no_error.
Qed.

(** X29. The listener hands [add_message] the signal's value as the timestamp
    and the timestamp as the value.  So its window is over values, not
    over time: a frame whose value exceeds every stored value of the
    signal by more than the window leaves the frame alone in the deque,
    and the signal has no features (the listener then skips the ML layer);
    and when the first stored message survives, the [delta] feature is the
    time elapsed since that message, not a change of the value. *)
Theorem listener_window_is_over_values (np_std : list Q -> Q)
    (self : FeatureExtractor) (signal_name : string)
    (signal_value timestamp : Q) (old : list (Q * Q)) :
  0 < window_size self ->
  default [] (message_history self !! signal_name) = old ->
  exists all,
    snd (layer1 np_std self signal_name signal_value timestamp) = Some all
    /\ (Forall (fun m => fst m < signal_value - window_size self) old ->
        all !! signal_name = None)
    /\ (forall value0 timestamp0 rest,
          old = (value0, timestamp0) :: rest ->
          signal_value - window_size self <= value0 ->
          exists f,
            all !! signal_name = Some f
            /\ delta f = abs (timestamp - timestamp0)
            /\ frequency f
               = inject_Z (Z.of_nat (S (length old))) / window_size self).
Proof.
  intros Hw Hold. unfold layer1. cbn [snd].
  set (fe := add_message self signal_name signal_value timestamp).
  assert (Hw' : ~ window_size fe == 0) by (cbn; lra).
  destruct (get_all_features_lookup np_std fe signal_name Hw') as (all & -> & Hl).
  exists all. split; [reflexivity|]. rewrite Hl. clear Hl.
  unfold extract_features. subst fe. unfold add_message.
  cbn [message_history window_size]. rewrite lookup_insert_eq, Hold.
  split.
  - intros Hall. rewrite popleft_while_all; [reflexivity | exact Hall |].
    cbn. lra.
  - intros value0 timestamp0 rest -> Hkeep.
    cbn [app popleft_while fst].
    destruct (ltb value0 (signal_value - window_size self)) eqn:E;
      [to_orders; lra|].
    destruct (features_of_present np_std (window_size self)
                ((value0, timestamp0) :: rest ++ [(signal_value, timestamp)]))
      as (f & -> & Hd & Hf); [lra | |].
    { cbn [length]. rewrite length_app. cbn [length]. lia. }
    exists f. split; [reflexivity|]. rewrite Hd, Hf. split.
    + cbn [map hd snd]. rewrite map_app. cbn [map snd].
      change (timestamp0 :: map snd rest ++ [timestamp])
        with ((timestamp0 :: map snd rest) ++ [timestamp]).
      now rewrite List.last_last.
    + cbn [length]. rewrite length_app. cbn [length].
      now rewrite Nat.add_1_r.
Qed.

(** A speed frame 2 km/h above the only stored one. *)
Lemma listener_window_is_over_values_witness :
  exists all,
    snd (layer1 (fun _ => 0) (mkFeatureExtractor 1.0 {[ "speed" := [(30, 100)] ]})
           "speed" 32 100.1) = Some all
    /\ (Forall (fun m => fst m < 32 - 1.0) [(30, 100)] ->
        all !! "speed" = None)
    /\ (forall value0 timestamp0 rest,
          [(30, 100)] = (value0, timestamp0) :: rest ->
          32 - 1.0 <= value0 ->
          exists f,
            all !! "speed" = Some f
            /\ delta f = abs (100.1 - timestamp0)
            /\ frequency f = inject_Z (Z.of_nat (S (length [(30, 100)]))) / 1.0).
Proof.
  apply (listener_window_is_over_values (fun _ => 0)
           (mkFeatureExtractor 1.0 {[ "speed" := [(30, 100)] ]})
           "speed" 32 100.1 [(30, 100)]).
  - cbn. lra.
  - reflexivity.
Defined.

End FeaturesProps.

(** ** Contextual validator *)

Module ContextProps.
Import Py PyFacts Context.

Lemma ctx_deque_append_length n l x :
  length (deque_append n l x) = Nat.min (length l + 1) n.
Proof. unfold deque_append. rewrite length_drop, length_app. cbn. lia. Qed.

Lemma add_vehicle_state_aligned self sender_id timestamp speed steering brake :
  aligned self ->
  aligned (add_vehicle_state self sender_id timestamp speed steering brake).
Proof.
  intros H. unfold aligned, add_vehicle_state. cbn [sender_windows window_size].
  apply map_Forall_insert_2; [|exact H].
  cbn [timestamps speeds steerings brakes]. rewrite !ctx_deque_append_length.
  destruct (sender_windows self !! sender_id) as [w|] eqn:E; cbn [from_option id].
  - destruct (H _ _ E) as (H1 & H2 & H3 & H4). rewrite H1, H2, H3. lia.
  - cbn [length timestamps speeds steerings brakes]. lia.
Qed.

Lemma add_all_window_size states : forall self,
  window_size (add_all self states) = window_size self.
Proof.
  induction states as [|[[[[s t] v] a] b] rest IH]; intros self; [reflexivity|].
  unfold add_all in *. cbn [fold_left]. now rewrite IH.
Qed.

Lemma add_all_aligned states : forall self,
  aligned self -> aligned (add_all self states).
Proof.
  induction states as [|[[[[s t] v] a] b] rest IH]; intros self H; [exact H|].
  unfold add_all in *. cbn [fold_left]. apply IH.
  now apply add_vehicle_state_aligned.
Qed.

Lemma from_end_some xs k :
  (0 < k <= length xs)%nat -> exists x, from_end xs k = Some x.
Proof.
  intros H. unfold from_end.
  replace (k <=? length xs)%nat with true by (symmetry; apply Nat.leb_le; lia).
  apply lookup_lt_is_Some_2. lia.
Qed.

Lemma sound_start : sound (0.0, []).
Proof.
  unfold sound. cbn [fst snd]. split; [lra|]. split; [reflexivity | congruence].
Qed.

Lemma sound_fire acc weight v :
  0.4 <= weight -> sound acc -> sound (fire acc weight v).
Proof.
  intros Hw (H0 & H1 & H2). unfold sound, fire. cbn [fst snd].
  split; [lra|]. split; [|intros _; lra].
  intros E. now apply app_eq_nil in E as [_ E].
Qed.

Lemma violation_1_sound self w current_speed acc :
  sound acc ->
  exists acc', violation_1 self w current_speed acc = Some acc' /\ sound acc'.
Proof.
  intros H. unfold violation_1.
  destruct (2 <=? length (steerings w))%nat eqn:E; [|eauto].
  apply Nat.leb_le in E.
  destruct (from_end_some (steerings w) 1) as [a ->]; [lia|].
  destruct (from_end_some (steerings w) 2) as [b ->]; [lia|].
  cbn [mbind option_bind].
  destruct (_ && _); eexists; (split; [reflexivity|]);
    [apply sound_fire; [lra | assumption] | assumption].
Qed.

Lemma violation_2_sound self w acc :
  length (steerings w) = length (timestamps w) ->
  sound acc ->
  exists acc', violation_2 self w acc = Some acc' /\ sound acc'.
Proof.
  intros Hl H. unfold violation_2.
  destruct (5 <=? length (steerings w))%nat eqn:E; [|eauto].
  apply Nat.leb_le in E.
  destruct (from_end_some (timestamps w) 1) as [a ->]; [lia|].
  destruct (from_end_some (timestamps w) 5) as [b ->]; [lia|].
  cbn [mbind option_bind].
  destruct (gtb (a - b) 0); [|eauto].
  destruct (gtb _ _); eexists; (split; [reflexivity|]);
    [apply sound_fire; [lra | assumption] | assumption].
Qed.

Lemma violation_3_sound w acc :
  sound acc ->
  exists acc', violation_3 w acc = Some acc' /\ sound acc'.
Proof.
  intros H. unfold violation_3.
  destruct (_ && _); [|eauto].
  destruct (_ && _); eexists; (split; [reflexivity|]);
    [apply sound_fire; [lra | assumption] | assumption].
Qed.

Lemma violation_4_sound self w current_steering acc :
  (0 < length (brakes w))%nat ->
  sound acc ->
  exists acc', violation_4 self w current_steering acc = Some acc' /\ sound acc'.
Proof.
  intros Hl H. unfold violation_4.
  destruct (from_end_some (brakes w) 1) as [a ->]; [lia|].
  cbn [mbind option_bind].
  destruct (_ && _); eexists; (split; [reflexivity|]);
    [apply sound_fire; [lra | assumption] | assumption].
Qed.

Lemma violation_5_sound self w acc :
  sound acc ->
  exists acc', violation_5 self w acc = Some acc' /\ sound acc'.
Proof.
  intros H. unfold violation_5.
  destruct (_ && _) eqn:E; [|eauto].
  apply andb_prop in E as [E1 E2]. apply Nat.leb_le in E1, E2.
  destruct (from_end_some (timestamps w) 1) as [a ->]; [lia|].
  destruct (from_end_some (timestamps w) 2) as [b ->]; [lia|].
  cbn [mbind option_bind].
  destruct (gtb (a - b) 0); [|eauto].
  destruct (from_end_some (steerings w) 1) as [c ->]; [lia|].
  destruct (from_end_some (steerings w) 2) as [d ->]; [lia|].
  cbn [mbind option_bind].
  destruct (gtb _ _); eexists; (split; [reflexivity|]);
    [apply sound_fire; [lra | assumption] | assumption].
Qed.

Lemma held_add_vehicle_state self s sender_id timestamp speed steering brake :
  (held (add_vehicle_state self sender_id timestamp speed steering brake) s
   <= held self s + (if String.eqb sender_id s then 1 else 0))%nat.
Proof.
  unfold held, add_vehicle_state. cbn [sender_windows].
  destruct (String.eqb sender_id s) eqn:E.
  - apply String.eqb_eq in E. subst s. rewrite lookup_insert_eq.
    cbn [timestamps]. rewrite ctx_deque_append_length.
    destruct (sender_windows self !! sender_id); cbn [from_option id timestamps length]; lia.
  - apply String.eqb_neq in E. rewrite lookup_insert_ne by exact E. lia.
Qed.

Lemma held_add_all states s : forall self,
  (held (add_all self states) s <= held self s + states_of s states)%nat.
Proof.
  induction states as [|[[[[x t] v] a] b] rest IH]; intros self.
  - cbn. lia.
  - unfold add_all in *. cbn [fold_left]. etransitivity; [apply IH|].
    pose proof (held_add_vehicle_state self s x t v a b) as H.
    unfold states_of. cbn [List.filter fst].
    destruct (String.eqb x s); cbn [length]; lia.
Qed.

Lemma sound_result acc :
  sound acc ->
  0 <= min 1.0 (fst acc) <= 1
  /\ (snd acc = [] <-> min 1.0 (fst acc) == 0)
  /\ (snd acc <> [] -> 0.4 <= min 1.0 (fst acc)).
Proof.
  intros (H0 & H1 & H2). unfold min.
  destruct (snd acc) as [|v vs] eqn:E.
  - specialize (H1 eq_refl). split_ifs; to_orders;
      (split; [lra|]); (split; [split; [intros _; lra | reflexivity] | congruence]).
  - assert (H : 0.4 <= fst acc) by (apply H2; discriminate).
    split_ifs; to_orders;
      (split; [lra|]); (split; [split; [discriminate | intros; lra] | intros _; lra]).
Qed.

(** X30. After any calls of [add_vehicle_state] on a new validator,
    [validate_context] raises no [IndexError] for any sender, and its score
    is between 0 and 1; the score is 0 exactly when there are no reasons,
    and at least 0.4 otherwise.  A sender with fewer than three recorded
    states (among them every sender never recorded) scores 0. *)
Theorem context_score_and_reasons (n : nat)
    (states : list (string * Q * Q * Q * Q)) (sender_id : string) :
  exists score violations,
    validate_context (add_all (init n) states) sender_id
    = Some (score, violations)
    /\ 0 <= score <= 1
    /\ (violations = [] <-> score == 0)
    /\ (violations <> [] -> 0.4 <= score)
    /\ ((states_of sender_id states < 3)%nat -> violations = []).
Proof.
  assert (Ha : aligned (add_all (init n) states)).
  { apply add_all_aligned. unfold aligned, init. cbn. apply map_Forall_empty. }
  pose proof (held_add_all states sender_id (init n)) as Hh.
  set (self := add_all (init n) states) in *. clearbody self.
  assert (Htriv : exists score violations,
             Some (0.0, @nil violation) = Some (score, violations)
             /\ 0 <= score <= 1
             /\ (violations = [] <-> score == 0)
             /\ (violations <> [] -> 0.4 <= score)
             /\ ((states_of sender_id states < 3)%nat -> violations = [])).
  { exists 0.0, []. split; [reflexivity|]. split; [lra|].
    split; [split; reflexivity|]. split; [congruence | reflexivity]. }
  unfold validate_context. unfold held in Hh.
  destruct (sender_windows self !! sender_id) as [w|] eqn:E; [|exact Htriv].
  destruct (length (timestamps w) <? 3)%nat eqn:E3; [exact Htriv|].
  apply Nat.ltb_ge in E3. destruct (Ha _ _ E) as (L1 & L2 & L3 & _).
  destruct (from_end_some (speeds w) 1) as [current_speed ->]; [lia|].
  destruct (from_end_some (steerings w) 1) as [current_steering ->]; [lia|].
  cbn [mbind option_bind].
  destruct (violation_1_sound self w current_speed _ sound_start)
    as (acc1 & -> & S1).
  cbn [mbind option_bind].
  destruct (violation_2_sound self w acc1 L2 S1) as (acc2 & -> & S2).
  cbn [mbind option_bind].
  destruct (violation_3_sound w acc2 S2) as (acc3 & -> & S3).
  cbn [mbind option_bind].
  destruct (violation_4_sound self w current_steering acc3 ltac:(lia) S3)
    as (acc4 & -> & S4).
  cbn [mbind option_bind].
  destruct (violation_5_sound self w acc4 S4) as (acc5 & -> & S5).
  cbn [mbind option_bind].
  destruct (sound_result acc5 S5) as (R1 & R2 & R3).
  do 2 eexists. split; [reflexivity|]. split; [exact R1|].
  split; [exact R2|]. split; [exact R3|].
  unfold init in Hh. cbn in Hh. rewrite lookup_empty in Hh. intros Hc. lia.
Qed.

End ContextProps.

(** ** binary64 rounding *)

Module Float64Props.
Import Float64.

Lemma pow2_pos e : 0 < pow2 e.
Proof. apply Qpower_0_lt. reflexivity. Qed.

Lemma pow2_plus a b : pow2 (a + b) == pow2 a * pow2 b.
Proof. apply Qpower_plus. discriminate. Qed.

Lemma pow2_of_Z n : (0 <= n)%Z -> pow2 n == inject_Z (2 ^ n).
Proof. intros H. unfold pow2. now rewrite Zpower_Qpower. Qed.

Lemma round_half_even_near (s : Q) :
  s - (1 # 2) <= inject_Z (round_half_even (Qnum s) (Qden s))
  /\ inject_Z (round_half_even (Qnum s) (Qden s)) <= s + (1 # 2).
Proof.
  destruct s as [n d]. unfold round_half_even. cbn [Qnum Qden].
  pose proof (Z.div_mod n (Zpos d) ltac:(lia)) as Hdm.
  pose proof (Z.mod_pos_bound n (Zpos d) ltac:(lia)) as Hm.
  set (quo := (n / Zpos d)%Z) in *. set (rem := (n mod Zpos d)%Z) in *.
  assert (H : forall m, (2 * (m * Zpos d - n) <= Zpos d)%Z ->
                        (2 * (n - m * Zpos d) <= Zpos d)%Z ->
                        (n # d) - (1 # 2) <= inject_Z m
                        /\ inject_Z m <= (n # d) + (1 # 2)).
  { intros m H1 H2. unfold Qle, Qminus, Qplus, Qopp, inject_Z. cbn. split; nia. }
  destruct (Z.compare_spec (2 * rem) (Zpos d)) as [E | E | E].
  - destruct (Z.even quo); apply H; nia.
  - apply H; nia.
  - apply H; nia.
Qed.

Lemma floor_log2_le (a b : positive) : pow2 (floor_log2 a b) <= Zpos a # b.
Proof.
  unfold floor_log2.
  set (la := Z.log2 (Zpos a)). set (lb := Z.log2 (Zpos b)).
  destruct (Qle_bool (pow2 (la - lb)) (Zpos a # b)) eqn:E.
  - now apply Qle_bool_iff.
  - clear E.
    pose proof (Z.log2_nonneg (Zpos a)) as Ha0.
    pose proof (Z.log2_nonneg (Zpos b)) as Hb0.
    pose proof (Z.log2_spec (Zpos a) ltac:(lia)) as [Ha _].
    pose proof (Z.log2_spec (Zpos b) ltac:(lia)) as [_ Hb].
    fold la in Ha, Ha0. fold lb in Hb, Hb0.
    replace (la - lb - 1)%Z with (la - Z.succ lb)%Z by lia.
    unfold pow2. rewrite Qpower_minus by discriminate.
    fold (pow2 la). fold (pow2 (Z.succ lb)).
    rewrite !pow2_of_Z by lia.
    assert (H2 : (0 < 2 ^ Z.succ lb)%Z) by (apply Z.pow_pos_nonneg; lia).
    assert (H1 : (0 < 2 ^ la)%Z) by (apply Z.pow_pos_nonneg; lia).
    destruct (2 ^ Z.succ lb)%Z as [|y|y] eqn:Ey; try lia.
    destruct (2 ^ la)%Z as [|x|x] eqn:Ex; try lia.
    unfold Qle, Qdiv, Qmult, Qinv, inject_Z. cbn. nia.
Qed.

Lemma round_pos_near (a b : positive) :
  let q := Zpos a # b in
  q - (q * u53 + eta) <= round_pos a b /\ round_pos a b <= q + (q * u53 + eta).
Proof.
  intros q. unfold round_pos.
  set (e := Z.max (floor_log2 a b - 52) (-1074)).
  pose proof (pow2_pos e) as Hp.
  set (s := (Zpos a # b) / pow2 e).
  destruct (round_half_even_near s) as [Hlo Hhi].
  set (m := inject_Z (round_half_even (Qnum s) (Qden s))) in *.
  assert (Hs : s * pow2 e == q).
  { subst s. unfold Qdiv. rewrite <- Qmult_assoc, (Qmult_comm (/ pow2 e)).
    rewrite Qmult_inv_r by lra. fold q. ring. }
  assert (Hhalf : pow2 e * (1 # 2) <= q * u53 + eta).
  { assert (Hq : 0 < q) by reflexivity.
    subst e. destruct (Z.max_spec (floor_log2 a b - 52) (-1074)) as [[_ ->] | [_ ->]].
    - assert (pow2 (-1074) * (1 # 2) == eta) as -> by (vm_compute; reflexivity).
      assert (0 <= q * u53) by (apply Qmult_le_0_compat; [lra | discriminate]).
      lra.
    - replace (floor_log2 a b - 52)%Z with (floor_log2 a b + -52)%Z by lia.
      rewrite pow2_plus.
      pose proof (floor_log2_le a b) as HL. fold q in HL.
      assert (pow2 (-52) * (1 # 2) == u53) as Hu by (vm_compute; reflexivity).
      rewrite <- Qmult_assoc, Hu.
      assert (0 <= eta) by discriminate.
      assert (pow2 (floor_log2 a b) * u53 <= q * u53)
        by (apply Qmult_le_compat_r; [exact HL | discriminate]).
      lra. }
  assert (H1 : (s - (1 # 2)) * pow2 e <= m * pow2 e)
    by (apply Qmult_le_compat_r; lra).
  assert (H2 : m * pow2 e <= (s + (1 # 2)) * pow2 e)
    by (apply Qmult_le_compat_r; lra).
  assert (E1 : (s - (1 # 2)) * pow2 e == q - pow2 e * (1 # 2))
    by (rewrite <- Hs; ring).
  assert (E2 : (s + (1 # 2)) * pow2 e == q + pow2 e * (1 # 2))
    by (rewrite <- Hs; ring).
  rewrite E1 in H1. rewrite E2 in H2. split; lra.
Qed.

(** The rounding error of binary64: at most [2^-53] of the magnitude, plus
    [2^-1075] where the result is subnormal. *)
Lemma b64_near (q : Q) :
  q - (Qabs q * u53 + eta) <= b64 q /\ b64 q <= q + (Qabs q * u53 + eta).
Proof.
  destruct q as [[|a|a] b]; unfold b64; cbn [Qnum Qden].
  - assert (0 # b == 0) as -> by reflexivity.
    cbn. split; discriminate.
  - assert (Qabs (Zpos a # b) = (Zpos a # b)) as -> by reflexivity.
    apply round_pos_near.
  - assert (Qabs (Zneg a # b) = (Zpos a # b)) as -> by reflexivity.
    assert (Zneg a # b == - (Zpos a # b)) as -> by reflexivity.
    destruct (round_pos_near a b) as [H1 H2]. cbv zeta in H1, H2. split; lra.
Qed.

(** In the ranges of the frame codec the error is below [10^-11]. *)
Lemma b64_within (q : Q) :
  -70000 <= q <= 70000 ->
  q - (1 # 100000000000) <= b64 q <= q + (1 # 100000000000).
Proof.
  intros [Hlo Hhi]. destruct (b64_near q) as [H1 H2].
  assert (Ha : Qabs q <= 70000) by (apply Qabs_Qle_condition; split; lra).
  assert (Hu : Qabs q * u53 <= 70000 * u53)
    by (apply Qmult_le_compat_r; [exact Ha | discriminate]).
  assert (Hc : 70000 * u53 + eta <= 1 # 100000000000) by (vm_compute; discriminate).
  split; lra.
Qed.

End Float64Props.

(** ** Frame payloads in binary64 *)

Module Codec64Props.
Import Codec Float64 Float64Props Codec64.

(** [int] of a float within [delta] of a value [p] that is not negative. *)
Lemma py_int_of_near (P p delta : Q) :
  0 <= p -> delta < 1 -> p - delta <= P -> P <= p + delta ->
  (0 <= py_int P)%Z
  /\ inject_Z (py_int P) <= p + delta
  /\ p < inject_Z (py_int P) + 1 + delta.
Proof.
  intros Hp Hd Hlo Hhi.
  assert (Hnn : (0 <= py_int P)%Z).
  { destruct (Z.lt_ge_cases (py_int P) 0) as [H | H]; [|exact H].
    apply CodecMoreProps.py_int_neg in H. lra. }
  split; [exact Hnn|].
  destruct (Qlt_le_dec P 0) as [Hneg | Hpos].
  - assert (H0 : py_int P = 0%Z).
    { destruct (Z.le_gt_cases (py_int P) 0) as [H | H]; [lia|].
      assert (H' : (1 <= py_int P)%Z) by lia.
      apply CodecMoreProps.py_int_ge in H'; [|lia].
      change (inject_Z 1) with 1 in H'. lra. }
    rewrite H0. change (inject_Z 0) with 0. split; lra.
  - destruct (CodecProps.py_int_floor P Hpos) as [H1 H2]. split; lra.
Qed.

(** The payload of a float within [delta] of a value in [[0, 65535]]. *)
Lemma frame_of_near (P p delta : Q) :
  0 <= p -> p <= 65535 -> delta < 1 -> p - delta <= P -> P <= p + delta ->
  exists data,
    frame_data (py_int P) = Some data
    /\ length data = 8%nat
    /\ int_from_bytes_big (take 2 data) = py_int P
    /\ (0 <= py_int P <= 65535)%Z
    /\ inject_Z (py_int P) <= p + delta
    /\ p < inject_Z (py_int P) + 1 + delta.
Proof.
  intros Hp Hmax Hd Hlo Hhi.
  destruct (py_int_of_near P p delta Hp Hd Hlo Hhi) as (H0 & H1 & H2).
  assert (Htop : (py_int P <= 65535)%Z).
  { destruct (Z.le_gt_cases (py_int P) 65535) as [H | H]; [exact H|].
    assert (H' : (65536 <= py_int P)%Z) by lia.
    apply CodecMoreProps.py_int_ge in H'; [|lia].
    change (inject_Z 65536) with 65536 in H'. lra. }
  destruct (CodecProps.frame_data_reads_back (py_int P)) as (data & Hd' & Hlen & Hback);
    [lia|].
  exists data. repeat split; auto.
Qed.

(** C7 (amended). For a value [x] in the range of its signal the producer
    builds an 8-byte payload, and the listener decodes from it the signal
    and a value [y] with [y - 10^-10 <= x < y + 0.1 + 10^-10]: the encoder
    truncates to a tenth, it does not round, and the binary64 operations
    move the result by less than [10^-10]. *)
Theorem roundtrip_truncates_up_to_rounding (s : signal) (x : Q) :
  in_range s x ->
  exists data y,
    encode s x = Some data
    /\ length data = 8%nat
    /\ extract_signal (can_id_of s) data = Some (s, y)
    /\ roundtrip s x = Some y
    /\ y - (1 # 10000000000) <= x
    /\ x < y + 0.1 + (1 # 10000000000).
Proof.
  intros Hr. unfold roundtrip, encode.
  destruct s; cbn [in_range scaled can_id_of] in *.
  - (* steering *)
    unfold fmul, fadd.
    pose proof (b64_within (x + 45) ltac:(lra)) as H1.
    set (t1 := b64 (x + 45)) in *.
    pose proof (b64_within (t1 * 10) ltac:(lra)) as H2.
    set (P := b64 (t1 * 10)) in *.
    destruct (frame_of_near P ((x + 45) * 10) (11 # 100000000000))
      as (data & -> & Hlen & Hback & Hn & Hle & Hlt); try lra.
    exists data. eexists. split; [reflexivity|]. split; [exact Hlen|].
    unfold extract_signal. cbn [Z.eqb Pos.eqb]. rewrite Hback.
    split; [reflexivity|]. split; [reflexivity|].
    unfold value, fsub, fdiv.
    assert (Hn' : 0 <= inject_Z (py_int P) <= 65535).
    { split; [change 0 with (inject_Z 0) | change 65535 with (inject_Z 65535)];
        rewrite <- Zle_Qle; lia. }
    set (n := inject_Z (py_int P)) in *.
    unfold Qdiv. change (/ 10.0) with (10 # 100).
    pose proof (b64_within (n * (10 # 100)) ltac:(lra)) as H3.
    set (d1 := b64 (n * (10 # 100))) in *.
    pose proof (b64_within (d1 - 45.0) ltac:(lra)) as H4.
    set (y := b64 (d1 - 45.0)) in *.
    split; lra.
  - (* speed *)
    unfold fmul.
    pose proof (b64_within (x * 10) ltac:(lra)) as H2.
    set (P := b64 (x * 10)) in *.
    destruct (frame_of_near P (x * 10) (1 # 100000000000))
      as (data & -> & Hlen & Hback & Hn & Hle & Hlt); try lra.
    exists data. eexists. split; [reflexivity|]. split; [exact Hlen|].
    unfold extract_signal. cbn [Z.eqb Pos.eqb]. rewrite Hback.
    split; [reflexivity|]. split; [reflexivity|].
    unfold value, fdiv.
    assert (Hn' : 0 <= inject_Z (py_int P) <= 65535).
    { split; [change 0 with (inject_Z 0) | change 65535 with (inject_Z 65535)];
        rewrite <- Zle_Qle; lia. }
    set (n := inject_Z (py_int P)) in *.
    unfold Qdiv. change (/ 10.0) with (10 # 100).
    pose proof (b64_within (n * (10 # 100)) ltac:(lra)) as H3.
    set (y := b64 (n * (10 # 100))) in *.
    split; lra.
  - (* brake *)
    unfold fmul.
    pose proof (b64_within (x * 10) ltac:(lra)) as H2.
    set (P := b64 (x * 10)) in *.
    destruct (frame_of_near P (x * 10) (1 # 100000000000))
      as (data & -> & Hlen & Hback & Hn & Hle & Hlt); try lra.
    exists data. eexists. split; [reflexivity|]. split; [exact Hlen|].
    unfold extract_signal. cbn [Z.eqb Pos.eqb]. rewrite Hback.
    split; [reflexivity|]. split; [reflexivity|].
    unfold value, fdiv.
    assert (Hn' : 0 <= inject_Z (py_int P) <= 65535).
    { split; [change 0 with (inject_Z 0) | change 65535 with (inject_Z 65535)];
        rewrite <- Zle_Qle; lia. }
    set (n := inject_Z (py_int P)) in *.
    unfold Qdiv. change (/ 10.0) with (10 # 100).
    pose proof (b64_within (n * (10 # 100)) ltac:(lra)) as H3.
    set (y := b64 (n * (10 # 100))) in *.
    split; lra.
Qed.

(** The steering angle -44.6 (as a float), encoded and decoded. *)
Lemma roundtrip_truncates_up_to_rounding_witness :
  in_range Steering (b64 (-44.6))
  /\ exists data y,
       encode Steering (b64 (-44.6)) = Some data
       /\ length data = 8%nat
       /\ extract_signal (can_id_of Steering) data = Some (Steering, y)
       /\ roundtrip Steering (b64 (-44.6)) = Some y
       /\ y - (1 # 10000000000) <= b64 (-44.6)
       /\ b64 (-44.6) < y + 0.1 + (1 # 10000000000).
Proof.
  assert (H : in_range Steering (b64 (-44.6)))
    by (split; vm_compute; discriminate).
  split; [exact H|].
  exact (roundtrip_truncates_up_to_rounding Steering (b64 (-44.6)) H).
Defined.

(** C7 (as stated) fails: the speed 0.09 km/h is sent as payload 0 and
    decoded as 0, which is 0.09 away, not within 0.05.  And the bound of a
    truncation is met only up to rounding: the steering angle -44.6 is sent
    as payload 3 (not 4) and decoded more than 0.1 below it, and the speed
    0.8999999999999999 is sent as payload 9 and decoded as 0.9, above it. *)
Lemma roundtrip_misses_tolerance :
  (in_range Speed (b64 0.09)
   /\ scaled Speed (b64 0.09) = 0%Z
   /\ exists y, roundtrip Speed (b64 0.09) = Some y
       /\ y == 0 /\ ~ Qabs (y - b64 0.09) <= 0.05)
  /\ (in_range Steering (b64 (-44.6))
      /\ scaled Steering (b64 (-44.6)) = 3%Z
      /\ exists y, roundtrip Steering (b64 (-44.6)) = Some y
          /\ y + 0.1 < b64 (-44.6))
  /\ (in_range Speed (b64 0.8999999999999999)
      /\ scaled Speed (b64 0.8999999999999999) = 9%Z
      /\ exists y, roundtrip Speed (b64 0.8999999999999999) = Some y
          /\ b64 0.8999999999999999 < y).
Proof.
  split; [|split].
  - split; [split; vm_compute; discriminate|].
    split; [vm_compute; reflexivity|].
    eexists. split; [vm_compute; reflexivity|].
    split; [vm_compute; reflexivity|].
    intros H. vm_compute in H. apply H. reflexivity.
  - split; [split; vm_compute; discriminate|].
    split; [vm_compute; reflexivity|].
    eexists. split; [vm_compute; reflexivity|]. vm_compute. reflexivity.
  - split; [split; vm_compute; discriminate|].
    split; [vm_compute; reflexivity|].
    eexists. split; [vm_compute; reflexivity|]. vm_compute. reflexivity.
Qed.

(** Every payload integer of the ranges, checked. *)
Lemma reencode_checked (s : signal) :
  forallb (reencode_check s) (seqZ 0 (top s + 1)) = true.
Proof. destruct s; vm_compute; reflexivity. Qed.

Lemma not_reproduced_low : Forall (fun n => (n < 150)%Z) not_reproduced.
Proof. repeat constructor. Qed.

(** X18. In binary64, decoding a payload and encoding the value again gives
    the payload back for every speed payload up to 120 km/h, every brake
    payload up to 100 percent and every steering payload from -30 to 45
    degrees, the range the producer clamps to.  Below -30 degrees it does
    not: 51 steering payloads, the third and fourth of every five up to 124
    and 128, come back one lower. *)
Theorem reencode_in_binary64 (s : signal) (n : Z) :
  (0 <= n <= top s)%Z ->
  exists data,
    frame_data n = Some data
    /\ extract_signal (can_id_of s) data = Some (s, value s n)
    /\ (encode s (value s n) = Some data
        <-> ~ (s = Steering /\ n ∈ not_reproduced))
    /\ (s = Steering -> n ∈ not_reproduced ->
        (n < 150)%Z /\ encode s (value s n) = frame_data (n - 1))
    /\ (s = Steering -> (150 <= n)%Z -> encode s (value s n) = Some data).
Proof.
  intros Hn.
  assert (Htop : (top s <= 1200)%Z) by (destruct s; cbn; lia).
  destruct (CodecProps.frame_data_reads_back n) as (data & Hd & _ & Hback); [lia|].
  exists data. split; [exact Hd|].
  split; [destruct s; unfold extract_signal; cbn [can_id_of Z.eqb Pos.eqb];
          now rewrite Hback|].
  pose proof (reencode_checked s) as Hall.
  rewrite forallb_forall in Hall.
  assert (Hin : In n (seqZ 0 (top s + 1))).
  { apply list_elem_of_In, elem_of_seqZ. lia. }
  specialize (Hall n Hin). unfold reencode_check in Hall.
  unfold encode. fold (reencoded s n).
  assert (Hne : forall m, frame_data m = Some data -> m = n).
  { intros m Hm.
    destruct (Z_lt_ge_dec m 0) as [Hlt | Hge];
      [assert (frame_data m = None) by (apply CodecMoreProps.frame_data_none; lia);
       congruence|].
    destruct (Z_lt_ge_dec m 65536) as [Hlt | Hge'];
      [|assert (frame_data m = None) by (apply CodecMoreProps.frame_data_none; lia);
        congruence].
    destruct (CodecProps.frame_data_reads_back m) as (d' & Hd' & _ & Hb'); [lia|].
    congruence. }
  destruct s.
  - destruct (bool_decide_reflect (n ∈ not_reproduced)) as [Hbad | Hgood].
    + apply Z.eqb_eq in Hall.
      assert (Hlow : (n < 150)%Z).
      { pose proof not_reproduced_low as F. rewrite Forall_forall in F.
        apply F. exact Hbad. }
      split; [|split].
      * split; [|intros H; exfalso; apply H; now split].
        intros H. rewrite Hall in H. apply Hne in H. lia.
      * intros _ _. split; [exact Hlow | now rewrite Hall].
      * intros _ H. lia.
    + apply Z.eqb_eq in Hall. rewrite Hall.
      split; [|split].
      * split; [intros _ [_ H]; contradiction | intros _; exact Hd].
      * intros _ H. contradiction.
      * intros _ _. exact Hd.
  - apply Z.eqb_eq in Hall. rewrite Hall.
    split; [|split]; try discriminate.
    split; [intros _ [H _]; discriminate | intros _; exact Hd].
  - apply Z.eqb_eq in Hall. rewrite Hall.
    split; [|split]; try discriminate.
    split; [intros _ [H _]; discriminate | intros _; exact Hd].
Qed.

(** The steering payloads 3 and 150. *)
Lemma reencode_in_binary64_witness :
  (exists data,
     frame_data 3 = Some data
     /\ extract_signal (can_id_of Steering) data = Some (Steering, value Steering 3)
     /\ (encode Steering (value Steering 3) = Some data
         <-> ~ (Steering = Steering /\ 3%Z ∈ not_reproduced))
     /\ (Steering = Steering -> 3%Z ∈ not_reproduced ->
         (3 < 150)%Z /\ encode Steering (value Steering 3) = frame_data (3 - 1))
     /\ (Steering = Steering -> (150 <= 3)%Z ->
         encode Steering (value Steering 3) = Some data))
  /\ (exists data,
       frame_data 150 = Some data
       /\ extract_signal (can_id_of Steering) data
          = Some (Steering, value Steering 150)
       /\ (encode Steering (value Steering 150) = Some data
           <-> ~ (Steering = Steering /\ 150%Z ∈ not_reproduced))
       /\ (Steering = Steering -> 150%Z ∈ not_reproduced ->
           (150 < 150)%Z
           /\ encode Steering (value Steering 150) = frame_data (150 - 1))
       /\ (Steering = Steering -> (150 <= 150)%Z ->
           encode Steering (value Steering 150) = Some data)).
Proof.
  split.
  - apply (reencode_in_binary64 Steering 3). cbn. lia.
  - apply (reencode_in_binary64 Steering 150). cbn. lia.
Defined.

End Codec64Props.

(** ** The replay rule over a run of envelopes *)

Module ReplayProps.
Import Security SecurityRun SecurityProps SecurityMore ReplayTrace.

Section WithHmac.

Variable hmac_sha256 : string -> string -> list Byte.byte.

Abbreviation verify3 := (verify_message hmac_sha256).
Abbreviation check3 := (check_signature hmac_sha256).


(** An envelope of another device leaves the stored sequence alone. *)
Lemma verify_keeps_other_sequence now msg v d :
  e_device_id msg <> PStr d ->
  last_sequence d (fst (verify3 now msg v)) = last_sequence d v.
Proof.
  intros Hne. unfold last_sequence. f_equal. unfold verify_message.
  destruct (negb _); [auto|].
  destruct (e_device_id msg) as [|n|d0]; auto.
  assert (Hd : d <> d0) by congruence.
  destruct (get_device_key d0) as [key|]; auto.
  destruct (String.eqb key ""); auto.
  destruct (e_timestamp msg) as [|ts|t]; auto.
  destruct (Z.abs (now - ts) >? TIMESTAMP_WINDOW_MS)%Z; auto.
  cbn [read_last_sequence].
  destruct (e_sequence msg) as [|seq|q]; cbn [fst last_sequences];
    try (apply lookup_insert_ne; congruence).
  assert (Hc : forall w,
             last_sequences (fst (check3 now key d0 ts seq msg w)) !! d
             = last_sequences w !! d).
  { intros w. unfold check_signature.
    destruct (e_signature msg) as [|n|sig]; cbn; auto.
    destruct (negb _); cbn; auto. destruct (negb _); cbn; auto.
    apply lookup_insert_ne. congruence. }
  destruct (seq <=? _)%Z; [destruct (seq <? _)%Z|]; rewrite ?Hc; cbn;
    rewrite ?lookup_insert_ne by congruence; reflexivity.
Qed.




(** X23. Once an envelope of a device with sequence [seq] was accepted,
    and whatever envelopes of other devices the verifier has processed
    since, every envelope of the device with a sequence from [seq - 100]
    to [seq] is rejected, at any clock; the accepted envelope itself is
    among them. *)
Theorem replay_window_stays_closed
    (now : Z) (msg : envelope) (v : MessageVerifier) (d : string) (seq : Z)
    (others : list (Z * envelope)) (now2 : Z) (msg2 : envelope) (seq2 : Z) :
  fst (snd (verify3 now msg v)) = true ->
  e_device_id msg = PStr d ->
  e_sequence msg = PInt seq ->
  Forall (fun ev => e_device_id (snd ev) <> PStr d) others ->
  e_device_id msg2 = PStr d ->
  e_sequence msg2 = PInt seq2 ->
  (seq - 100 <= seq2 <= seq)%Z ->
  let v' := verify_all hmac_sha256 others (fst (verify3 now msg v)) in
  last_sequence d v' = seq
  /\ fst (snd (verify3 now2 msg2 v')) = false
  /\ fst (snd (verify3 now2 msg v')) = false.
Proof.
  intros Hacc Hd Hseq Hothers Hd2 Hseq2 Hwin v'.
  assert (Hst : last_sequence d v' = seq).
  { subst v'.
    destruct (verify_accept_facts hmac_sha256 now msg v Hacc)
      as (d0 & key & ts & s0 & Hd0 & _ & _ & Hs0 & _ & _ & Hst & _).
    assert (d0 = d) by congruence. assert (s0 = seq) by congruence. subst d0 s0.
    apply last_sequence_anchor in Hst.
    revert Hst. generalize (fst (verify3 now msg v)). unfold verify_all.
    induction Hothers as [|[t m] rest Hne _ IH]; intros w Hw; [exact Hw|].
    cbn [fold_left fst snd]. apply IH.
    rewrite verify_keeps_other_sequence; [exact Hw | exact Hne]. }
  split; [exact Hst|]. split.
  - apply (verify_rejects_in_window hmac_sha256 now2 msg2 v' d seq2 Hd2 Hseq2). lia.
  - apply (verify_rejects_in_window hmac_sha256 now2 msg v' d seq Hd Hseq). lia.
Qed.

End WithHmac.



(** Sequence 450 of the speed ECU accepted, a brake envelope processed,
    then sequence 400 and sequence 450 again. *)
Lemma replay_window_stays_closed_witness :
  let d := "vehicleA-speed-ecu" in
  let older :=
    snd (sign_message toy_digest 1000100 0x130 frame_30
           {| s_device_id := d; s_key := "speed_key_v1_secret_2024";
              s_sequence := 399; saved_sequence := Some 399%Z |}) in
  let v' :=
    verify_all toy_digest [(1000260%Z, brake_7)]
      (fst (verify_message toy_digest 1000200 genuine_450 verifier_init)) in
  fst (snd (verify_message toy_digest 1000200 genuine_450 verifier_init)) = true
  /\ fst (snd (verify_message toy_digest 1000260 brake_7
                 (fst (verify_message toy_digest 1000200 genuine_450
                         verifier_init)))) = true
  /\ last_sequence d v' = 450%Z
  /\ fst (snd (verify_message toy_digest 1000300 older v')) = false
  /\ fst (snd (verify_message toy_digest 1000300 genuine_450 v')) = false.
Proof.
  intros d older v'. split; [exact genuine_450_accepted|].
  split; [vm_compute; reflexivity|].
  refine (replay_window_stays_closed toy_digest 1000200 genuine_450
            verifier_init d 450 [(1000260%Z, brake_7)] 1000300 older 400
            genuine_450_accepted eq_refl eq_refl _ eq_refl eq_refl _).
  - repeat constructor. cbn. discriminate.
  - lia.
Defined.

End ReplayProps.
